(** * Flux probabilistic demand-forecasting engine

    A shallow embedding of the forecasting core of the Flux API
    ([services/forecasting/bayesian.py], [services/forecast.py],
    [services/features.py]) and the properties of it that the design
    specification states.

    Conventions of the embedding.
    - Python [float] values are exact rationals ([Q]); the decimal literals
      of the source ([0.01], [1.3], [0.7], ...) denote the same decimals.
      NaN and infinities do not exist in this model, so the [np.isnan]
      guard of [_calculate_seasonality] is never taken.
    - A [datetime.date] (and a midnight [pd.Timestamp]) is its proleptic
      Gregorian ordinal, as [date.toordinal()] gives it: day 1 is
      0001-01-01, a Monday.
    - A Python [dict] is a [gmap]; a [pd.DataFrame] is the list of its rows
      in index order.
    - Exceptions are the [Raise] case of [Result].
    - [numpy]'s global generator and [scipy.stats.nbinom.rvs] are the
      interface [NumPy]: a state, a seeding function and a sampler. *)

From Stdlib Require Import QArith Qround Qabs Qminmax Lqa.
From stdpp Require Import gmap strings list fin_maps sorting pretty.

#[local] Open Scope Q_scope.

(** ** Exceptions *)

Inductive Exn : Type :=
| ZeroDivisionError
| ValueError (msg : string)
| MultipleResultsFound.

Inductive Result (A : Type) : Type :=
| Ok (a : A)
| Raise (e : Exn).
Arguments Ok {A} a.
Arguments Raise {A} e.

#[global] Instance Result_ret : MRet Result := fun A a => Ok a.

#[global] Instance Result_bind : MBind Result := fun A B k r =>
  match r with
  | Ok a => k a
  | Raise e => Raise e
  end.

(** ** Numbers *)

Module Num.

Definition Qltb (a b : Q) : bool := negb (Qle_bool b a).

(** Python's [max(a, b)] and [min(a, b)]: the first argument is kept
    unless the second is strictly better. *)
Definition py_max (a b : Q) : Q := if Qltb a b then b else a.
Definition py_min (a b : Q) : Q := if Qltb b a then b else a.

(** Addition, with the result kept in lowest terms. *)
Definition add (a b : Q) : Q := Qred (a + b).

(** The builtin [sum] of a list: a left fold from [0]. *)
Definition sum (l : list Q) : Q := fold_left add l 0.

Definition of_nat (n : nat) : Q := inject_Z (Z.of_nat n).

(** [np.mean] / [Series.mean] of a non-empty array. *)
Definition mean (l : list Q) : Q := sum l / of_nat (length l).

End Num.

(** ** Calendar dates *)

Module Date.

(** [date.weekday()] and [DatetimeIndex.dayofweek]: Monday is 0. *)
Definition dayofweek (d : Z) : Z := ((d + 6) mod 7)%Z.

(** Year, month and day of an ordinal (the civil-from-days computation
    on 400-year eras that start on 1 March). *)
Definition civil (ord : Z) : Z * Z * Z :=
  let z := (ord + 305)%Z in
  let era := (z / 146097)%Z in
  let doe := (z mod 146097)%Z in
  let yoe := ((doe - doe / 1460 + doe / 36524 - doe / 146096) / 365)%Z in
  let doy := (doe - (365 * yoe + yoe / 4 - yoe / 100))%Z in
  let mp := ((5 * doy + 2) / 153)%Z in
  let d := (doy - (153 * mp + 2) / 5 + 1)%Z in
  let m := (if mp <? 10 then mp + 3 else mp - 9)%Z in
  let y := (yoe + era * 400 + (if m <=? 2 then 1 else 0))%Z in
  (y, m, d).

Definition zero_pad (width : nat) (n : Z) : string :=
  let digits := pretty n in
  String.concat "" (replicate (width - String.length digits) "0")
    +:+ digits.

(** [date.isoformat()]: [YYYY-MM-DD]. *)
Definition isoformat (ord : Z) : string :=
  let '(y, m, d) := civil ord in
  zero_pad 4 y +:+ "-" +:+ zero_pad 2 m +:+ "-" +:+ zero_pad 2 d.

End Date.

(** ** [numpy] and [scipy.stats] *)

(** The process-wide generator of [np.random] together with the sampler
    behind [scipy.stats.nbinom.rvs], and [np.exp]. A draw of [size] values
    returns that many non-negative integers and the advanced state. *)
Class NumPy : Type := {
  RandomState : Type;
  random_seed : Z -> RandomState;
  nbinom_sample : Q -> Q -> nat -> RandomState -> list nat * RandomState;
  nbinom_sample_length :
    forall (n p : Q) (size : nat) (s : RandomState),
      length (fst (nbinom_sample n p size s)) = size;
  np_exp : Q -> Q
}.

Module Stats.

Import Num.

#[global] Instance Qle_rel_dec : RelDecision Qle := fun x y =>
  match Qlt_le_dec y x with
  | left H => right (Qlt_not_le _ _ H)
  | right H => left H
  end.

Definition sort (a : list Q) : list Q := merge_sort Qle a.

(** [np.percentile(a, q)] with the default linear interpolation: the
    virtual index [(n - 1) * q / 100] is split into its floor and its
    fractional part; the neighbour above is clamped to the last slot. *)
Definition percentile (a : list Q) (q : Q) : Q :=
  let s := sort a in
  let n := length s in
  let h := of_nat (n - 1) * (q / 100) in
  let k := Z.to_nat (Qfloor h) in
  let g := h - inject_Z (Qfloor h) in
  let lo := nth k s 0 in
  let hi := nth (Nat.min (k + 1) (n - 1)) s 0 in
  lo + g * (hi - lo).

(** [Series.median()]: the middle value, or the mean of the two middle
    values of an even-sized sample. *)
Definition median (a : list Q) : Q :=
  let s := sort a in
  let n := length s in
  if Nat.even n
  then (nth (n / 2 - 1) s 0 + nth (n / 2) s 0) / 2
  else nth (n / 2) s 0.

(** The argument check of [nbinom]: [n > 0], [0 < p <= 1]. *)
Definition nbinom_argcheck (n p : Q) : bool :=
  Qltb 0 n && Qltb 0 p && Qle_bool p 1.

(** [stats.nbinom.rvs(n, p, size=size)] on the global generator. *)
Definition nbinom_rvs `{NumPy} (n p : Q) (size : nat) (s : RandomState)
  : Result (list nat) * RandomState :=
  if nbinom_argcheck n p
  then let '(xs, s') := nbinom_sample n p size s in (Ok xs, s')
  else (Raise (ValueError "Domain error in arguments."), s).

End Stats.

(** ** [services/forecasting/bayesian.py] *)

Module Bayesian.

Import Num Stats.

Inductive Explanation : Type :=
| Seasonality (m : Q)
| ColdStart (prior_source : string).

(** [logic_trigger] is kept as the list of its parts: the source joins
    their renderings with a comma, and writes "Normal" for none. *)
Record ForecastDistribution : Type := {
  date : string;
  mean : Q;
  p10 : Q;
  p50 : Q;
  p90 : Q;
  p99 : Q;
  confidence_score : Q;
  logic_trigger : list Explanation
}.

Record GammaParams : Type := { alpha : Q; beta : Q }.

Record BayesianForecaster : Type := {
  global_prior : GammaParams;
  category_priors : gmap string GammaParams
}.

Definition init (global_alpha global_beta : Q) : BayesianForecaster :=
  {| global_prior := {| alpha := global_alpha; beta := global_beta |};
     category_priors := ∅ |}.

(** [BayesianForecaster()]: the defaults of [__init__]. *)
Definition default_forecaster : BayesianForecaster := init 2.0 0.5.

Definition set_prior (self : BayesianForecaster) (cat : string)
    (g : GammaParams) : BayesianForecaster :=
  {| global_prior := global_prior self;
     category_priors := <[cat := g]> (category_priors self) |}.

(** One iteration of the loop of [learn_priors]. *)
Definition learn_group (cat : string) (data : list Q)
    (self : BayesianForecaster) : BayesianForecaster :=
  match data with
  | [] => set_prior self cat (global_prior self)
  | _ =>
      let n := length data in
      let sum_y := sum data in
      let cat_alpha := alpha (global_prior self) + sum_y in
      let cat_beta := beta (global_prior self) + of_nat n in
      set_prior self cat {| alpha := cat_alpha; beta := cat_beta |}
  end.

Definition learn_priors (self : BayesianForecaster)
    (category_data : gmap string (list Q)) : BayesianForecaster :=
  map_fold learn_group self category_data.

(** Step 1 of [predict_item]: [category and category in ...]. *)
Definition select_prior (self : BayesianForecaster)
    (category : option string) : GammaParams * string :=
  match category with
  | Some c =>
      if bool_decide (c = "") then (global_prior self, "Global")
      else match category_priors self !! c with
           | Some g => (g, "Category")
           | None => (global_prior self, "Global")
           end
  | None => (global_prior self, "Global")
  end.

Definition flat_profile : gmap Z Q :=
  list_to_map (map (fun i : Z => (i, 1.0)) [0; 1; 2; 3; 4; 5; 6]%Z).

(** [seasonal_multipliers or {i: 1.0 for i in range(7)}]. *)
Definition multipliers_or_flat (seasonal_multipliers : option (gmap Z Q))
  : gmap Z Q :=
  match seasonal_multipliers with
  | Some d => if bool_decide (d = ∅) then flat_profile else d
  | None => flat_profile
  end.

(** [multipliers.get(dow, 1.0)]. *)
Definition get_multiplier (multipliers : gmap Z Q) (dow : Z) : Q :=
  default 1.0 (multipliers !! dow).

(** Step 2: the de-seasonalisation loop over [zip(history, dows)]. *)
Definition deseasonalize_step (multipliers : gmap Z Q)
    (deseasonalized_history : list Q) (obs : Q * Z) : list Q :=
  let '(y, dow) := obs in
  let m := get_multiplier multipliers dow in
  if Qltb m 0.01 then deseasonalized_history
  else deseasonalized_history ++ [y / m].

Definition deseasonalize (multipliers : gmap Z Q)
    (item_history : list Q) (history_dows : list Z) : list Q :=
  fold_left (deseasonalize_step multipliers)
    (zip item_history history_dows) [].

Definition n_samples : nat := Z.to_nat 10000.

Definition explain (m : Q) (n : nat) (prior_source : string)
  : list Explanation :=
  (if Qltb 0.1 (Qabs (m - 1.0)) then [Seasonality m] else [])
  ++ (if (n <? 5)%nat then [ColdStart prior_source] else []).

Section Predict.
Context `{NumPy}.

(** Step 4: one iteration per [(date_str, dow)] of the future. *)
Fixpoint forecast_loop (multipliers : gmap Z Q) (nb_n nb_p confidence : Q)
    (n : nat) (prior_source : string) (future : list (string * Z))
    (s : RandomState) : Result (list ForecastDistribution) * RandomState :=
  match future with
  | [] => (Ok [], s)
  | (date_str, dow) :: rest =>
      let m := get_multiplier multipliers dow in
      match nbinom_rvs nb_n nb_p n_samples s with
      | (Raise e, s') => (Raise e, s')
      | (Ok base_samples, s') =>
          let scaled_samples := map (fun x => of_nat x * m) base_samples in
          let f := {| date := date_str;
                      mean := Num.mean scaled_samples;
                      p10 := percentile scaled_samples 10;
                      p50 := percentile scaled_samples 50;
                      p90 := percentile scaled_samples 90;
                      p99 := percentile scaled_samples 99;
                      confidence_score := confidence;
                      logic_trigger := explain m n prior_source |} in
          match forecast_loop multipliers nb_n nb_p confidence n
                  prior_source rest s' with
          | (Ok forecasts, s'') => (Ok (f :: forecasts), s'')
          | (Raise e, s'') => (Raise e, s'')
          end
      end
  end.

(** [predict_item]; the incoming generator state [s0] is overwritten by
    [np.random.seed(42)] unless the division of step 3 raises first. *)
Definition predict_item (self : BayesianForecaster)
    (item_history : list Q) (history_dows : list Z)
    (future_dates : list string) (future_dows : list Z)
    (category : option string)
    (seasonal_multipliers : option (gmap Z Q))
    (s0 : RandomState)
  : Result (list ForecastDistribution) * RandomState :=
  let '(prior, prior_source) := select_prior self category in
  let multipliers := multipliers_or_flat seasonal_multipliers in
  let deseasonalized_history :=
    deseasonalize multipliers item_history history_dows in
  let n := length deseasonalized_history in
  let sum_y_prime := sum deseasonalized_history in
  let post_alpha := alpha prior + sum_y_prime in
  let post_beta := beta prior + of_nat n in
  let nb_n := post_alpha in
  if Qeq_bool (post_beta + 1.0) 0 then (Raise ZeroDivisionError, s0)
  else
    let nb_p := post_beta / (post_beta + 1.0) in
    let confidence :=
      1.0 / (1.0 + np_exp (- (of_nat n - 5.0) / 5.0)) in
    let s := random_seed 42 in
    forecast_loop multipliers nb_n nb_p confidence n prior_source
      (zip future_dates future_dows) s.

End Predict.

End Bayesian.

(** ** The database session ([models/]) *)

(** Only the columns the forecasting services read or write. UUID keys
    are integers. *)

Module MenuItem.
Record t : Type := { id : Z; restaurant_id : Z; name : string }.
End MenuItem.

Module Transaction.
Record t : Type := {
  id : Z;
  restaurant_id : Z;
  transaction_date : Z;
  stockout_occurred : option bool
}.
End Transaction.

Module TransactionItem.
Record t : Type := {
  transaction_id : Z;
  menu_item_name : string;
  quantity : Z
}.
End TransactionItem.

Module InventorySnapshot.
Record t : Type := {
  restaurant_id : Z;
  menu_item_id : Z;
  date : Z;
  stockout_flag : string
}.
End InventorySnapshot.

Module DemandForecast.
(** [model_name] keeps the parts of the forecast's [logic_trigger]. *)
Record t : Type := {
  restaurant_id : Z;
  menu_item_name : string;
  forecast_date : Z;
  predicted_quantity : Q;
  p10_quantity : Q;
  p50_quantity : Q;
  p90_quantity : Q;
  model_name : string * list Bayesian.Explanation
}.
End DemandForecast.

Record Session : Type := {
  menu_items : list MenuItem.t;
  transactions : list Transaction.t;
  transaction_items : list TransactionItem.t;
  inventory_snapshots : list InventorySnapshot.t;
  demand_forecasts : list DemandForecast.t
}.

(** [Result.scalar_one_or_none()]. *)
Definition scalar_one_or_none {A : Type} (rows : list A) : Result (option A) :=
  match rows with
  | [] => Ok None
  | [x] => Ok (Some x)
  | _ => Raise MultipleResultsFound
  end.

(** ** [services/features.py] *)

Module Features.

Import Num Stats.

(** One row of the grouped sales query. *)
Record SalesRow : Type := {
  sale_date : Z;
  item_name : string;
  daily_qty : Z;
  stockout_flag : option bool
}.

(** The frame after re-indexing, with the imputation column. The
    [is_promo] and [hours_open] columns are carried along unchanged by
    the source and are left out. *)
Record Row : Type := {
  index : Z;
  quantity : Q;
  stockout : bool;
  adjusted_quantity : Q
}.

(** A row of the returned frame. *)
Record FeatureRow : Type := {
  day : Row;
  lag_1 : option Q;
  lag_7 : option Q;
  lag_28 : option Q;
  roll_7_mean : option Q;
  roll_28_mean : option Q;
  dow : Z;
  month : Z;
  is_weekend : Z
}.

(** SQL [bool_or]: NULL inputs are skipped; NULL when all are. *)
Definition bool_or (flags : list (option bool)) : option bool :=
  foldr (fun f acc =>
           match f, acc with
           | Some a, Some b => Some (a || b)
           | Some a, None => Some a
           | None, _ => acc
           end) None flags.

(** The statement [stmt]: line items joined to their transaction, kept
    for the restaurant from the cut-off date on (and for [target_name]
    when the item filter is added), grouped by date and item name. *)
Definition sales_query (db : Session) (restaurant_id cutoff_date : Z)
    (target_name : option string) : list SalesRow :=
  let joined : list (Transaction.t * TransactionItem.t) :=
    ti ← transaction_items db;
    t ← transactions db;
    if bool_decide (TransactionItem.transaction_id ti = Transaction.id t
                    ∧ Transaction.restaurant_id t = restaurant_id
                    ∧ (cutoff_date <= Transaction.transaction_date t)%Z)
       && match target_name with
          | Some n => bool_decide (TransactionItem.menu_item_name ti = n)
          | None => true
          end
    then [(t, ti)] else [] in
  let key (r : Transaction.t * TransactionItem.t) : Z * string :=
    (Transaction.transaction_date r.1, TransactionItem.menu_item_name r.2) in
  (fun k : Z * string =>
     let group := filter (fun r => key r = k) joined in
     {| sale_date := k.1;
        item_name := k.2;
        daily_qty :=
          foldr Z.add 0%Z (map (fun r => TransactionItem.quantity r.2) group);
        stockout_flag :=
          bool_or (map (fun r => Transaction.stockout_occurred r.1) group) |})
    <$> remove_dups (key <$> joined).

(** [stockout_dates_by_item]: the manually flagged stock-outs. *)
Definition manual_stockouts (db : Session) (restaurant_id cutoff_date : Z)
    (menu_item_id : option Z) : gmap string (gset Z) :=
  let flagged (s : InventorySnapshot.t) : Prop :=
    InventorySnapshot.restaurant_id s = restaurant_id
    ∧ InventorySnapshot.stockout_flag s = "Y"
    ∧ (cutoff_date <= InventorySnapshot.date s)%Z in
  match menu_item_id with
  | Some mid =>
      let stockout_results :=
        InventorySnapshot.date <$>
          filter (fun s => flagged s ∧ InventorySnapshot.menu_item_id s = mid)
            (inventory_snapshots db) in
      match head (filter (fun i => MenuItem.id i = mid) (menu_items db)) with
      | Some item => {[ MenuItem.name item := list_to_set stockout_results ]}
      | None => ∅
      end
  | None =>
      let stockout_results : list (string * Z) :=
        s ← inventory_snapshots db;
        i ← menu_items db;
        if bool_decide (InventorySnapshot.menu_item_id s = MenuItem.id i
                        ∧ flagged s)
        then [(MenuItem.name i, InventorySnapshot.date s)] else [] in
      fold_left (fun (acc : gmap string (gset Z)) (r : string * Z) =>
                   <[ r.1 := {[ r.2 ]} ∪ default ∅ (acc !! r.1) ]> acc)
        stockout_results ∅
  end.

(** Rows of the frame before re-indexing: date, quantity, stock-out. *)
Definition merge_manual (target_name : option string)
    (stockout_dates_by_item : gmap string (gset Z))
    (r : SalesRow) : SalesRow :=
  match target_name with
  | Some n =>
      if bool_decide (n = "") then r
      else match stockout_dates_by_item !! n with
           | Some manual_stockout_dates =>
               {| sale_date := sale_date r;
                  item_name := item_name r;
                  daily_qty := daily_qty r;
                  stockout_flag :=
                    Some (default false (stockout_flag r)
                          || bool_decide (sale_date r ∈ manual_stockout_dates)) |}
           | None => r
           end
  | None => r
  end.

Definition date_le (a b : SalesRow) : Prop := (sale_date a <= sale_date b)%Z.

#[global] Instance date_le_dec : RelDecision date_le :=
  fun a b => Z.le_dec (sale_date a) (sale_date b).

(** [df.sort_values("date")]. *)
Definition sort_values (df : list SalesRow) : list SalesRow :=
  merge_sort date_le df.

(** [df.reindex(full_idx)] and the [fillna] lines; pandas refuses to
    re-index a frame whose index has duplicate labels. *)
Definition reindex (df : list SalesRow) : Result (list Row) :=
  let dates := sale_date <$> df in
  let lo := foldr Z.min (default 0%Z (head dates)) dates in
  let hi := foldr Z.max (default 0%Z (head dates)) dates in
  let full_idx := seqZ lo (hi - lo + 1) in
  if bool_decide (NoDup dates)
  then Ok ((fun d : Z =>
              match find (fun r => bool_decide (sale_date r = d)) df with
              | Some r =>
                  {| index := d;
                     quantity := inject_Z (daily_qty r);
                     stockout := default false (stockout_flag r);
                     adjusted_quantity := inject_Z (daily_qty r) |}
              | None =>
                  {| index := d; quantity := 0; stockout := false;
                     adjusted_quantity := 0 |}
              end) <$> full_idx)
  else Raise (ValueError "cannot reindex on an axis with duplicate labels").

(** [df.loc[idx, "adjusted_quantity"] = f(df.loc[idx, "quantity"])]. *)
Definition set_adjusted (df : list Row) (idx : Z) (f : Q -> Q) : list Row :=
  (fun r : Row =>
     if bool_decide (index r = idx)
     then {| index := index r; quantity := quantity r;
             stockout := stockout r;
             adjusted_quantity := f (quantity r) |}
     else r) <$> df.

(** The body of the imputation loop for the stock-out day [idx]. *)
Definition impute (df : list Row) (idx : Z) : list Row :=
  let dow := Date.dayofweek idx in
  let lookback_start := (idx - 56)%Z in
  let lookback_end := (idx - 1)%Z in
  let historical_values :=
    quantity <$>
      filter (fun r : Row =>
                (lookback_start <= index r)%Z
                ∧ (index r < lookback_end)%Z
                ∧ Date.dayofweek (index r) = dow
                ∧ stockout r = false) df in
  if bool_decide (2 <= length historical_values)%nat
  then
    let imputed_value := median historical_values in
    set_adjusted df idx (fun q => py_max q imputed_value)
  else set_adjusted df idx (fun q => q * 1.3).

Definition unconstrain (df : list Row) : list Row :=
  fold_left impute (index <$> filter (fun r => stockout r = true) df) df.

(** [Series.shift(k)]. *)
Definition shift (k : nat) (s : list (option Q)) : list (option Q) :=
  take (length s) (replicate k None ++ s).

(** [Series.rolling(window=w).mean()]: every slot of the window must be
    present. *)
Definition rolling_mean (w : nat) (s : list (option Q)) : list (option Q) :=
  imap (fun i _ =>
          if bool_decide (w <= i + 1)%nat
          then xs ← mapM id (take w (drop (i + 1 - w) s)); Some (Num.mean xs)
          else None) s.

Definition add_features (df : list Row) : list FeatureRow :=
  let target := (fun r => Some (adjusted_quantity r)) <$> df in
  let at_ (col : list (option Q)) (i : nat) := default None (col !! i) in
  imap (fun i r =>
          let d := Date.dayofweek (index r) in
          {| day := r;
             lag_1 := at_ (shift 1 target) i;
             lag_7 := at_ (shift 7 target) i;
             lag_28 := at_ (shift 28 target) i;
             roll_7_mean := at_ (rolling_mean 7 (shift 1 target)) i;
             roll_28_mean := at_ (rolling_mean 28 (shift 1 target)) i;
             dow := d;
             month := (Date.civil (index r)).1.2;
             is_weekend :=
               if bool_decide (d = 5 ∨ d = 6)%Z then 1%Z else 0%Z |}) df.

(** [df.dropna(subset=["lag_1", "lag_7", "roll_7_mean"])]. *)
Definition dropna (df : list FeatureRow) : list FeatureRow :=
  filter (fun r => is_Some (lag_1 r) ∧ is_Some (lag_7 r)
                   ∧ is_Some (roll_7_mean r)) df.

(** The daily series the imputation reads: the frame after re-indexing
    and filling. *)
Definition daily_frame (results : list SalesRow)
    (target_name : option string)
    (stockout_dates_by_item : gmap string (gset Z)) : Result (list Row) :=
  reindex (sort_values
             (merge_manual target_name stockout_dates_by_item <$> results)).

Definition build_dataset (results : list SalesRow)
    (target_name : option string)
    (stockout_dates_by_item : gmap string (gset Z))
  : Result (list FeatureRow) :=
  match results with
  | [] => Ok []
  | _ =>
      df ← daily_frame results target_name stockout_dates_by_item;
      Ok (dropna (add_features (unconstrain df)))
  end.

(** The item whose name filters the query, when an id is passed. *)
Definition item_by_id (db : Session) (menu_item_id : Z) : option MenuItem.t :=
  head (filter (fun i => MenuItem.id i = menu_item_id) (menu_items db)).

Definition create_training_dataset (db : Session) (today : Z)
    (restaurant_id : Z) (menu_item_id : option Z) (days_history : Z)
  : Result (list FeatureRow) :=
  let cutoff_date := (today - days_history)%Z in
  let stockout_dates_by_item :=
    manual_stockouts db restaurant_id cutoff_date menu_item_id in
  match menu_item_id with
  | Some mid =>
      match item_by_id db mid with
      | Some item =>
          let target_name := Some (MenuItem.name item) in
          build_dataset
            (sales_query db restaurant_id cutoff_date target_name)
            target_name stockout_dates_by_item
      | None => Ok []
      end
  | None =>
      build_dataset (sales_query db restaurant_id cutoff_date None)
        None stockout_dates_by_item
  end.

End Features.

(** ** [services/forecast.py] *)

Module Forecast.

Import Num Stats.

Record ForecastService : Type := {
  db : Session;
  forecaster : Bayesian.BayesianForecaster
}.

(** [ForecastService(db)]. *)
Definition init (db : Session) : ForecastService :=
  {| db := db; forecaster := Bayesian.default_forecaster |}.

(** The rows [_get_category_data] selects. [category_name] does not
    occur in the statement. *)
Definition category_query (db : Session) (restaurant_id start_date : Z)
  : list (Z * string * Z) :=
  t ← transactions db;
  ti ← transaction_items db;
  i ← menu_items db;
  if bool_decide (Transaction.id t = TransactionItem.transaction_id ti
                  ∧ MenuItem.name i = TransactionItem.menu_item_name ti
                  ∧ MenuItem.restaurant_id i = restaurant_id
                  ∧ Transaction.restaurant_id t = restaurant_id
                  ∧ (start_date <= Transaction.transaction_date t)%Z)
  then [(Transaction.transaction_date t,
         TransactionItem.menu_item_name ti,
         TransactionItem.quantity ti)]
  else [].

Definition _get_category_data (db : Session) (today : Z)
    (restaurant_id : Z) (category_name : string) (days : Z)
  : list (Z * Q) * gmap string (list Q) :=
  let start_date := (today - days)%Z in
  let result := category_query db restaurant_id start_date in
  match result with
  | [] => ([], ∅)
  | _ =>
      let priors_data :=
        fold_left (fun (acc : gmap string (list Q)) (r : Z * string * Z) =>
                     let name := r.1.2 in
                     let qty := inject_Z r.2 in
                     <[ name := default [] (acc !! name) ++ [qty] ]> acc)
          result ∅ in
      let agg_data :=
        fold_left (fun (acc : gmap Z Q) (r : Z * string * Z) =>
                     let d := r.1.1 in
                     let qty := inject_Z r.2 in
                     <[ d := default 0.0 (acc !! d) + qty ]> acc)
          result ∅ in
      (map_to_list agg_data, priors_data)
  end.

(** One iteration of the loop over [range(7)]. *)
Definition day_multiplier (df : list (Z * Q)) (global_mean : Q) (i : Z) : Q :=
  let day_values := snd <$> filter (fun r => Date.dayofweek r.1 = i) df in
  let dow_mean :=
    match day_values with
    | [] => global_mean
    | _ => Num.mean day_values
    end in
  let m := dow_mean / global_mean in
  let day_count := length day_values in
  let m :=
    if bool_decide (day_count < 4)%nat then 0.7 * m + 0.3 * 1.0
    else if bool_decide (day_count < 8)%nat then 0.85 * m + 0.15 * 1.0
    else m in
  py_max 0.3 (py_min m 3.0).

Definition _calculate_seasonality (df : list (Z * Q)) : gmap Z Q :=
  match df with
  | [] => Bayesian.flat_profile
  | _ =>
      let global_mean := Num.mean (snd <$> df) in
      if Qeq_bool global_mean 0 then Bayesian.flat_profile
      else
        fold_left (fun (multipliers : gmap Z Q) (i : Z) =>
                     <[ i := day_multiplier df global_mean i ]> multipliers)
          (seqZ 0 7) ∅
  end.

(** [Decimal(f"{x:.2f}")]: two decimals, ties to even. *)
Definition decimal2 (x : Q) : Q :=
  let z := x * 100 in
  let fl := Qfloor z in
  let frac := z - inject_Z fl in
  let r :=
    if Qltb frac 0.5 then fl
    else if Qltb 0.5 frac then (fl + 1)%Z
    else if Z.even fl then fl else (fl + 1)%Z in
  inject_Z r / 100.

Definition to_record (restaurant_id : Z) (menu_item_name : string)
    (last_date : Z) (i : nat) (f : Bayesian.ForecastDistribution)
  : DemandForecast.t :=
  {| DemandForecast.restaurant_id := restaurant_id;
     DemandForecast.menu_item_name := menu_item_name;
     DemandForecast.forecast_date := (last_date + (Z.of_nat i + 1))%Z;
     DemandForecast.predicted_quantity := decimal2 (Bayesian.mean f);
     DemandForecast.p10_quantity := decimal2 (Bayesian.p10 f);
     DemandForecast.p50_quantity := decimal2 (Bayesian.p50 f);
     DemandForecast.p90_quantity := decimal2 (Bayesian.p90 f);
     DemandForecast.model_name :=
       ("BayesianSeasonal_v1", Bayesian.logic_trigger f) |}.

(** [self.db.add(rec)] for every record, then [self.db.commit()]. *)
Definition commit (db : Session) (saved : list DemandForecast.t) : Session :=
  {| menu_items := menu_items db;
     transactions := transactions db;
     transaction_items := transaction_items db;
     inventory_snapshots := inventory_snapshots db;
     demand_forecasts := demand_forecasts db ++ saved |}.

Section Service.
Context `{NumPy}.

(** [generate_forecasts]. [today] is the value of [date.today()]; the
    service (its session and its forecaster) and the generator state
    are threaded through. Nothing is committed when a step raises. *)
Definition generate_forecasts (self : ForecastService) (today : Z)
    (restaurant_id : Z) (menu_item_name : string) (days_ahead : Z)
    (category : option string) (s0 : RandomState)
  : Result (list DemandForecast.t) * ForecastService * RandomState :=
  match scalar_one_or_none
          (filter (fun i => MenuItem.name i = menu_item_name
                            ∧ MenuItem.restaurant_id i = restaurant_id)
             (menu_items (db self))) with
  | Raise e => (Raise e, self, s0)
  | Ok item =>
      let item_id := MenuItem.id <$> item in
      match Features.create_training_dataset (db self) today
              restaurant_id item_id 365 with
      | Raise e => (Raise e, self, s0)
      | Ok df_item =>
          let cat_context :=
            match category with
            | Some c => if bool_decide (c = "") then "Global" else c
            | None => "Global"
            end in
          let '(df_cat, priors_raw_data) :=
            _get_category_data (db self) today restaurant_id
              cat_context 90 in
          let seasonality_profile := _calculate_seasonality df_cat in
          let all_item_sales_samples :=
            concat (snd <$> map_to_list priors_raw_data) in
          let forecaster' :=
            match all_item_sales_samples with
            | [] => forecaster self
            | _ => Bayesian.learn_priors (forecaster self)
                     {[ cat_context := all_item_sales_samples ]}
            end in
          let self' := {| db := db self; forecaster := forecaster' |} in
          let '(history, history_dows, last_date) :=
            match df_item with
            | [] => ([], [], (today - 1)%Z)
            | r0 :: _ =>
                let idx := (fun r => Features.index (Features.day r))
                             <$> df_item in
                ((fun r => Features.adjusted_quantity (Features.day r))
                   <$> df_item,
                 Date.dayofweek <$> idx,
                 foldr Z.max (Features.index (Features.day r0)) idx)
            end in
          let future := seqZ (last_date + 1) days_ahead in
          let future_dates_str := Date.isoformat <$> future in
          let future_dows := Date.dayofweek <$> future in
          match Bayesian.predict_item forecaster' history history_dows
                  future_dates_str future_dows (Some cat_context)
                  (Some seasonality_profile) s0 with
          | (Raise e, s) => (Raise e, self', s)
          | (Ok forecast_dists, s) =>
              let saved :=
                imap (to_record restaurant_id menu_item_name last_date)
                  forecast_dists in
              (Ok saved,
               {| db := commit (db self) saved; forecaster := forecaster' |},
               s)
          end
      end
  end.

End Service.

End Forecast.

(** ** Specification-level definitions

    The notions the properties below are stated with, written as the
    specification words them, next to the loops and frames of the source. *)

Module StatsSpec.

Import Num Stats.

(** Linear interpolation at the virtual index [h] of a sorted sample. *)
Definition interp (s : list Q) (h : Q) : Q :=
  let k := Z.to_nat (Qfloor h) in
  nth k s 0
  + (h - inject_Z (Qfloor h))
    * (nth (Nat.min (k + 1) (length s - 1)) s 0 - nth k s 0).

End StatsSpec.

Module BayesianSpec.

Import Num Stats Bayesian.

(** What one group's data turns the global prior into. *)
Definition learned (g : GammaParams) (data : list Q) : GammaParams :=
  match data with
  | [] => g
  | _ => {| alpha := alpha g + sum data;
            beta := beta g + of_nat (length data) |}
  end.

#[global] Instance Qlt_rel_dec : RelDecision Qlt := fun x y =>
  match Qlt_le_dec x y with
  | left H => left H
  | right H => right (Qle_not_lt _ _ H)
  end.

(** The de-seasonalised history, said directly: drop the observations
    whose multiplier is below [0.01], divide the others by theirs. *)
Definition deseasonalized (multipliers : gmap Z Q) (obs : list (Q * Z))
  : list Q :=
  (fun o : Q * Z => o.1 / get_multiplier multipliers o.2)
    <$> filter (fun o : Q * Z => ~ get_multiplier multipliers o.2 < 0.01) obs.

Definition confidence_of `{NumPy} (n : nat) : Q :=
  1.0 / (1.0 + np_exp (- (of_nat n - 5.0) / 5.0)).

Definition well_formed (f : ForecastDistribution) : Prop :=
  0 <= p10 f /\ p10 f <= p50 f /\ p50 f <= p90 f /\ p90 f <= p99 f
  /\ 0 <= mean f.

End BayesianSpec.

Module SeasonalitySpec.

Import Num.

(** The pieces of the rule, in the specification's words. *)
Definition day_quantities (df : list (Z * Q)) (d : Z) : list Q :=
  (filter (fun r : Z * Q => Date.dayofweek r.1 = d) df).*2.

Definition raw_multiplier (df : list (Z * Q)) (d : Z) : Q :=
  Num.mean (day_quantities df d) / Num.mean (df.*2).

Definition shrink (count : nat) (m : Q) : Q :=
  if decide (count < 4)%nat then 0.7 * m + 0.3 * 1.0
  else if decide (count < 8)%nat then 0.85 * m + 0.15 * 1.0
  else m.

Definition clip (m : Q) : Q := Qmax 0.3 (Qmin m 3.0).

End SeasonalitySpec.

Module FeaturesSpec.

Import Num Stats Features.

(** The columns the imputation reads. *)
Definition same_base (a b : Row) : Prop :=
  index a = index b /\ quantity a = quantity b /\ stockout a = stockout b.

(** [historical_values] for the stock-out day [idx]. *)
Definition historical (df : list Row) (idx : Z) : list Q :=
  quantity <$>
    filter (fun r : Row =>
              (idx - 56 <= index r)%Z
              ∧ (index r < idx - 1)%Z
              ∧ Date.dayofweek (index r) = Date.dayofweek idx
              ∧ stockout r = false) df.

Definition with_adjusted (r : Row) (v : Q) : Row :=
  {| index := index r; quantity := quantity r; stockout := stockout r;
     adjusted_quantity := v |}.

(** The value the loop writes for row [r], read off the frame [df0]. *)
Definition new_adjusted (df0 : list Row) (r : Row) : Q :=
  let hv := historical df0 (index r) in
  if bool_decide (2 <= length hv)%nat
  then py_max (quantity r) (median hv)
  else quantity r * 1.3.

Definition stockout_days (df : list Row) : list Z :=
  index <$> filter (fun r => stockout r = true) df.

(** The daily series a call of the feature builder imputes from. *)
Definition observations (db : Session) (today restaurant_id : Z)
    (menu_item_id : option Z) (days_history : Z) : Result (list Row) :=
  let cutoff_date := (today - days_history)%Z in
  let stockout_dates_by_item :=
    manual_stockouts db restaurant_id cutoff_date menu_item_id in
  let frame (target_name : option string) :=
    match sales_query db restaurant_id cutoff_date target_name with
    | [] => Ok []
    | results => daily_frame results target_name stockout_dates_by_item
    end in
  match menu_item_id with
  | Some mid =>
      match item_by_id db mid with
      | Some item => frame (Some (MenuItem.name item))
      | None => Ok []
      end
  | None => frame None
  end.

End FeaturesSpec.

Module OrchestratorSpec.

Import Bayesian.

(** The pooling-group label the orchestrator passes on is never empty. *)
Definition cat_context (category : option string) : string :=
  match category with
  | Some c => if bool_decide (c = "") then "Global" else c
  | None => "Global"
  end.

(** What the orchestrator's prior learning leaves in a fresh service. *)
Definition refreshed (cat : string) (samples : list Q) : BayesianForecaster :=
  match samples with
  | [] => default_forecaster
  | _ => learn_priors default_forecaster {[ cat := samples ]}
  end.

End OrchestratorSpec.

(** ** A concrete generator

    A linear congruential generator whose draws are small counts; it
    stands for [numpy]'s generator wherever a statement is evaluated on a
    concrete input. *)

Module Lcg.

Definition next (s : Z) : Z := ((s * 1103515245 + 12345) mod 2147483648)%Z.

Fixpoint draw (size : nat) (s : Z) : list nat * Z :=
  match size with
  | O => ([], s)
  | S k =>
      let s1 := next s in
      let '(xs, s') := draw k s1 in
      (Z.to_nat ((s1 / 65536) mod 12) :: xs, s')
  end.

(** A cubic approximation of the exponential. The confidence score is
    reported with each forecast; no statement below depends on its value. *)
Definition exp3 (x : Q) : Q := 1 + x + x * x / 2 + x * x * x / 6.

End Lcg.

#[global] Instance Lcg_numpy : NumPy.
Proof.
  refine {| RandomState := Z;
            random_seed := fun seed => seed;
            nbinom_sample := fun _ _ size s => Lcg.draw size s;
            nbinom_sample_length := _;
            np_exp := Lcg.exp3 |}.
  intros _ _ size. induction size as [| k IH]; intros s; simpl; [reflexivity |].
  specialize (IH (Lcg.next s)). destruct (Lcg.draw k (Lcg.next s)) as [xs s'].
  simpl in *. by rewrite IH.
Defined.


(** ** Sample inputs *)

Module Sample.

Definition mains : list Q := [6; 5; 7; 6].

Definition pools : gmap string (list Q) :=
  {[ "Mains" := mains; "Desserts" := [] ]}.

(** Three days of sales, Monday to Wednesday, and a profile under which
    Tuesday counts as closed. *)
Definition history : list Q := [10; 4; 12].
Definition history_dows : list Z := [0; 1; 2]%Z.
Definition profile : gmap Z Q :=
  {[ 0%Z := 2.0; 1%Z := 0.005; 2%Z := 0.5 ]}.

(** A reference week from Monday 2025-01-06: one extreme Monday. *)
Definition spike_week : list (Z * Q) :=
  [(739257%Z, 1000); (739258%Z, 10); (739259%Z, 10); (739260%Z, 10);
   (739261%Z, 10); (739262%Z, 10); (739263%Z, 10)].

(** Thirty-five days of one item from 2025-01-01, ten a day, except a
    stock-out on day 30 that sold two. *)
Definition day0 : Z := 739252.

Definition burger_db : Session :=
  {| menu_items :=
       [ {| MenuItem.id := 7; MenuItem.restaurant_id := 1;
            MenuItem.name := "Burger" |} ];
     transactions :=
       (fun i : Z =>
          {| Transaction.id := i; Transaction.restaurant_id := 1;
             Transaction.transaction_date := (day0 + i)%Z;
             Transaction.stockout_occurred := Some (i =? 30)%Z |})
         <$> seqZ 0 35;
     transaction_items :=
       (fun i : Z =>
          {| TransactionItem.transaction_id := i;
             TransactionItem.menu_item_name := "Burger";
             TransactionItem.quantity := if (i =? 30)%Z then 2%Z else 10%Z |})
         <$> seqZ 0 35;
     inventory_snapshots := [];
     demand_forecasts := [] |}.

Definition today : Z := (day0 + 35)%Z.

(** A restaurant with nothing on record. *)
Definition empty_db : Session :=
  {| menu_items := []; transactions := []; transaction_items := [];
     inventory_snapshots := []; demand_forecasts := [] |}.

End Sample.

(** ** Further sample data *)

Module MoreSamples.

Import Features.

(** Sales on two days, with a gap of one day between them. *)
Definition gap_sales : list SalesRow :=
  [ {| sale_date := 739254; item_name := "Burger"; daily_qty := 5;
       stockout_flag := Some false |};
    {| sale_date := 739252; item_name := "Burger"; daily_qty := 3;
       stockout_flag := None |} ].

(** A restaurant that sold two items in one transaction. *)
Definition two_item_db : Session :=
  {| menu_items :=
       [ {| MenuItem.id := 7; MenuItem.restaurant_id := 1;
            MenuItem.name := "Burger" |};
         {| MenuItem.id := 8; MenuItem.restaurant_id := 1;
            MenuItem.name := "Fries" |} ];
     transactions :=
       [ {| Transaction.id := 1; Transaction.restaurant_id := 1;
            Transaction.transaction_date := 739252;
            Transaction.stockout_occurred := None |} ];
     transaction_items :=
       [ {| TransactionItem.transaction_id := 1;
            TransactionItem.menu_item_name := "Burger";
            TransactionItem.quantity := 2 |};
         {| TransactionItem.transaction_id := 1;
            TransactionItem.menu_item_name := "Fries";
            TransactionItem.quantity := 1 |} ];
     inventory_snapshots := [];
     demand_forecasts := [] |}.

End MoreSamples.

(** ** [GammaParams.mean] ([services/forecasting/bayesian.py]) *)

Module Gamma.

(** The [mean] property: [alpha / beta], a float division. *)
Definition mean (g : Bayesian.GammaParams) : Result Q :=
  if Qeq_bool (Bayesian.beta g) 0 then Raise ZeroDivisionError
  else Ok (Bayesian.alpha g / Bayesian.beta g).

End Gamma.

(** ** [core/business_day.py] *)

Module BusinessDay.

Import Num.

(** A [datetime.time], to the minute. *)
Record time : Type := { hour : Z; minute : Z }.

(** A [datetime.datetime]: calendar date, wall-clock time and the name of
    its zone, if it is aware. *)
Record datetime : Type := {
  date : Z;
  clock : time;
  tzinfo : option string
}.

Definition BUSINESS_DAY_START_HOUR : Z := 4.

(** [pytz.UTC.localize(dt)]. *)
Definition localize_utc (dt : datetime) : datetime :=
  {| date := date dt; clock := clock dt; tzinfo := Some "UTC" |}.

(** [astimezone tz dt] stands for [dt.astimezone(pytz.timezone(tz))]:
    the wall clock of the aware datetime [dt] in zone [tz]. *)
Definition get_business_date (astimezone : string -> datetime -> datetime)
    (dt : datetime) (restaurant_timezone : option string) : Z :=
  let dt_local :=
    match restaurant_timezone with
    | Some tz =>
        if bool_decide (tz = "") then dt
        else
          let dt := match tzinfo dt with
                    | None => localize_utc dt
                    | Some _ => dt
                    end in
          astimezone tz dt
    | None => dt
    end in
  if (hour (clock dt_local) <? BUSINESS_DAY_START_HOUR)%Z
  then (date dt_local - 1)%Z
  else date dt_local.

Definition time_to_offset_minutes (t : time) : Z :=
  let minutes := (hour t * 60 + minute t)%Z in
  let minutes :=
    if (hour t <? BUSINESS_DAY_START_HOUR)%Z then (minutes + 24 * 60)%Z
    else minutes in
  let offset := (minutes - BUSINESS_DAY_START_HOUR * 60)%Z in
  offset.

Definition calculate_hours_open (first_order last_order : option time) : Q :=
  match first_order, last_order with
  | Some f, Some l =>
      let first_mins := time_to_offset_minutes f in
      let last_mins := time_to_offset_minutes l in
      let hours := inject_Z (last_mins - first_mins) / 60.0 in
      py_max 1.0 (py_min hours 24.0)
  | _, _ => 12.0
  end.

(** The values a [datetime.time] can hold. *)
Definition valid_time (t : time) : Prop :=
  (0 <= hour t < 24)%Z /\ (0 <= minute t < 60)%Z.

End BusinessDay.

(** ** [scripts/backtest_forecasts.py] *)

Module Backtest.

Import Num.

(** A float that may be [float('inf')]. *)
Inductive Float : Type :=
| Finite (x : Q)
| Inf.

Definition calculate_wape (actuals forecasts : list Q) : Float :=
  if bool_decide (actuals = [] \/ forecasts = []
                  \/ length actuals <> length forecasts)
  then Inf
  else
    let total_actual := sum (Qabs <$> actuals) in
    if Qeq_bool total_actual 0 then Inf
    else
      let total_error :=
        sum ((fun af : Q * Q => Qabs (af.1 - af.2)) <$> zip actuals forecasts) in
      let wape := (total_error / total_actual) * 100 in
      Finite wape.

Definition calculate_pi_coverage (actuals lower_bounds upper_bounds : list Q)
  : Q :=
  if bool_decide (actuals = [] \/ length actuals <> length lower_bounds
                  \/ length actuals <> length upper_bounds)
  then 0.0
  else
    let within_interval :=
      length (filter (fun alu : Q * (Q * Q) =>
                        alu.2.1 <= alu.1 /\ alu.1 <= alu.2.2)
                (zip actuals (zip lower_bounds upper_bounds))) in
    let coverage :=
      (of_nat within_interval / of_nat (length actuals)) * 100 in
    coverage.

End Backtest.

(** ** Further specification-level definitions *)

Module RoundingSpec.

Import Num.

(** The rounding of [decimal2], on the scaled value. *)
Definition round_half_even (z : Q) : Z :=
  let fl := Qfloor z in
  let frac := z - inject_Z fl in
  if Qltb frac 0.5 then fl
  else if Qltb 0.5 frac then (fl + 1)%Z
  else if Z.even fl then fl else (fl + 1)%Z.

End RoundingSpec.

Module CategorySpec.

Import Num.

(** The total weight of the values of a dictionary. *)
Definition weight {K : Type} `{Countable K} {V : Type} (w : V -> Q)
    (m : gmap K V) : Q :=
  sum ((fun kv : K * V => w kv.2) <$> map_to_list m).

(** The two folds of [_get_category_data]. *)
Definition add_sample (acc : gmap string (list Q)) (r : Z * string * Z)
  : gmap string (list Q) :=
  <[ r.1.2 := default [] (acc !! r.1.2) ++ [inject_Z r.2] ]> acc.

Definition add_day (acc : gmap Z Q) (r : Z * string * Z) : gmap Z Q :=
  <[ r.1.1 := default 0.0 (acc !! r.1.1) + inject_Z r.2 ]> acc.

Definition total (rows : list (Z * string * Z)) : Q :=
  sum ((fun r : Z * string * Z => inject_Z r.2) <$> rows).

End CategorySpec.

Module SalesSpec.

(** A line item paired with its transaction is selected by the
    statement of the feature builder. *)
Definition sold (restaurant_id cutoff_date : Z) (t : Transaction.t)
    (ti : TransactionItem.t) : Prop :=
  TransactionItem.transaction_id ti = Transaction.id t
  /\ Transaction.restaurant_id t = restaurant_id
  /\ (cutoff_date <= Transaction.transaction_date t)%Z.

End SalesSpec.

Module ServiceSpec.

Import Features.

(** [last_date]: the date the forecasts are counted from. *)
Definition training_end (today : Z) (df_item : list FeatureRow) : Z :=
  match df_item with
  | [] => (today - 1)%Z
  | r0 :: _ =>
      foldr Z.max (index (day r0)) ((fun r => index (day r)) <$> df_item)
  end.

End ServiceSpec.

(** * Properties *)

(** ** Arithmetic helpers *)

Module NumFacts.

Import Num.

Lemma Qltb_true (a b : Q) : Qltb a b = true <-> a < b.
Proof.
  unfold Qltb. rewrite negb_true_iff.
  destruct (Qle_bool b a) eqn:E.
  - apply Qle_bool_iff in E. split; [discriminate | intros; lra].
  - split; [intros _ | reflexivity].
    destruct (Qlt_le_dec a b) as [Hlt | Hle]; [exact Hlt |].
    apply Qle_bool_iff in Hle. congruence.
Qed.

Lemma Qltb_false (a b : Q) : Qltb a b = false <-> b <= a.
Proof.
  unfold Qltb. rewrite negb_false_iff. apply Qle_bool_iff.
Qed.

Lemma py_max_l (a b : Q) : a <= py_max a b.
Proof.
  unfold py_max. destruct (Qltb a b) eqn:E; [apply Qltb_true in E; lra | lra].
Qed.

Lemma py_max_r (a b : Q) : b <= py_max a b.
Proof.
  unfold py_max. destruct (Qltb a b) eqn:E; [lra | apply Qltb_false in E; lra].
Qed.

Lemma py_min_r (a b : Q) : py_min a b <= b.
Proof.
  unfold py_min. destruct (Qltb b a) eqn:E; [lra | apply Qltb_false in E; lra].
Qed.

Lemma of_nat_nonneg (n : nat) : 0 <= of_nat n.
Proof.
  unfold of_nat. change 0 with (inject_Z 0). rewrite <- Zle_Qle. lia.
Qed.

Lemma of_nat_pos (n : nat) : (0 < n)%nat -> 0 < of_nat n.
Proof.
  intros H. unfold of_nat. change 0 with (inject_Z 0). rewrite <- Zlt_Qlt. lia.
Qed.

Lemma add_correct (a b : Q) : add a b == a + b.
Proof. unfold add. apply Qred_correct. Qed.

Lemma fold_add_shift (l : list Q) (a : Q) :
  fold_left add l a == a + sum l.
Proof.
  unfold sum. revert a.
  induction l as [| x l IH]; intros a; simpl.
  - lra.
  - rewrite (IH (add a x)), (IH (add 0 x)), !add_correct. lra.
Qed.

Lemma sum_cons (x : Q) (l : list Q) : sum (x :: l) == x + sum l.
Proof. unfold sum at 1. simpl. rewrite fold_add_shift, add_correct. lra. Qed.

Lemma sum_nonneg (l : list Q) : Forall (fun x => 0 <= x) l -> 0 <= sum l.
Proof.
  induction 1 as [| x l Hx _ IH].
  - unfold sum; simpl; lra.
  - rewrite sum_cons. lra.
Qed.


Lemma sum_nil : sum [] = 0.
Proof. reflexivity. Qed.

Lemma sum_app (l1 l2 : list Q) : sum (l1 ++ l2) == sum l1 + sum l2.
Proof.
  induction l1 as [| x l1 IH]; simpl.
  - rewrite sum_nil. lra.
  - rewrite !sum_cons, IH. lra.
Qed.

End NumFacts.

Module DateFacts.

Import Date.

Lemma dayofweek_range (d : Z) : (0 <= dayofweek d < 7)%Z.
Proof. unfold dayofweek. apply Z.mod_pos_bound. lia. Qed.

(** Same weekday, at most 56 days back and before the day before:
    exactly the eight dates one to eight whole weeks earlier. *)
Lemma same_dow_window (t d : Z) :
  (t - 56 <= d /\ d < t - 1 /\ dayofweek d = dayofweek t)%Z <->
  exists k : Z, (1 <= k <= 8 /\ d = t - 7 * k)%Z.
Proof.
  unfold dayofweek. split.
  - intros (Hlo & Hhi & Hdow).
    exists ((t - d) / 7)%Z.
    assert (Hm : ((t - d) mod 7 = 0)%Z).
    { pose proof (Z.div_mod (d + 6) 7) as E1.
      pose proof (Z.div_mod (t + 6) 7) as E2.
      rewrite Hdow in E1.
      replace (t - d)%Z with (((t + 6) / 7 - (d + 6) / 7) * 7)%Z by lia.
      apply Z.mod_mul. lia. }
    pose proof (Z.div_mod (t - d) 7) as E. lia.
  - intros (k & Hk & ->).
    repeat split; try lia.
    replace (t - 7 * k + 6)%Z with (t + 6 + (- k) * 7)%Z by lia.
    apply Z.mod_add. lia.
Qed.

End DateFacts.

(** ** The hierarchical prior learner *)

Module LearnFacts.

Import Num NumFacts Bayesian BayesianSpec.

Lemma learn_group_global (cat : string) (data : list Q)
    (self : BayesianForecaster) :
  global_prior (learn_group cat data self) = global_prior self.
Proof. destruct data; reflexivity. Qed.

Lemma learn_group_priors (cat : string) (data : list Q)
    (self : BayesianForecaster) :
  category_priors (learn_group cat data self)
  = <[cat := learned (global_prior self) data]> (category_priors self).
Proof. destruct data; reflexivity. Qed.

(** The loop of [learn_priors], group by group. *)
Lemma learn_priors_spec (self : BayesianForecaster)
    (category_data : gmap string (list Q)) :
  global_prior (learn_priors self category_data) = global_prior self
  /\ forall cat : string,
       category_priors (learn_priors self category_data) !! cat
       = match category_data !! cat with
         | Some data => Some (learned (global_prior self) data)
         | None => category_priors self !! cat
         end.
Proof.
  unfold learn_priors.
  apply (map_fold_weak_ind
           (fun (r : BayesianForecaster) (m : gmap string (list Q)) =>
              global_prior r = global_prior self
              /\ forall cat : string,
                   category_priors r !! cat
                   = match m !! cat with
                     | Some data => Some (learned (global_prior self) data)
                     | None => category_priors self !! cat
                     end)).
  - split; [reflexivity |]. intros cat. by rewrite lookup_empty.
  - intros i x m r Hi [Hg Hc]. split.
    + by rewrite learn_group_global.
    + intros cat. rewrite learn_group_priors, Hg.
      destruct (decide (i = cat)) as [-> | Hne].
      * by rewrite !lookup_insert_eq.
      * rewrite !lookup_insert_ne by done. apply Hc.
Qed.

Lemma learned_positive (g : GammaParams) (data : list Q) :
  0 < alpha g -> 0 < beta g -> Forall (fun y => 0 <= y) data ->
  0 < alpha (learned g data) /\ 0 < beta (learned g data).
Proof.
  intros Ha Hb Hdata. destruct data as [| y data]; [by split |].
  cbn [learned alpha beta].
  pose proof (sum_nonneg _ Hdata). pose proof (of_nat_nonneg (length (y :: data))).
  split; lra.
Qed.

End LearnFacts.

(** C5. For a forecaster whose global prior is the fixed weak prior
    [alpha = 2.0], [beta = 0.5], and a pooling group handed to
    [learn_priors] with non-negative daily quantities [data]: the group is
    assigned a prior; with [n >= 1] observations it is
    [GammaParams (2.0 + sum data) (0.5 + n)]; with an empty list it is the
    global prior itself; in both cases [alpha > 0] and [beta > 0]; and the
    global prior is left as it was. *)
Theorem C5_learn_priors_conjugate_update
    (self : Bayesian.BayesianForecaster)
    (category_data : gmap string (list Q)) (cat : string) (data : list Q) :
  Bayesian.global_prior self = Bayesian.global_prior Bayesian.default_forecaster ->
  category_data !! cat = Some data ->
  Forall (fun y => 0 <= y) data ->
  exists g : Bayesian.GammaParams,
    Bayesian.category_priors (Bayesian.learn_priors self category_data) !! cat
    = Some g
    /\ ((1 <= length data)%nat ->
        g = {| Bayesian.alpha := 2.0 + Num.sum data;
               Bayesian.beta := 0.5 + Num.of_nat (length data) |})
    /\ (data = [] -> g = {| Bayesian.alpha := 2.0; Bayesian.beta := 0.5 |})
    /\ 0 < Bayesian.alpha g /\ 0 < Bayesian.beta g
    /\ Bayesian.global_prior (Bayesian.learn_priors self category_data)
       = {| Bayesian.alpha := 2.0; Bayesian.beta := 0.5 |}.
Proof.
  intros Hglobal Hcat Hdata.
  destruct (LearnFacts.learn_priors_spec self category_data) as [Hg Hc].
  exists (BayesianSpec.learned (Bayesian.global_prior self) data).
  split; [by rewrite Hc, Hcat |].
  rewrite Hg, Hglobal. cbn [Bayesian.default_forecaster Bayesian.init Bayesian.global_prior].
  split; [| split; [| split; [| split]]].
  - intros Hn. destruct data; [simpl in Hn; lia | reflexivity].
  - by intros ->.
  - apply LearnFacts.learned_positive; [reflexivity | reflexivity | exact Hdata].
  - apply LearnFacts.learned_positive; [reflexivity | reflexivity | exact Hdata].
  - reflexivity.
Qed.

Lemma C5_learn_priors_conjugate_update_witness :
  exists g : Bayesian.GammaParams,
    Bayesian.category_priors
      (Bayesian.learn_priors Bayesian.default_forecaster
         Sample.pools) !! "Mains"
    = Some g
    /\ ((1 <= length Sample.mains)%nat ->
        g = {| Bayesian.alpha := 2.0 + Num.sum [6; 5; 7; 6];
               Bayesian.beta := 0.5 + Num.of_nat (length Sample.mains) |})
    /\ (Sample.mains = [] ->
        g = {| Bayesian.alpha := 2.0; Bayesian.beta := 0.5 |})
    /\ 0 < Bayesian.alpha g /\ 0 < Bayesian.beta g
    /\ Bayesian.global_prior
         (Bayesian.learn_priors Bayesian.default_forecaster
            Sample.pools)
       = {| Bayesian.alpha := 2.0; Bayesian.beta := 0.5 |}.
Proof.
  apply (C5_learn_priors_conjugate_update Bayesian.default_forecaster
           Sample.pools "Mains" Sample.mains).
  - reflexivity.
  - vm_compute. reflexivity.
  - repeat constructor; vm_compute; discriminate.
Defined.

(** ** Order statistics *)

Module StatsFacts.

Import Num NumFacts Stats StatsSpec.

#[local] Instance Qle_trans_inst : Transitive Qle := Qle_trans.

#[local] Instance Qle_total_inst : Total Qle.
Proof. intros x y. destruct (Qlt_le_dec x y); [left | right]; lra. Qed.

Lemma sort_sorted (a : list Q) : StronglySorted Qle (sort a).
Proof. apply StronglySorted_merge_sort; apply _. Qed.

Lemma sort_perm (a : list Q) : sort a ≡ₚ a.
Proof. apply merge_sort_Permutation. Qed.

Lemma sort_length (a : list Q) : length (sort a) = length a.
Proof. apply Permutation_length, sort_perm. Qed.

Lemma sorted_nth (s : list Q) :
  StronglySorted Qle s ->
  forall i j : nat, (i <= j < length s)%nat -> nth i s 0 <= nth j s 0.
Proof.
  induction 1 as [| x s Hs IH Hx]; intros i j [Hij Hj]; simpl in Hj.
  - lia.
  - destruct i as [| i], j as [| j]; simpl; try lia.
    + lra.
    + rewrite Forall_forall in Hx. apply Hx.
      apply list_elem_of_In, nth_In. lia.
    + apply IH. lia.
Qed.

Lemma percentile_interp (a : list Q) (q : Q) :
  percentile a q
  = interp (sort a) (of_nat (length (sort a) - 1) * (q / 100)).
Proof. reflexivity. Qed.

Lemma floor_index (n : nat) (h : Q) :
  0 <= h -> h <= of_nat (n - 1) ->
  (0 <= Qfloor h)%Z /\ (Z.to_nat (Qfloor h) <= n - 1)%nat.
Proof.
  intros H0 Hn.
  assert (H1 : (0 <= Qfloor h)%Z).
  { change 0%Z with (Qfloor 0). by apply Qfloor_resp_le. }
  split; [exact H1 |].
  assert (H2 : (Qfloor h <= Z.of_nat (n - 1))%Z).
  { rewrite <- (Qfloor_Z (Z.of_nat (n - 1))). by apply Qfloor_resp_le. }
  lia.
Qed.

Lemma frac_range (h : Q) :
  0 <= h - inject_Z (Qfloor h) /\ h - inject_Z (Qfloor h) < 1.
Proof.
  pose proof (Qfloor_le h) as Hlo. pose proof (Qlt_floor h) as Hhi.
  rewrite inject_Z_plus in Hhi. change (inject_Z 1) with 1 in Hhi.
  split; lra.
Qed.

Lemma interp_between (s : list Q) (h : Q) :
  StronglySorted Qle s -> s <> [] ->
  0 <= h -> h <= of_nat (length s - 1) ->
  nth (Z.to_nat (Qfloor h)) s 0 <= interp s h
  /\ interp s h
     <= nth (Nat.min (Z.to_nat (Qfloor h) + 1) (length s - 1)) s 0.
Proof.
  intros Hs Hne H0 Hn.
  assert (Hlen : (0 < length s)%nat) by (destruct s; [done | simpl; lia]).
  destruct (floor_index _ _ H0 Hn) as [_ Hk].
  destruct (frac_range h) as [Hg0 Hg1].
  unfold interp. cbv zeta.
  set (k := Z.to_nat (Qfloor h)) in *.
  set (g := h - inject_Z (Qfloor h)) in *.
  assert (Hd : nth k s 0 <= nth (Nat.min (k + 1) (length s - 1)) s 0)
    by (apply sorted_nth; [exact Hs | lia]).
  set (lo := nth k s 0) in *.
  set (hi := nth (Nat.min (k + 1) (length s - 1)) s 0) in *.
  split; nra.
Qed.

Lemma interp_mono (s : list Q) (h1 h2 : Q) :
  StronglySorted Qle s -> s <> [] ->
  0 <= h1 -> h1 <= h2 -> h2 <= of_nat (length s - 1) ->
  interp s h1 <= interp s h2.
Proof.
  intros Hs Hne H0 H12 Hn.
  assert (Hlen : (0 < length s)%nat) by (destruct s; [done | simpl; lia]).
  assert (Hn1 : h1 <= of_nat (length s - 1)) by lra.
  assert (H02 : 0 <= h2) by lra.
  destruct (floor_index _ _ H0 Hn1) as [Hf1 Hk1].
  destruct (floor_index _ _ H02 Hn) as [Hf2 Hk2].
  pose proof (Qfloor_resp_le _ _ H12) as Hfl.
  destruct (decide (Qfloor h1 = Qfloor h2)) as [Heq | Hneq].
  - unfold interp. cbv zeta. rewrite Heq.
    set (k := Z.to_nat (Qfloor h2)) in *.
    assert (Hd : nth k s 0 <= nth (Nat.min (k + 1) (length s - 1)) s 0)
      by (apply sorted_nth; [exact Hs | lia]).
    set (lo := nth k s 0) in *.
    set (hi := nth (Nat.min (k + 1) (length s - 1)) s 0) in *.
    nra.
  - destruct (interp_between s h1 Hs Hne H0 Hn1) as [_ Hup].
    destruct (interp_between s h2 Hs Hne H02 Hn) as [Hdown _].
    assert (Hmid :
      nth (Nat.min (Z.to_nat (Qfloor h1) + 1) (length s - 1)) s 0
      <= nth (Z.to_nat (Qfloor h2)) s 0)
      by (apply sorted_nth; [exact Hs | lia]).
    lra.
Qed.

Lemma virtual_index_range (n : nat) (q : Q) :
  0 <= q -> q <= 100 ->
  0 <= of_nat n * (q / 100) /\ of_nat n * (q / 100) <= of_nat n.
Proof.
  intros H0 H1. pose proof (of_nat_nonneg n) as Hn.
  change (q / 100) with (q * (1 # 100)).
  assert (Hq : 0 <= q * (1 # 100) /\ q * (1 # 100) <= 1) by (split; lra).
  destruct Hq. split; nra.
Qed.

(** Percentiles of one sample are ordered like their ranks. *)
Lemma percentile_mono (a : list Q) (q1 q2 : Q) :
  a <> [] -> 0 <= q1 -> q1 <= q2 -> q2 <= 100 ->
  percentile a q1 <= percentile a q2.
Proof.
  intros Hne H0 H12 H2. rewrite !percentile_interp.
  assert (Hs : sort a <> []).
  { intros E. apply Hne. apply Permutation_nil_r. rewrite <- E.
    symmetry. apply sort_perm. }
  pose proof (of_nat_nonneg (length (sort a) - 1)) as Hn.
  destruct (virtual_index_range (length (sort a) - 1) q1) as [Ha Hb];
    [lra | lra |].
  destruct (virtual_index_range (length (sort a) - 1) q2) as [Hc Hd];
    [lra | lra |].
  apply interp_mono; [apply sort_sorted | exact Hs | exact Ha | | exact Hd].
  change (q1 / 100) with (q1 * (1 # 100)).
  change (q2 / 100) with (q2 * (1 # 100)).
  assert (Hq : q1 * (1 # 100) <= q2 * (1 # 100)) by lra. nra.
Qed.

(** A percentile of a non-negative sample is non-negative. *)
Lemma percentile_nonneg (a : list Q) (q : Q) :
  a <> [] -> Forall (fun x => 0 <= x) a -> 0 <= q -> q <= 100 ->
  0 <= percentile a q.
Proof.
  intros Hne Hpos H0 H1. rewrite percentile_interp.
  assert (Hs : sort a <> []).
  { intros E. apply Hne. apply Permutation_nil_r. rewrite <- E.
    symmetry. apply sort_perm. }
  destruct (virtual_index_range (length (sort a) - 1) q H0 H1) as [Ha Hb].
  destruct (interp_between (sort a) _ (sort_sorted a) Hs Ha Hb) as [Hlo _].
  destruct (floor_index _ _ Ha Hb) as [_ Hk].
  assert (Hlen : (0 < length (sort a))%nat)
    by (destruct (sort a); [done | simpl; lia]).
  assert (Hin : 0 <= nth (Z.to_nat (Qfloor
                  (of_nat (length (sort a) - 1) * (q / 100)))) (sort a) 0).
  { rewrite <- (sort_perm a) in Hpos. rewrite Forall_forall in Hpos.
    apply Hpos, list_elem_of_In, nth_In. lia. }
  lra.
Qed.

Lemma mean_nonneg (a : list Q) : Forall (fun x => 0 <= x) a -> 0 <= Num.mean a.
Proof.
  intros Hpos. unfold Num.mean.
  pose proof (sum_nonneg a Hpos) as Hs.
  destruct a as [| x a].
  - vm_compute. discriminate.
  - pose proof (of_nat_pos (length (x :: a)) ltac:(simpl; lia)) as Hn.
    apply Qle_shift_div_l; [exact Hn | lra].
Qed.

End StatsFacts.

(** ** The Bayesian forecaster *)

Module PredictFacts.

Import Num NumFacts Stats StatsFacts Bayesian BayesianSpec.

Lemma deseasonalize_fold (multipliers : gmap Z Q) (obs : list (Q * Z))
    (acc : list Q) :
  fold_left (deseasonalize_step multipliers) obs acc
  = acc ++ deseasonalized multipliers obs.
Proof.
  revert acc. induction obs as [| [y dow] obs IH]; intros acc.
  - simpl. by rewrite app_nil_r.
  - cbn [fold_left]. rewrite IH. unfold deseasonalized.
    unfold deseasonalize_step at 1.
    destruct (Qltb (get_multiplier multipliers dow) 0.01) eqn:E.
    + apply Qltb_true in E. rewrite filter_cons_False by (simpl; tauto).
      reflexivity.
    + apply Qltb_false in E.
      rewrite filter_cons_True by (simpl; lra).
      rewrite fmap_cons, <- app_assoc. reflexivity.
Qed.

Lemma deseasonalize_spec (multipliers : gmap Z Q) (item_history : list Q)
    (history_dows : list Z) :
  deseasonalize multipliers item_history history_dows
  = deseasonalized multipliers (zip item_history history_dows).
Proof. unfold deseasonalize. by rewrite deseasonalize_fold. Qed.

Lemma n_samples_pos : (0 < n_samples)%nat.
Proof. unfold n_samples. lia. Qed.

Section Loop.
Context `{NumPy}.

Lemma nbinom_rvs_ok (n p : Q) (size : nat) (s : RandomState) :
  nbinom_argcheck n p = true ->
  nbinom_rvs n p size s
  = (Ok (nbinom_sample n p size s).1, (nbinom_sample n p size s).2).
Proof.
  intros E. unfold nbinom_rvs. rewrite E.
  by destruct (nbinom_sample n p size s).
Qed.

Lemma nbinom_rvs_length (n p : Q) (size : nat) (s s' : RandomState)
    (xs : list nat) :
  nbinom_rvs n p size s = (Ok xs, s') -> length xs = size.
Proof.
  unfold nbinom_rvs. destruct (nbinom_argcheck n p); [| discriminate].
  pose proof (nbinom_sample_length n p size s) as Hl.
  destruct (nbinom_sample n p size s) as [ys t]. intros [= <- <-]. exact Hl.
Qed.

(** With arguments in the domain of the distribution the loop gives
    one forecast per future date, in order. *)
Lemma forecast_loop_ok (multipliers : gmap Z Q) (nb_n nb_p confidence : Q)
    (n : nat) (prior_source : string) (future : list (string * Z))
    (s : RandomState) :
  nbinom_argcheck nb_n nb_p = true ->
  exists (fs : list ForecastDistribution) (s' : RandomState),
    forecast_loop multipliers nb_n nb_p confidence n prior_source future s
    = (Ok fs, s')
    /\ date <$> fs = future.*1.
Proof.
  intros Hdom. revert s.
  induction future as [| [date_str dow] rest IH]; intros s.
  - by exists [], s.
  - cbn [forecast_loop]. rewrite (nbinom_rvs_ok _ _ _ _ Hdom).
    destruct (IH (nbinom_sample nb_n nb_p n_samples s).2)
      as (fs & s' & -> & Hd).
    eexists _, _. split; [reflexivity |].
    rewrite !fmap_cons. cbn [date fst]. by rewrite Hd.
Qed.

Lemma scaled_nonneg (m : Q) (base_samples : list nat) :
  0 <= m -> Forall (fun x => 0 <= x) ((fun x => of_nat x * m) <$> base_samples).
Proof.
  intros Hm. apply Forall_fmap, Forall_forall. intros x _. simpl.
  pose proof (of_nat_nonneg x). nra.
Qed.

Lemma forecast_loop_well_formed (multipliers : gmap Z Q)
    (nb_n nb_p confidence : Q) (n : nat) (prior_source : string)
    (future : list (string * Z)) (s s' : RandomState)
    (fs : list ForecastDistribution) :
  (forall dow : Z, 0 <= get_multiplier multipliers dow) ->
  forecast_loop multipliers nb_n nb_p confidence n prior_source future s
  = (Ok fs, s') ->
  Forall well_formed fs.
Proof.
  intros Hm. revert s fs.
  induction future as [| [date_str dow] rest IH]; intros s fs.
  - intros [= <- _]. constructor.
  - cbn [forecast_loop].
    destruct (nbinom_rvs nb_n nb_p n_samples s) as [[xs | e] s1] eqn:Erv;
      [| discriminate].
    destruct (forecast_loop multipliers nb_n nb_p confidence n prior_source
                rest s1) as [[fs1 | e] s2] eqn:Erest; [| discriminate].
    intros [= <- ->]. constructor; [| by eapply IH].
    apply nbinom_rvs_length in Erv.
    pose proof n_samples_pos as Hpos.
    set (scaled := (fun x => of_nat x * get_multiplier multipliers dow) <$> xs).
    assert (Hne : scaled <> []).
    { intros E. apply (f_equal length) in E. unfold scaled in E.
      rewrite length_fmap in E. simpl in E. lia. }
    assert (Hnn : Forall (fun x => 0 <= x) scaled)
      by (apply scaled_nonneg, Hm).
    unfold well_formed. cbn [p10 p50 p90 p99 mean].
    change (map (fun x => of_nat x * get_multiplier multipliers dow) xs)
      with scaled.
    repeat split.
    + apply percentile_nonneg; [done | done | lra | lra].
    + apply percentile_mono; [done | lra | lra | lra].
    + apply percentile_mono; [done | lra | lra | lra].
    + apply percentile_mono; [done | lra | lra | lra].
    + by apply mean_nonneg.
Qed.

(** [predict_item] after its first three steps. *)
Lemma predict_item_unfold (self : BayesianForecaster)
    (item_history : list Q) (history_dows : list Z)
    (future_dates : list string) (future_dows : list Z)
    (category : option string) (seasonal_multipliers : option (gmap Z Q))
    (s0 : RandomState) :
  let prior := (select_prior self category).1 in
  let multipliers := multipliers_or_flat seasonal_multipliers in
  let des := deseasonalized multipliers (zip item_history history_dows) in
  let n := length des in
  let post_beta := beta prior + of_nat n in
  predict_item self item_history history_dows future_dates future_dows
    category seasonal_multipliers s0
  = if Qeq_bool (post_beta + 1.0) 0 then (Raise ZeroDivisionError, s0)
    else forecast_loop multipliers (alpha prior + sum des)
           (post_beta / (post_beta + 1.0)) (confidence_of n) n
           (select_prior self category).2
           (zip future_dates future_dows) (random_seed 42).
Proof.
  cbv zeta. unfold predict_item. rewrite deseasonalize_spec.
  by destruct (select_prior self category) as [prior src].
Qed.

Lemma multipliers_or_flat_nonneg (seasonal_multipliers : option (gmap Z Q)) :
  (forall profile : gmap Z Q,
      seasonal_multipliers = Some profile ->
      map_Forall (fun _ m => 0 <= m) profile) ->
  forall dow : Z,
    0 <= get_multiplier (multipliers_or_flat seasonal_multipliers) dow.
Proof.
  intros Hp dow. unfold get_multiplier.
  assert (Hflat : 0 <= default 1.0 (flat_profile !! dow)).
  { destruct (flat_profile !! dow) as [m |] eqn:E; [| simpl; lra].
    unfold flat_profile in E. apply elem_of_list_to_map_2 in E.
    apply list_elem_of_fmap in E. destruct E as (i & [= _ ->] & _).
    simpl. lra. }
  destruct seasonal_multipliers as [d |]; simpl; [| exact Hflat].
  case_bool_decide; [exact Hflat |].
  destruct (d !! dow) as [m |] eqn:E; simpl; [| lra].
  by apply (Hp d eq_refl dow m).
Qed.

Lemma domain_of_posterior (a b : Q) :
  0 < a -> 0 < b -> nbinom_argcheck a (b / (b + 1.0)) = true.
Proof.
  intros Ha Hb. unfold nbinom_argcheck.
  assert (H1 : 0 < b / (b + 1.0)).
  { apply Qlt_shift_div_l; lra. }
  assert (H2 : b / (b + 1.0) <= 1).
  { apply Qle_shift_div_r; lra. }
  apply Qltb_true in Ha. apply Qltb_true in H1. apply Qle_bool_iff in H2.
  by rewrite Ha, H1, H2.
Qed.

(** The generator state a call starts from never reaches the
    sampler: it is replaced by [random_seed 42] first. *)
Lemma predict_item_reseeded (self : BayesianForecaster)
    (item_history : list Q) (history_dows : list Z)
    (future_dates : list string) (future_dows : list Z)
    (category : option string) (seasonal_multipliers : option (gmap Z Q))
    (s1 s2 : RandomState) :
  (predict_item self item_history history_dows future_dates future_dows
     category seasonal_multipliers s1).1
  = (predict_item self item_history history_dows future_dates future_dows
       category seasonal_multipliers s2).1.
Proof.
  rewrite !predict_item_unfold. cbv zeta.
  by destruct (Qeq_bool _ 0).
Qed.

End Loop.

End PredictFacts.

(** C1. In every call of [predict_item] whose history has one day-of-week
    label per point: the observations are the history points with their
    labels; the prior is the category prior when a (non-empty) category is
    requested and a prior was learned for it, and the global prior
    otherwise; the de-seasonalised history consists of the observations
    whose multiplier is not below [0.01], each divided by its multiplier;
    with [n] their number and [S'] their sum, every future day's samples
    are drawn from the negative binomial with [r = prior_alpha + S'] and
    [p = (prior_beta + n) / (prior_beta + n + 1)]; and with an empty
    history the posterior is the selected prior and, the prior being a
    Gamma prior (positive parameters), one forecast is returned for each
    requested future date. *)
Theorem C1_predict_item_posterior `{NumPy}
    (self : Bayesian.BayesianForecaster)
    (item_history : list Q) (history_dows : list Z)
    (future_dates : list string) (future_dows : list Z)
    (category : option string) (seasonal_multipliers : option (gmap Z Q))
    (s0 : RandomState) :
  length history_dows = length item_history ->
  let prior := (Bayesian.select_prior self category).1 in
  let multipliers := Bayesian.multipliers_or_flat seasonal_multipliers in
  let m := Bayesian.get_multiplier multipliers in
  let obs := zip item_history history_dows in
  let des :=
    (fun o : Q * Z => o.1 / m o.2)
      <$> filter (fun o : Q * Z => ~ m o.2 < 0.01) obs in
  let n := Num.of_nat (length des) in
  let S' := Num.sum des in
  obs.*1 = item_history
  /\ (forall c : string,
        category = Some c -> c <> "" ->
        prior = default (Bayesian.global_prior self)
                  (Bayesian.category_priors self !! c))
  /\ (category = None \/ category = Some "" ->
      prior = Bayesian.global_prior self)
  /\ Bayesian.deseasonalize multipliers item_history history_dows = des
  /\ (~ Bayesian.beta prior + n + 1 == 0 ->
      Bayesian.predict_item self item_history history_dows future_dates
        future_dows category seasonal_multipliers s0
      = Bayesian.forecast_loop multipliers
          (Bayesian.alpha prior + S')
          ((Bayesian.beta prior + n) / (Bayesian.beta prior + n + 1.0))
          (BayesianSpec.confidence_of (length des)) (length des)
          (Bayesian.select_prior self category).2
          (zip future_dates future_dows) (random_seed 42))
  /\ (item_history = [] ->
      Bayesian.alpha prior + S' == Bayesian.alpha prior
      /\ Bayesian.beta prior + n == Bayesian.beta prior
      /\ (0 < Bayesian.alpha prior -> 0 < Bayesian.beta prior ->
          length future_dows = length future_dates ->
          exists (fs : list Bayesian.ForecastDistribution) (s' : RandomState),
            Bayesian.predict_item self item_history history_dows future_dates
              future_dows category seasonal_multipliers s0 = (Ok fs, s')
            /\ Bayesian.date <$> fs = future_dates)).
Proof.
  intros Hlen prior multipliers m obs des n S'.
  pose proof (PredictFacts.predict_item_unfold self item_history history_dows
                future_dates future_dows category seasonal_multipliers s0)
    as Hun.
  cbv zeta in Hun.
  fold prior multipliers in Hun.
  change (BayesianSpec.deseasonalized multipliers
            (zip item_history history_dows)) with des in Hun.
  fold S' in Hun.
  change (Num.of_nat (length des)) with n in Hun.
  split; [| split; [| split; [| split; [| split]]]].
  - apply fst_zip. lia.
  - intros c -> Hc. unfold prior, Bayesian.select_prior.
    rewrite bool_decide_eq_false_2 by exact Hc.
    by destruct (Bayesian.category_priors self !! c).
  - intros [-> | ->]; reflexivity.
  - apply PredictFacts.deseasonalize_spec.
  - intros Hnz. rewrite Hun.
    destruct (Qeq_bool (Bayesian.beta prior + n + 1.0) 0) eqn:E;
      [| reflexivity].
    apply Qeq_bool_iff in E. exfalso. apply Hnz. rewrite <- E. lra.
  - intros ->.
    assert (Hdes : des = []) by reflexivity.
    assert (HS : S' = 0) by (unfold S'; rewrite Hdes; reflexivity).
    assert (Hn : n = 0) by (unfold n; rewrite Hdes; reflexivity).
    rewrite HS, Hn. split; [lra | split; [lra |]].
    intros Ha Hb Hfl. rewrite Hun, HS, Hn.
    destruct (Qeq_bool (Bayesian.beta prior + 0 + 1.0) 0) eqn:E.
    { apply Qeq_bool_iff in E. lra. }
    destruct (PredictFacts.forecast_loop_ok multipliers
                (Bayesian.alpha prior + 0)
                ((Bayesian.beta prior + 0) / (Bayesian.beta prior + 0 + 1.0))
                (BayesianSpec.confidence_of (length des)) (length des)
                (Bayesian.select_prior self category).2
                (zip future_dates future_dows) (random_seed 42))
      as (fs & s' & Hok & Hd).
    { apply PredictFacts.domain_of_posterior; lra. }
    exists fs, s'. split; [exact Hok |].
    rewrite Hd. apply fst_zip. lia.
Qed.

Lemma C1_predict_item_posterior_witness :
  length Sample.history_dows = length Sample.history
  /\ Bayesian.deseasonalize
       (Bayesian.multipliers_or_flat (Some Sample.profile))
       Sample.history Sample.history_dows
     = [10 / 2.0; 12 / 0.5]
  /\ Bayesian.predict_item Bayesian.default_forecaster
       Sample.history Sample.history_dows ["2025-01-06"] [0%Z]
       None (Some Sample.profile) (0%Z : @RandomState Lcg_numpy)
     = Bayesian.forecast_loop
         (Bayesian.multipliers_or_flat (Some Sample.profile))
         (2.0 + Num.sum [10 / 2.0; 12 / 0.5])
         ((0.5 + Num.of_nat 2) / (0.5 + Num.of_nat 2 + 1.0))
         (BayesianSpec.confidence_of 2) 2 "Global"
         [("2025-01-06", 0%Z)] (random_seed 42).
Proof.
  assert (Hlen : length Sample.history_dows = length Sample.history)
    by reflexivity.
  destruct (C1_predict_item_posterior Bayesian.default_forecaster
              Sample.history Sample.history_dows ["2025-01-06"] [0%Z]
              None (Some Sample.profile) (0%Z : @RandomState Lcg_numpy) Hlen)
    as (_ & _ & _ & Hdes & Hpost & _).
  split; [exact Hlen |]. split; [exact Hdes |].
  apply Hpost. vm_compute. discriminate.
Defined.

(** C2. Whatever the history, for a seasonal profile whose multipliers
    are all non-negative (or no profile at all), every forecast that
    [predict_item] returns has [0 <= p10 <= p50 <= p90 <= p99] and
    [mean >= 0]. *)
Theorem C2_forecast_quantiles_ordered `{NumPy}
    (self : Bayesian.BayesianForecaster)
    (item_history : list Q) (history_dows : list Z)
    (future_dates : list string) (future_dows : list Z)
    (category : option string) (seasonal_multipliers : option (gmap Z Q))
    (s0 s' : RandomState) (fs : list Bayesian.ForecastDistribution) :
  (forall profile : gmap Z Q,
      seasonal_multipliers = Some profile ->
      map_Forall (fun _ m => 0 <= m) profile) ->
  Bayesian.predict_item self item_history history_dows future_dates
    future_dows category seasonal_multipliers s0 = (Ok fs, s') ->
  forall f : Bayesian.ForecastDistribution,
    f ∈ fs ->
    0 <= Bayesian.p10 f /\ Bayesian.p10 f <= Bayesian.p50 f
    /\ Bayesian.p50 f <= Bayesian.p90 f /\ Bayesian.p90 f <= Bayesian.p99 f
    /\ 0 <= Bayesian.mean f.
Proof.
  intros Hprofile Hcall f Hf.
  rewrite PredictFacts.predict_item_unfold in Hcall. cbv zeta in Hcall.
  destruct (Qeq_bool _ 0) in Hcall; [discriminate |].
  apply PredictFacts.forecast_loop_well_formed in Hcall;
    [| by apply PredictFacts.multipliers_or_flat_nonneg].
  rewrite Forall_forall in Hcall. exact (Hcall f Hf).
Qed.

Lemma C2_forecast_quantiles_ordered_witness :
  exists (fs : list Bayesian.ForecastDistribution),
    (Bayesian.predict_item Bayesian.default_forecaster
       Sample.history Sample.history_dows ["2025-01-06"] [0%Z]
       None (Some Sample.profile) (0%Z : @RandomState Lcg_numpy)).1 = Ok fs
    /\ length fs = 1%nat
    /\ forall f : Bayesian.ForecastDistribution,
         f ∈ fs ->
         0 <= Bayesian.p10 f /\ Bayesian.p10 f <= Bayesian.p50 f
         /\ Bayesian.p50 f <= Bayesian.p90 f /\ Bayesian.p90 f <= Bayesian.p99 f
         /\ 0 <= Bayesian.mean f.
Proof.
  let v := eval vm_compute in
    (Bayesian.predict_item Bayesian.default_forecaster
       Sample.history Sample.history_dows ["2025-01-06"] [0%Z]
       None (Some Sample.profile) (0%Z : @RandomState Lcg_numpy)) in
  match v with
  | (Ok ?fs, ?s') =>
      assert (E : Bayesian.predict_item Bayesian.default_forecaster
                    Sample.history Sample.history_dows ["2025-01-06"] [0%Z]
                    None (Some Sample.profile) (0%Z : @RandomState Lcg_numpy)
                  = (Ok fs, s'))
        by (vm_compute; reflexivity);
      exists fs; split; [rewrite E; reflexivity |];
      split; [reflexivity |];
      apply (C2_forecast_quantiles_ordered Bayesian.default_forecaster
               Sample.history Sample.history_dows ["2025-01-06"] [0%Z]
               None (Some Sample.profile) (0%Z : @RandomState Lcg_numpy)
               s' fs);
      [ intros profile [= <-];
        apply (bool_decide_unpack _); vm_compute; reflexivity
      | exact E ]
  end.
Defined.

(** C10, as the code has it. [predict_item] re-seeds the global generator
    with the constant 42 on every call, so two calls with the same
    arguments on the same forecaster return the same forecasts, whatever
    state the generator was in before either call. *)
Theorem C10_fixed_seed_reproducible `{NumPy}
    (self : Bayesian.BayesianForecaster)
    (item_history : list Q) (history_dows : list Z)
    (future_dates : list string) (future_dows : list Z)
    (category : option string) (seasonal_multipliers : option (gmap Z Q))
    (s1 s2 : RandomState) :
  (Bayesian.predict_item self item_history history_dows future_dates
     future_dows category seasonal_multipliers s1).1
  = (Bayesian.predict_item self item_history history_dows future_dates
       future_dows category seasonal_multipliers s2).1.
Proof. apply PredictFacts.predict_item_reseeded. Qed.

(** C10 as stated fails: for no generator are there two calls with the
    same arguments whose outputs differ. *)
Lemma C10_unseeded_sampling_counterexample :
  ~ exists (np : NumPy) (self : Bayesian.BayesianForecaster)
      (item_history : list Q) (history_dows : list Z)
      (future_dates : list string) (future_dows : list Z)
      (category : option string) (seasonal_multipliers : option (gmap Z Q))
      (s1 s2 : RandomState),
      (Bayesian.predict_item self item_history history_dows future_dates
         future_dows category seasonal_multipliers s1).1
      <> (Bayesian.predict_item self item_history history_dows future_dates
            future_dows category seasonal_multipliers s2).1.
Proof.
  intros (np & self & h & d & fd & fw & c & sm & s1 & s2 & Hne).
  apply Hne, PredictFacts.predict_item_reseeded.
Qed.

(** ** The seasonality estimator *)

Module SeasonalityFacts.

Import Num NumFacts Forecast SeasonalitySpec.

Lemma fold_insert_lookup (f : Z -> Q) (l : list Z) (acc : gmap Z Q) (d : Z) :
  fold_left (fun (m : gmap Z Q) (i : Z) => <[ i := f i ]> m) l acc !! d
  = if decide (d ∈ l) then Some (f d) else acc !! d.
Proof.
  revert acc. induction l as [| i l IH]; intros acc.
  - simpl. destruct (decide (d ∈ [])) as [Hin | _]; [| reflexivity].
    by apply not_elem_of_nil in Hin.
  - cbn [fold_left]. rewrite IH.
    destruct (decide (d ∈ l)) as [Hl | Hl].
    + rewrite decide_True by (by right). reflexivity.
    + destruct (decide (d = i)) as [-> | Hne].
      * rewrite decide_True by (by left). by rewrite lookup_insert_eq.
      * rewrite decide_False by (rewrite elem_of_cons; tauto).
        by rewrite lookup_insert_ne.
Qed.

Lemma week_days (d : Z) : d ∈ seqZ 0 7 <-> (0 <= d < 7)%Z.
Proof. rewrite elem_of_seqZ. lia. Qed.

Lemma flat_profile_lookup (d : Z) :
  Bayesian.flat_profile !! d
  = if decide (0 <= d < 7)%Z then Some 1.0 else None.
Proof.
  unfold Bayesian.flat_profile. change [0; 1; 2; 3; 4; 5; 6]%Z with (seqZ 0 7).
  assert (Hkeys : (map (fun i : Z => (i, 1.0)) (seqZ 0 7)).*1 = seqZ 0 7)
    by reflexivity.
  destruct (decide (0 <= d < 7)%Z) as [Hd | Hd].
  - apply elem_of_list_to_map_1.
    + rewrite Hkeys. apply NoDup_seqZ.
    + apply list_elem_of_fmap. exists d. split; [reflexivity |].
      by apply week_days.
  - apply not_elem_of_list_to_map_1. rewrite Hkeys. by rewrite week_days.
Qed.

(** The profile, slot by slot. *)
Lemma seasonality_lookup (df : list (Z * Q)) (d : Z) :
  _calculate_seasonality df !! d
  = if decide (0 <= d < 7)%Z
    then Some (if bool_decide (df = []) || Qeq_bool (Num.mean (df.*2)) 0
               then 1.0
               else day_multiplier df (Num.mean (df.*2)) d)
    else None.
Proof.
  unfold _calculate_seasonality. destruct df as [| r df].
  - rewrite flat_profile_lookup. reflexivity.
  - rewrite bool_decide_eq_false_2 by done. cbn [orb].
    destruct (Qeq_bool (Num.mean ((r :: df).*2)) 0).
    + apply flat_profile_lookup.
    + rewrite fold_insert_lookup, lookup_empty.
      destruct (decide (0 <= d < 7)%Z) as [Hd | Hd].
      * rewrite decide_True by (by apply week_days). reflexivity.
      * rewrite decide_False by (by rewrite week_days). reflexivity.
Qed.

Lemma clip_range (m : Q) :
  0.3 <= py_max 0.3 (py_min m 3.0) /\ py_max 0.3 (py_min m 3.0) <= 3.0.
Proof.
  split; [apply py_max_l |].
  pose proof (py_min_r m 3.0) as Hmin.
  unfold py_max. destruct (Qltb 0.3 (py_min m 3.0)); lra.
Qed.

Lemma clip_minmax (m : Q) :
  py_max 0.3 (py_min m 3.0) == Qmax 0.3 (Qmin m 3.0).
Proof.
  unfold py_max, py_min.
  destruct (Qltb 3.0 m) eqn:E1.
  - apply Qltb_true in E1. rewrite (Q.min_r m 3.0) by lra.
    rewrite (Q.max_r 0.3 3.0) by lra.
    destruct (Qltb 0.3 3.0) eqn:E2; [reflexivity |].
    apply Qltb_false in E2. lra.
  - apply Qltb_false in E1. rewrite (Q.min_l m 3.0) by lra.
    destruct (Qltb 0.3 m) eqn:E2.
    + apply Qltb_true in E2. rewrite Q.max_r by lra. reflexivity.
    + apply Qltb_false in E2. rewrite Q.max_l by lra. reflexivity.
Qed.

Lemma day_multiplier_present (df : list (Z * Q)) (d : Z) :
  day_quantities df d <> [] ->
  day_multiplier df (Num.mean (df.*2)) d
  == clip (shrink (length (day_quantities df d)) (raw_multiplier df d)).
Proof.
  intros Hne. unfold day_multiplier. cbv zeta.
  fold (day_quantities df d). rewrite clip_minmax. unfold clip, shrink.
  destruct (day_quantities df d) as [| q qs] eqn:E; [done |].
  rewrite <- E. unfold raw_multiplier. rewrite E.
  repeat case_bool_decide; repeat case_decide; try lia; reflexivity.
Qed.

Lemma day_multiplier_absent (df : list (Z * Q)) (d : Z) :
  ~ Num.mean (df.*2) == 0 ->
  day_quantities df d = [] ->
  day_multiplier df (Num.mean (df.*2)) d == 1.
Proof.
  intros Hnz Hnil. unfold day_multiplier. cbv zeta.
  fold (day_quantities df d). rewrite Hnil. cbn [length].
  rewrite bool_decide_eq_true_2 by lia.
  assert (H1 : Num.mean (df.*2) / Num.mean (df.*2) == 1)
    by (field; exact Hnz).
  rewrite clip_minmax, H1.
  rewrite Q.min_l by lra. rewrite Q.max_r by lra. lra.
Qed.

End SeasonalityFacts.

(** C8. For every reference series, the profile of the seasonality
    estimator has exactly the seven slots 0..6, and every multiplier in
    it lies in [[0.3, 3.0]]. *)
Theorem C8_seasonality_bounds (df : list (Z * Q)) :
  (forall d : Z,
      is_Some (Forecast._calculate_seasonality df !! d) <-> (0 <= d < 7)%Z)
  /\ (forall (d : Z) (m : Q),
        Forecast._calculate_seasonality df !! d = Some m ->
        0.3 <= m /\ m <= 3.0).
Proof.
  split.
  - intros d. rewrite SeasonalityFacts.seasonality_lookup.
    destruct (decide (0 <= d < 7)%Z) as [Hd | Hd].
    + split; [done | by eexists].
    + split; [by intros [m Hm] | done].
  - intros d m. rewrite SeasonalityFacts.seasonality_lookup.
    destruct (decide (0 <= d < 7)%Z) as [Hd | Hd]; [| discriminate].
    intros [= <-].
    destruct (bool_decide (df = []) || Qeq_bool (Num.mean (df.*2)) 0).
    + split; lra.
    + apply SeasonalityFacts.clip_range.
Qed.

(** C4. For every reference series and every day of the week [d]: when
    the series is empty or its overall mean is 0 the multiplier is 1.0;
    otherwise, when day [d] has observations, it is the raw multiplier
    (mean of day [d] over the overall mean), shrunk to [0.7 m + 0.3] with
    fewer than 4 observations of that day and to [0.85 m + 0.15] with fewer
    than 8, then clipped to [[0.3, 3.0]] (a day with no observation gets
    1). The profile is returned as computed, not renormalised: the
    profile of a week with one extreme Monday does not have mean 1. *)
Theorem C4_seasonality_rule :
  (forall (df : list (Z * Q)) (d : Z),
      (0 <= d < 7)%Z ->
      exists m : Q,
        Forecast._calculate_seasonality df !! d = Some m
        /\ (df = [] \/ Num.mean (df.*2) == 0 -> m = 1.0)
        /\ (df <> [] -> ~ Num.mean (df.*2) == 0 ->
            (SeasonalitySpec.day_quantities df d <> [] ->
             m == SeasonalitySpec.clip
                    (SeasonalitySpec.shrink
                       (length (SeasonalitySpec.day_quantities df d))
                       (SeasonalitySpec.raw_multiplier df d)))
            /\ (SeasonalitySpec.day_quantities df d = [] -> m == 1)))
  /\ ~ Num.mean
        ((fun d : Z =>
            default 0 (Forecast._calculate_seasonality Sample.spike_week !! d))
           <$> seqZ 0 7) == 1.
Proof.
  split.
  - intros df d Hd. rewrite SeasonalityFacts.seasonality_lookup.
    rewrite decide_True by exact Hd. eexists. split; [reflexivity |].
    split.
    + intros [-> | Hz]; [reflexivity |].
      apply Qeq_bool_iff in Hz. rewrite Hz. by rewrite orb_true_r.
    + intros Hne Hnz.
      rewrite bool_decide_eq_false_2 by exact Hne. cbn [orb].
      destruct (Qeq_bool (Num.mean (df.*2)) 0) eqn:E.
      { apply Qeq_bool_iff in E. contradiction. }
      split.
      * apply SeasonalityFacts.day_multiplier_present.
      * by apply SeasonalityFacts.day_multiplier_absent.
  - vm_compute. discriminate.
Qed.

Lemma C4_seasonality_rule_witness :
  exists m : Q,
    Forecast._calculate_seasonality Sample.spike_week !! 0%Z = Some m
    /\ m == SeasonalitySpec.clip
              (SeasonalitySpec.shrink 1
                 (SeasonalitySpec.raw_multiplier Sample.spike_week 0))
    /\ m == 3.0.
Proof.
  destruct C4_seasonality_rule as [Hrule _].
  destruct (Hrule Sample.spike_week 0%Z ltac:(lia)) as (m & Hm & _ & Hgen).
  exists m. split; [exact Hm |].
  destruct Hgen as [Hpresent _]; [done | by vm_compute |].
  assert (Hclip : m == SeasonalitySpec.clip
                         (SeasonalitySpec.shrink 1
                            (SeasonalitySpec.raw_multiplier Sample.spike_week 0)))
    by (apply Hpresent; done).
  split; [exact Hclip |].
  rewrite Hclip. by vm_compute.
Defined.

(** ** The feature builder *)

Module FeaturesFacts.

Import Num NumFacts Stats Features FeaturesSpec.

Lemma historical_same_base (df df' : list Row) (idx : Z) :
  Forall2 same_base df df' -> historical df idx = historical df' idx.
Proof.
  unfold historical.
  induction 1 as [| a b df df' (Hi & Hq & Hs) _ IH]; [reflexivity |].
  rewrite !filter_cons, Hi, Hs.
  case_decide; [| exact IH].
  rewrite !fmap_cons, Hq. by f_equal.
Qed.

Lemma same_base_refl (df : list Row) : Forall2 same_base df df.
Proof. apply Forall2_same_length_lookup_2; [done |]. intros i a b -> [= ->]. done. Qed.

Lemma impute_map (df0 df : list Row) (i : Z) :
  Forall2 same_base df df0 ->
  impute df i
  = (fun r => if bool_decide (index r = i)
              then with_adjusted r (new_adjusted df0 r) else r) <$> df.
Proof.
  intros Hb. unfold impute. cbv zeta.
  change (quantity <$> filter _ df) with (historical df i).
  rewrite (historical_same_base _ _ i Hb).
  unfold set_adjusted, new_adjusted.
  case_bool_decide as Hn; apply list_fmap_ext; intros k r _;
    case_bool_decide as Hi; try reflexivity; subst i.
  - by rewrite bool_decide_eq_true_2.
  - by rewrite bool_decide_eq_false_2.
Qed.

Lemma impute_same_base (df0 df : list Row) (i : Z) :
  Forall2 same_base df df0 -> Forall2 same_base (impute df i) df0.
Proof.
  intros Hb. rewrite (impute_map df0 df i Hb).
  generalize (new_adjusted df0). intros g.
  induction Hb as [| a b df df' Hab _ IH]; [constructor |].
  rewrite fmap_cons. constructor; [| exact IH].
  case_bool_decide; exact Hab.
Qed.

Lemma fold_impute (df0 : list Row) (idxs : list Z) (df : list Row) :
  Forall2 same_base df df0 ->
  fold_left impute idxs df
  = (fun r => if bool_decide (index r ∈ idxs)
              then with_adjusted r (new_adjusted df0 r) else r) <$> df.
Proof.
  revert df. induction idxs as [| i idxs IH]; intros df Hb.
  - simpl. symmetry. etrans; [| apply list_fmap_id]. apply list_fmap_ext.
    intros k r _. reflexivity.
  - cbn [fold_left]. rewrite (IH _ (impute_same_base df0 df i Hb)).
    rewrite (impute_map df0 df i Hb), <- list_fmap_compose.
    apply list_fmap_ext. intros k r _. simpl.
    destruct (decide (index r = i)) as [Hi | Hi].
    + rewrite (bool_decide_eq_true_2 (index r = i)) by exact Hi.
      rewrite (bool_decide_eq_true_2 (index r ∈ i :: idxs))
        by (rewrite elem_of_cons; by left).
      case_bool_decide; reflexivity.
    + rewrite (bool_decide_eq_false_2 (index r = i)) by exact Hi.
      destruct (decide (index r ∈ idxs)) as [Hin | Hin].
      * rewrite !bool_decide_eq_true_2;
          [reflexivity | rewrite elem_of_cons; by right | exact Hin].
      * rewrite !bool_decide_eq_false_2;
          [reflexivity | rewrite elem_of_cons; tauto | exact Hin].
Qed.

(** The imputation loop, row by row. *)
Lemma unconstrain_map (df : list Row) :
  unconstrain df
  = (fun r => if bool_decide (index r ∈ stockout_days df)
              then with_adjusted r (new_adjusted df r) else r) <$> df.
Proof. unfold unconstrain. apply fold_impute, same_base_refl. Qed.

Lemma index_injective (df : list Row) (a b : Row) :
  NoDup (index <$> df) -> a ∈ df -> b ∈ df -> index a = index b -> a = b.
Proof.
  induction df as [| r df IH]; intros Hnd Ha Hb Hab.
  - by apply not_elem_of_nil in Ha.
  - rewrite fmap_cons in Hnd. apply NoDup_cons in Hnd as [Hr Hnd].
    apply elem_of_cons in Ha as [-> | Ha];
      apply elem_of_cons in Hb as [-> | Hb].
    + reflexivity.
    + exfalso. apply Hr. rewrite Hab. by apply list_elem_of_fmap_2.
    + exfalso. apply Hr. rewrite <- Hab. by apply list_elem_of_fmap_2.
    + by apply IH.
Qed.

Lemma stockout_days_iff (df : list Row) (r : Row) :
  NoDup (index <$> df) -> r ∈ df ->
  index r ∈ stockout_days df <-> stockout r = true.
Proof.
  intros Hnd Hr. unfold stockout_days. split.
  - intros Hin. apply list_elem_of_fmap in Hin as (r' & Hi & Hr').
    apply list_elem_of_filter in Hr' as [Hs Hr'].
    by rewrite (index_injective df r r' Hnd Hr Hr' Hi).
  - intros Hs. apply list_elem_of_fmap_2, list_elem_of_filter. by split.
Qed.

Lemma reindex_index (df : list SalesRow) (rows : list Row) :
  reindex df = Ok rows ->
  NoDup (index <$> rows)
  /\ Forall (fun r => adjusted_quantity r = quantity r) rows.
Proof.
  unfold reindex. cbv zeta. case_bool_decide; [| discriminate].
  intros [= <-]. split.
  - rewrite <- list_fmap_compose.
    rewrite (list_fmap_ext _ id (seqZ _ _) );
      [rewrite list_fmap_id; apply NoDup_seqZ |].
    intros k d _. simpl. by destruct (find _ df).
  - apply Forall_fmap, Forall_forall. intros d _. simpl.
    by destruct (find _ df).
Qed.

Lemma add_features_day (df : list Row) : day <$> add_features df = df.
Proof.
  unfold add_features. cbv zeta. apply list_eq. intros i.
  rewrite list_lookup_fmap, list_lookup_imap.
  by destruct (df !! i).
Qed.

Lemma dropna_day (df : list Row) (r : FeatureRow) :
  r ∈ dropna (add_features df) -> day r ∈ df.
Proof.
  unfold dropna. intros Hr. apply list_elem_of_filter in Hr as [_ Hr].
  rewrite <- (add_features_day df). by apply list_elem_of_fmap_2.
Qed.

Lemma py_max_Qmax (a b : Q) : py_max a b == Qmax a b.
Proof.
  unfold py_max. destruct (Qltb a b) eqn:E.
  - apply Qltb_true in E. rewrite Q.max_r by lra. reflexivity.
  - apply Qltb_false in E. rewrite Q.max_l by lra. reflexivity.
Qed.

(** The look-back of the loop is the same weekday within the eight
    weeks before the day. *)
Lemma historical_window (df : list Row) (t : Z) :
  historical df t
  = quantity <$>
      filter (fun o : Row =>
                (t - 56 <= index o <= t - 1)%Z
                ∧ Date.dayofweek (index o) = Date.dayofweek t
                ∧ stockout o = false) df.
Proof.
  unfold historical. f_equal. apply list_filter_iff. intros o.
  unfold Date.dayofweek. split.
  - intros (H1 & H2 & H3 & H4). repeat split; try done; lia.
  - intros ((H1 & H2) & H3 & H4). repeat split; try done.
    destruct (decide (index o = t - 1)%Z) as [E | E]; [| lia].
    rewrite E in H3. exfalso. Z.div_mod_to_equations. lia.
Qed.

(** Every returned row carries a day of the daily series: unchanged
    when the day is no stock-out, with the imputed value when it is. *)
Lemma output_rows (db : Session) (today restaurant_id : Z)
    (menu_item_id : option Z) (days_history : Z) (out : list FeatureRow) :
  create_training_dataset db today restaurant_id menu_item_id days_history
  = Ok out ->
  exists obs : list Row,
    observations db today restaurant_id menu_item_id days_history = Ok obs
    /\ forall r : FeatureRow,
         r ∈ out ->
         exists o : Row,
           o ∈ obs
           /\ adjusted_quantity o = quantity o
           /\ day r = if stockout o
                      then with_adjusted o (new_adjusted obs o) else o.
Proof.
  unfold create_training_dataset, observations. cbv zeta.
  set (sd := manual_stockouts db restaurant_id _ menu_item_id).
  assert (Hbuild : forall (results : list SalesRow) (tn : option string),
    build_dataset results tn sd = Ok out ->
    exists obs : list Row,
      match results with
      | [] => Ok []
      | r0 :: rest => daily_frame (r0 :: rest) tn sd
      end = Ok obs
      /\ forall r : FeatureRow,
           r ∈ out ->
           exists o : Row,
             o ∈ obs
             /\ adjusted_quantity o = quantity o
             /\ day r = if stockout o
                        then with_adjusted o (new_adjusted obs o) else o).
  { intros results tn. unfold build_dataset.
    destruct results as [| r0 results].
    - intros [= <-]. exists []. split; [reflexivity |].
      intros r Hr. by apply not_elem_of_nil in Hr.
    - destruct (daily_frame (r0 :: results) tn sd) as [obs | e] eqn:Hframe;
        [| discriminate].
      cbn. intros [= <-]. exists obs. split; [reflexivity |].
      intros r Hr. apply dropna_day in Hr.
      rewrite unconstrain_map in Hr.
      apply list_elem_of_fmap in Hr as (o & Hday & Ho).
      destruct (reindex_index _ _ Hframe) as [Hnd Hadj].
      rewrite Forall_forall in Hadj.
      exists o. split; [exact Ho |]. split; [by apply Hadj |].
      rewrite Hday.
      pose proof (stockout_days_iff obs o Hnd Ho) as Hiff.
      destruct (stockout o).
      + rewrite bool_decide_eq_true_2; [reflexivity | by apply Hiff].
      + rewrite bool_decide_eq_false_2; [reflexivity |].
        intros Hin. apply Hiff in Hin. discriminate. }
  destruct menu_item_id as [mid |].
  - destruct (item_by_id db mid) as [item |].
    + apply Hbuild.
    + intros [= <-]. exists []. split; [reflexivity |].
      intros r Hr. by apply not_elem_of_nil in Hr.
  - apply Hbuild.
Qed.

End FeaturesFacts.

(** C3. In the frame the feature builder returns, for every day flagged
    as a stock-out: with [H] the quantities of the days of the daily
    series that are no stock-outs, fall in the 56 days before it and on
    its day of the week, the adjusted quantity is the maximum of the raw
    quantity and the median of [H] when [H] has at least two values, and
    1.3 times the raw quantity otherwise. *)
Theorem C3_stockout_imputation (db : Session) (today restaurant_id : Z)
    (menu_item_id : option Z) (days_history : Z)
    (out : list Features.FeatureRow) :
  Features.create_training_dataset db today restaurant_id menu_item_id
    days_history = Ok out ->
  exists obs : list Features.Row,
    FeaturesSpec.observations db today restaurant_id menu_item_id
      days_history = Ok obs
    /\ forall r : Features.FeatureRow,
         r ∈ out ->
         Features.stockout (Features.day r) = true ->
         let t := Features.index (Features.day r) in
         let raw := Features.quantity (Features.day r) in
         let H :=
           Features.quantity <$>
             filter (fun o : Features.Row =>
                       (t - 56 <= Features.index o <= t - 1)%Z
                       ∧ Date.dayofweek (Features.index o) = Date.dayofweek t
                       ∧ Features.stockout o = false) obs in
         (exists o : Features.Row,
             o ∈ obs /\ Features.index o = t /\ Features.quantity o = raw
             /\ Features.stockout o = true)
         /\ ((2 <= length H)%nat ->
             Features.adjusted_quantity (Features.day r)
             == Qmax raw (Stats.median H))
         /\ ((length H < 2)%nat ->
             Features.adjusted_quantity (Features.day r) == raw * 1.3).
Proof.
  intros Hcall.
  destruct (FeaturesFacts.output_rows _ _ _ _ _ _ Hcall) as (obs & Hobs & Hrows).
  exists obs. split; [exact Hobs |].
  intros r Hr Hstock. cbv zeta.
  destruct (Hrows r Hr) as (o & Ho & Hadj & Hday).
  rewrite Hday in *.
  destruct (Features.stockout o) eqn:Es; [| congruence].
  cbn [FeaturesSpec.with_adjusted Features.index Features.quantity
         Features.adjusted_quantity].
  rewrite <- FeaturesFacts.historical_window.
  split; [by exists o |].
  unfold FeaturesSpec.new_adjusted. cbv zeta.
  split; intros Hn.
  - rewrite bool_decide_eq_true_2 by exact Hn.
    apply FeaturesFacts.py_max_Qmax.
  - rewrite bool_decide_eq_false_2 by lia. reflexivity.
Qed.

(** C9. In every row the feature builder returns, the adjusted quantity
    equals the raw quantity when the day is no stock-out, and is at
    least the raw quantity whenever that is non-negative. *)
Theorem C9_unconstraining_monotone (db : Session) (today restaurant_id : Z)
    (menu_item_id : option Z) (days_history : Z)
    (out : list Features.FeatureRow) :
  Features.create_training_dataset db today restaurant_id menu_item_id
    days_history = Ok out ->
  forall r : Features.FeatureRow,
    r ∈ out ->
    (Features.stockout (Features.day r) = false ->
     Features.adjusted_quantity (Features.day r)
     = Features.quantity (Features.day r))
    /\ (0 <= Features.quantity (Features.day r) ->
        Features.quantity (Features.day r)
        <= Features.adjusted_quantity (Features.day r)).
Proof.
  intros Hcall r Hr.
  destruct (FeaturesFacts.output_rows _ _ _ _ _ _ Hcall) as (obs & _ & Hrows).
  destruct (Hrows r Hr) as (o & _ & Hadj & ->).
  destruct (Features.stockout o) eqn:Es.
  - cbn [FeaturesSpec.with_adjusted Features.stockout Features.quantity
           Features.adjusted_quantity].
    split; [congruence |]. intros Hq.
    unfold FeaturesSpec.new_adjusted. cbv zeta. case_bool_decide.
    + apply NumFacts.py_max_l.
    + lra.
  - split; [intros _; exact Hadj |]. intros _. rewrite Hadj. lra.
Qed.

Lemma C3_stockout_imputation_witness :
  exists (out : list Features.FeatureRow) (obs : list Features.Row),
    Features.create_training_dataset Sample.burger_db Sample.today 1
      (Some 7%Z) 60 = Ok out
    /\ length out = 28%nat
    /\ FeaturesSpec.observations Sample.burger_db Sample.today 1
         (Some 7%Z) 60 = Ok obs
    /\ forall r : Features.FeatureRow,
         r ∈ out ->
         Features.stockout (Features.day r) = true ->
         let t := Features.index (Features.day r) in
         let raw := Features.quantity (Features.day r) in
         let H :=
           Features.quantity <$>
             filter (fun o : Features.Row =>
                       (t - 56 <= Features.index o <= t - 1)%Z
                       ∧ Date.dayofweek (Features.index o) = Date.dayofweek t
                       ∧ Features.stockout o = false) obs in
         (exists o : Features.Row,
             o ∈ obs /\ Features.index o = t /\ Features.quantity o = raw
             /\ Features.stockout o = true)
         /\ ((2 <= length H)%nat ->
             Features.adjusted_quantity (Features.day r)
             == Qmax raw (Stats.median H))
         /\ ((length H < 2)%nat ->
             Features.adjusted_quantity (Features.day r) == raw * 1.3).
Proof.
  let v := eval vm_compute in
    (Features.create_training_dataset Sample.burger_db Sample.today 1
       (Some 7%Z) 60) in
  match v with
  | Ok ?out =>
      assert (E : Features.create_training_dataset Sample.burger_db
                    Sample.today 1 (Some 7%Z) 60 = Ok out)
        by (vm_compute; reflexivity);
      destruct (C3_stockout_imputation Sample.burger_db Sample.today 1
                  (Some 7%Z) 60 out E) as (obs & Hobs & Hrows);
      exists out, obs;
      split; [exact E |];
      split; [reflexivity |];
      split; [exact Hobs | exact Hrows]
  end.
Defined.

Lemma C9_unconstraining_monotone_witness :
  exists out : list Features.FeatureRow,
    Features.create_training_dataset Sample.burger_db Sample.today 1
      (Some 7%Z) 60 = Ok out
    /\ length out = 28%nat
    /\ forall r : Features.FeatureRow,
         r ∈ out ->
         (Features.stockout (Features.day r) = false ->
          Features.adjusted_quantity (Features.day r)
          = Features.quantity (Features.day r))
         /\ (0 <= Features.quantity (Features.day r) ->
             Features.quantity (Features.day r)
             <= Features.adjusted_quantity (Features.day r)).
Proof.
  let v := eval vm_compute in
    (Features.create_training_dataset Sample.burger_db Sample.today 1
       (Some 7%Z) 60) in
  match v with
  | Ok ?out =>
      assert (E : Features.create_training_dataset Sample.burger_db
                    Sample.today 1 (Some 7%Z) 60 = Ok out)
        by (vm_compute; reflexivity);
      exists out;
      split; [exact E |];
      split; [reflexivity |];
      exact (C9_unconstraining_monotone Sample.burger_db Sample.today 1
               (Some 7%Z) 60 out E)
  end.
Defined.

(** The scenario of the specification: the stock-out day that sold 2
    among days of 10 is adjusted to 10. *)
Example stockout_day_adjusted_to_median :
  match Features.create_training_dataset Sample.burger_db Sample.today 1
          (Some 7%Z) 60 with
  | Ok rows =>
      (fun r : Features.FeatureRow =>
         (Features.quantity (Features.day r),
          Qred (Features.adjusted_quantity (Features.day r))))
        <$> filter (fun r => Features.stockout (Features.day r) = true) rows
  | Raise _ => []
  end = [(2, 10)].
Proof. vm_compute. reflexivity. Qed.

(** ** The orchestrator *)

Module OrchestratorFacts.

Import Num NumFacts Stats Bayesian Forecast BayesianSpec OrchestratorSpec.

Lemma sales_query_no_sales (d : Session) (restaurant_id cutoff_date : Z)
    (target_name : option string) :
  (forall t : Transaction.t,
      t ∈ transactions d -> Transaction.restaurant_id t <> restaurant_id) ->
  Features.sales_query d restaurant_id cutoff_date target_name = [].
Proof.
  intros Hnone. unfold Features.sales_query. cbv zeta.
  match goal with
  | |- _ <$> remove_dups (_ <$> ?j) = _ => assert (Hj : j = [])
  end.
  { apply elem_of_nil_inv. intros x Hx.
    apply list_elem_of_bind in Hx as (ti & Hx & _).
    apply list_elem_of_bind in Hx as (t & Hx & Ht).
    destruct (bool_decide _) eqn:E in Hx; [| by apply not_elem_of_nil in Hx].
    apply bool_decide_eq_true in E as (_ & Hr & _).
    by apply (Hnone t Ht). }
  rewrite Hj. reflexivity.
Qed.

Lemma category_query_no_sales (d : Session) (restaurant_id start_date : Z) :
  (forall t : Transaction.t,
      t ∈ transactions d -> Transaction.restaurant_id t <> restaurant_id) ->
  category_query d restaurant_id start_date = [].
Proof.
  intros Hnone. unfold category_query.
  apply elem_of_nil_inv. intros x Hx.
  apply list_elem_of_bind in Hx as (t & Hx & Ht).
  apply list_elem_of_bind in Hx as (ti & Hx & _).
  apply list_elem_of_bind in Hx as (i & Hx & _).
  case_bool_decide as E; [| by apply not_elem_of_nil in Hx].
  destruct E as (_ & _ & _ & Hr & _). by apply (Hnone t Ht).
Qed.

Lemma select_prior_default (category : option string) :
  select_prior default_forecaster category
  = (global_prior default_forecaster, "Global").
Proof.
  destruct category as [c |]; [| reflexivity]. unfold select_prior.
  case_bool_decide; [reflexivity |].
  change (category_priors default_forecaster) with (∅ : gmap string GammaParams).
  by rewrite lookup_empty.
Qed.

Lemma cat_context_nonempty (category : option string) :
  cat_context category <> "".
Proof.
  unfold cat_context. destruct category as [c |]; [| done].
  by case_bool_decide.
Qed.

Lemma refreshed_beta_positive (cat : string) (samples : list Q) :
  cat <> "" -> 0 < beta (select_prior (refreshed cat samples) (Some cat)).1.
Proof.
  intros Hcat. destruct samples as [| y samples].
  - cbn [refreshed]. rewrite select_prior_default. reflexivity.
  - cbn [refreshed].
    destruct (LearnFacts.learn_priors_spec default_forecaster
                {[ cat := y :: samples ]}) as [_ Hc].
    unfold select_prior. rewrite bool_decide_eq_false_2 by exact Hcat.
    rewrite Hc, lookup_singleton_eq.
    cbn [fst BayesianSpec.learned beta].
    change (beta (global_prior default_forecaster)) with 0.5.
    pose proof (of_nat_nonneg (length (y :: samples))). lra.
Qed.

Section Calls.
Context `{NumPy}.

(** With no future date asked for, nothing is sampled. *)
Lemma predict_item_no_future (self : BayesianForecaster)
    (item_history : list Q) (history_dows : list Z)
    (category : option string) (seasonal_multipliers : option (gmap Z Q))
    (s0 : RandomState) :
  0 < beta (select_prior self category).1 ->
  predict_item self item_history history_dows [] [] category
    seasonal_multipliers s0 = (Ok [], random_seed 42).
Proof.
  intros Hb. rewrite PredictFacts.predict_item_unfold. cbv zeta.
  match goal with
  | |- (if Qeq_bool ?x 0 then _ else _) = _ =>
      destruct (Qeq_bool x 0) eqn:E; [| reflexivity]
  end.
  apply Qeq_bool_iff in E.
  pose proof (of_nat_nonneg
                (length (BayesianSpec.deseasonalized
                           (multipliers_or_flat seasonal_multipliers)
                           (zip item_history history_dows)))).
  lra.
Qed.

(** With no history and a Gamma prior, one forecast per future date. *)
Lemma predict_item_cold_start (self : BayesianForecaster)
    (future_dates : list string) (future_dows : list Z)
    (category : option string) (seasonal_multipliers : option (gmap Z Q))
    (s0 : RandomState) :
  0 < alpha (select_prior self category).1 ->
  0 < beta (select_prior self category).1 ->
  exists (fs : list ForecastDistribution) (s' : RandomState),
    predict_item self [] [] future_dates future_dows category
      seasonal_multipliers s0 = (Ok fs, s')
    /\ date <$> fs = (zip future_dates future_dows).*1.
Proof.
  intros Ha Hb. rewrite PredictFacts.predict_item_unfold. cbv zeta.
  change (BayesianSpec.deseasonalized _ (zip [] [])) with (@nil Q).
  change (sum []) with 0. change (of_nat (length (@nil Q))) with 0.
  destruct (Qeq_bool _ 0) eqn:E; [apply Qeq_bool_iff in E; lra |].
  apply PredictFacts.forecast_loop_ok.
  apply PredictFacts.domain_of_posterior; lra.
Qed.

(** Only the paired part of a history and its labels is read. *)
Lemma predict_item_zip (self : BayesianForecaster)
    (item_history : list Q) (history_dows : list Z)
    (future_dates : list string) (future_dows : list Z)
    (category : option string) (seasonal_multipliers : option (gmap Z Q))
    (s0 : RandomState) :
  let k := Nat.min (length item_history) (length history_dows) in
  predict_item self item_history history_dows future_dates future_dows
    category seasonal_multipliers s0
  = predict_item self (take k item_history) (take k history_dows)
      future_dates future_dows category seasonal_multipliers s0.
Proof.
  cbv zeta. rewrite !PredictFacts.predict_item_unfold. cbv zeta.
  assert (Hz : zip (take (Nat.min (length item_history) (length history_dows))
                      item_history)
                   (take (Nat.min (length item_history) (length history_dows))
                      history_dows)
               = zip item_history history_dows)
    by (apply zip_with_take_both'; lia).
  rewrite Hz. reflexivity.
Qed.

(** An unknown item in a restaurant with no sales: the orchestrator
    goes on from an empty history to one forecast per day asked. *)
Lemma generate_forecasts_no_sales (d : Session) (today restaurant_id : Z)
    (menu_item_name : string) (days_ahead : Z) (category : option string)
    (s0 : RandomState) :
  filter (fun i => MenuItem.name i = menu_item_name
                   ∧ MenuItem.restaurant_id i = restaurant_id)
    (menu_items d) = [] ->
  (forall t : Transaction.t,
      t ∈ transactions d -> Transaction.restaurant_id t <> restaurant_id) ->
  exists (saved : list DemandForecast.t) (s' : RandomState),
    generate_forecasts (Forecast.init d) today restaurant_id
      menu_item_name days_ahead category s0
    = (Ok saved,
       {| db := commit d saved; forecaster := default_forecaster |}, s')
    /\ length saved = Z.to_nat days_ahead
    /\ forall (i : nat) (rec : DemandForecast.t),
         saved !! i = Some rec ->
         DemandForecast.menu_item_name rec = menu_item_name
         /\ DemandForecast.forecast_date rec = (today + Z.of_nat i)%Z.
Proof.
  intros Hunres Hnone.
  unfold generate_forecasts, Forecast.init. cbn [db forecaster].
  rewrite Hunres. cbn [scalar_one_or_none fmap option_fmap option_map].
  unfold Features.create_training_dataset. cbv zeta.
  rewrite (sales_query_no_sales d _ _ None Hnone).
  cbn [Features.build_dataset].
  unfold _get_category_data. cbv zeta.
  rewrite (category_query_no_sales d _ _ Hnone).
  cbn [_calculate_seasonality]. rewrite map_to_list_empty.
  cbn [fmap list_fmap concat].
  fold (cat_context category).
  destruct (predict_item_cold_start default_forecaster
              (Date.isoformat <$> seqZ (today - 1 + 1) days_ahead)
              (Date.dayofweek <$> seqZ (today - 1 + 1) days_ahead)
              (Some (cat_context category)) (Some flat_profile) s0)
    as (fs & s' & Hok & Hd).
  { rewrite select_prior_default. reflexivity. }
  { rewrite select_prior_default. reflexivity. }
  rewrite Hok. eexists _, s'. split; [reflexivity |].
  assert (Hlen : length fs = Z.to_nat days_ahead).
  { apply (f_equal length) in Hd.
    rewrite !length_fmap, length_zip_with, !length_fmap, length_seqZ in Hd.
    lia. }
  split; [by rewrite length_imap |].
  intros i rec Hi. rewrite list_lookup_imap in Hi.
  destruct (fs !! i) as [f |]; [| discriminate].
  injection Hi as <-.
  cbn [to_record DemandForecast.menu_item_name DemandForecast.forecast_date].
  split; [reflexivity | lia].
Qed.

(** A negative horizon: nothing to forecast, an empty list comes back
    and the stored forecasts are as before. *)
Lemma generate_forecasts_negative (d : Session) (today restaurant_id : Z)
    (menu_item_name : string) (days_ahead : Z) (category : option string)
    (s0 : RandomState) (item : option MenuItem.t)
    (df_item : list Features.FeatureRow) :
  (days_ahead < 0)%Z ->
  scalar_one_or_none
    (filter (fun i => MenuItem.name i = menu_item_name
                      ∧ MenuItem.restaurant_id i = restaurant_id)
       (menu_items d)) = Ok item ->
  Features.create_training_dataset d today restaurant_id
    (MenuItem.id <$> item) 365 = Ok df_item ->
  exists (service' : ForecastService),
    generate_forecasts (Forecast.init d) today restaurant_id
      menu_item_name days_ahead category s0
    = (Ok [], service', random_seed 42)
    /\ demand_forecasts (db service') = demand_forecasts d.
Proof.
  intros Hneg Hitem Hdf.
  unfold generate_forecasts, Forecast.init. cbn [db forecaster].
  rewrite Hitem, Hdf.
  fold (cat_context category).
  destruct (_get_category_data d today restaurant_id
              (cat_context category) 90) as [df_cat priors_raw_data].
  cbv zeta.
  change (match concat (map_to_list priors_raw_data).*2 with
          | [] => default_forecaster
          | _ :: _ => learn_priors default_forecaster
                        {[ cat_context category :=
                             concat (map_to_list priors_raw_data).*2 ]}
          end)
    with (refreshed (cat_context category)
            (concat (map_to_list priors_raw_data).*2)).
  assert (Hfuture : forall m : Z, seqZ m days_ahead = []).
  { intros m. unfold seqZ. replace (Z.to_nat days_ahead) with 0%nat by lia.
    reflexivity. }
  destruct df_item as [| r0 df_item];
    rewrite Hfuture; cbn [fmap list_fmap];
    rewrite predict_item_no_future
      by (apply refreshed_beta_positive, cat_context_nonempty);
    (eexists; split; [reflexivity |]);
    cbn [db commit demand_forecasts imap]; apply app_nil_r.
Qed.

End Calls.

End OrchestratorFacts.

(** C6, as the code has it. A [menu_item_name] that resolves to no menu
    item of the restaurant raises no not-found error: the item id is
    [None] and the feature builder runs without an item filter. On a
    fresh service, for a restaurant with no sales on record, the call
    returns and commits one cold-start forecast for each of the
    [days_ahead] days from today on, under the unknown name. *)
Theorem C6_unresolved_item_absorbed `{NumPy} (d : Session)
    (today restaurant_id : Z) (menu_item_name : string) (days_ahead : Z)
    (category : option string) (s0 : RandomState) :
  filter (fun i => MenuItem.name i = menu_item_name
                   ∧ MenuItem.restaurant_id i = restaurant_id)
    (menu_items d) = [] ->
  (forall t : Transaction.t,
      t ∈ transactions d -> Transaction.restaurant_id t <> restaurant_id) ->
  exists (saved : list DemandForecast.t) (s' : RandomState),
    Forecast.generate_forecasts (Forecast.init d) today restaurant_id
      menu_item_name days_ahead category s0
    = (Ok saved,
       {| Forecast.db := Forecast.commit d saved;
          Forecast.forecaster := Bayesian.default_forecaster |}, s')
    /\ length saved = Z.to_nat days_ahead
    /\ forall (i : nat) (rec : DemandForecast.t),
         saved !! i = Some rec ->
         DemandForecast.menu_item_name rec = menu_item_name
         /\ DemandForecast.forecast_date rec = (today + Z.of_nat i)%Z.
Proof. apply OrchestratorFacts.generate_forecasts_no_sales. Qed.

Lemma C6_unresolved_item_absorbed_witness :
  exists (saved : list DemandForecast.t) (s' : @RandomState Lcg_numpy),
    Forecast.generate_forecasts (Forecast.init Sample.empty_db) Sample.today
      1 "Ghost" 7 None (0%Z : @RandomState Lcg_numpy)
    = (Ok saved,
       {| Forecast.db := Forecast.commit Sample.empty_db saved;
          Forecast.forecaster := Bayesian.default_forecaster |}, s')
    /\ length saved = Z.to_nat 7
    /\ forall (i : nat) (rec : DemandForecast.t),
         saved !! i = Some rec ->
         DemandForecast.menu_item_name rec = "Ghost"
         /\ DemandForecast.forecast_date rec = (Sample.today + Z.of_nat i)%Z.
Proof.
  apply (C6_unresolved_item_absorbed Sample.empty_db Sample.today 1 "Ghost" 7
           None (0%Z : @RandomState Lcg_numpy)).
  - reflexivity.
  - intros t Ht. vm_compute in Ht. by apply not_elem_of_nil in Ht.
Defined.

(** C6 as stated fails: "Ghost" is no menu item of restaurant 1, whose
    only item is "Burger", yet the call raises nothing; it forecasts
    from the restaurant's sales and commits a forecast named "Ghost". *)
Lemma C6_not_found_counterexample :
  filter (fun i => MenuItem.name i = "Ghost" ∧ MenuItem.restaurant_id i = 1%Z)
    (menu_items Sample.burger_db) = []
  /\ exists (rec : DemandForecast.t) (service' : Forecast.ForecastService)
       (s' : @RandomState Lcg_numpy),
       Forecast.generate_forecasts (Forecast.init Sample.burger_db)
         Sample.today 1 "Ghost" 1 None (0%Z : @RandomState Lcg_numpy)
       = (Ok [rec], service', s')
       /\ demand_forecasts (Forecast.db service') = [rec]
       /\ DemandForecast.menu_item_name rec = "Ghost".
Proof.
  split; [reflexivity |].
  let v := eval vm_compute in
    (Forecast.generate_forecasts (Forecast.init Sample.burger_db)
       Sample.today 1 "Ghost" 1 None (0%Z : @RandomState Lcg_numpy)) in
  match v with
  | (Ok [?rec], ?svc, ?s) =>
      exists rec, svc, s;
      split; [vm_compute; reflexivity | split; reflexivity]
  end.
Qed.

(** C7, as the code has it. Neither condition is checked. With a
    negative horizon, once the item look-up and the feature builder have
    returned, a fresh service returns the empty list with no error and
    leaves the stored forecasts as they were. A history and a label list
    of different lengths are paired by [zip]: [predict_item] gives what
    it gives on both cut to the shorter length. *)
Theorem C7_no_precondition_check `{NumPy} (d : Session)
    (today restaurant_id : Z) (menu_item_name : string) (days_ahead : Z)
    (category : option string) (s0 : RandomState)
    (item : option MenuItem.t) (df_item : list Features.FeatureRow)
    (self : Bayesian.BayesianForecaster)
    (item_history : list Q) (history_dows : list Z)
    (future_dates : list string) (future_dows : list Z)
    (seasonal_multipliers : option (gmap Z Q)) :
  (days_ahead < 0)%Z ->
  scalar_one_or_none
    (filter (fun i => MenuItem.name i = menu_item_name
                      ∧ MenuItem.restaurant_id i = restaurant_id)
       (menu_items d)) = Ok item ->
  Features.create_training_dataset d today restaurant_id
    (MenuItem.id <$> item) 365 = Ok df_item ->
  (exists service' : Forecast.ForecastService,
      Forecast.generate_forecasts (Forecast.init d) today restaurant_id
        menu_item_name days_ahead category s0
      = (Ok [], service', random_seed 42)
      /\ demand_forecasts (Forecast.db service') = demand_forecasts d)
  /\ (let k := Nat.min (length item_history) (length history_dows) in
      Bayesian.predict_item self item_history history_dows future_dates
        future_dows category seasonal_multipliers s0
      = Bayesian.predict_item self (take k item_history)
          (take k history_dows) future_dates future_dows category
          seasonal_multipliers s0).
Proof.
  intros Hneg Hitem Hdf. split.
  - by eapply OrchestratorFacts.generate_forecasts_negative.
  - apply OrchestratorFacts.predict_item_zip.
Qed.

Lemma C7_no_precondition_check_witness :
  (exists service' : Forecast.ForecastService,
      Forecast.generate_forecasts (Forecast.init Sample.burger_db)
        Sample.today 1 "Burger" (-3) None (0%Z : @RandomState Lcg_numpy)
      = (Ok [], service', random_seed 42)
      /\ demand_forecasts (Forecast.db service')
         = demand_forecasts Sample.burger_db)
  /\ Bayesian.predict_item Bayesian.default_forecaster [10; 12] [0%Z]
       ["2025-01-06"] [0%Z] None None (0%Z : @RandomState Lcg_numpy)
     = Bayesian.predict_item Bayesian.default_forecaster [10] [0%Z]
         ["2025-01-06"] [0%Z] None None (0%Z : @RandomState Lcg_numpy).
Proof.
  let v := eval vm_compute in
    (Features.create_training_dataset Sample.burger_db Sample.today 1
       (Some 7%Z) 365) in
  match v with
  | Ok ?df =>
      apply (C7_no_precondition_check Sample.burger_db Sample.today 1
               "Burger" (-3) None (0%Z : @RandomState Lcg_numpy)
               (Some {| MenuItem.id := 7; MenuItem.restaurant_id := 1;
                        MenuItem.name := "Burger" |})
               df Bayesian.default_forecaster [10; 12] [0%Z]
               ["2025-01-06"] [0%Z] None);
      [ lia | reflexivity | vm_compute; reflexivity ]
  end.
Defined.

(** C7 as stated fails: a horizon of -3 is answered with an empty list,
    and a two-point history with a single label with a forecast. *)
Lemma C7_rejection_counterexample :
  (exists (service' : Forecast.ForecastService) (s' : @RandomState Lcg_numpy),
      Forecast.generate_forecasts (Forecast.init Sample.burger_db)
        Sample.today 1 "Burger" (-3) None (0%Z : @RandomState Lcg_numpy)
      = (Ok [], service', s'))
  /\ length ([10; 12] : list Q) <> length [0%Z]
  /\ exists (f : Bayesian.ForecastDistribution) (s' : @RandomState Lcg_numpy),
       Bayesian.predict_item Bayesian.default_forecaster [10; 12] [0%Z]
         ["2025-01-06"] [0%Z] None None (0%Z : @RandomState Lcg_numpy)
       = (Ok [f], s').
Proof.
  split; [| split; [simpl; lia |]].
  - let v := eval vm_compute in
      (Forecast.generate_forecasts (Forecast.init Sample.burger_db)
         Sample.today 1 "Burger" (-3) None (0%Z : @RandomState Lcg_numpy)) in
    match v with
    | (Ok [], ?svc, ?s) => exists svc, s; vm_compute; reflexivity
    end.
  - let v := eval vm_compute in
      (Bayesian.predict_item Bayesian.default_forecaster [10; 12] [0%Z]
         ["2025-01-06"] [0%Z] None None (0%Z : @RandomState Lcg_numpy)) in
    match v with
    | (Ok [?f], ?s) => exists f, s; vm_compute; reflexivity
    end.
Qed.

(** ** Business days and opening hours *)

Module BusinessDayFacts.

Import Num NumFacts BusinessDay.

Lemma offset_range (t : time) :
  valid_time t -> (0 <= time_to_offset_minutes t < 1440)%Z.
Proof.
  intros [Hh Hm]. unfold time_to_offset_minutes, BUSINESS_DAY_START_HOUR.
  cbv zeta. destruct (Z.ltb_spec (hour t) 4); lia.
Qed.

Lemma hours_clamped (h : Q) :
  1 <= py_max 1.0 (py_min h 24.0) /\ py_max 1.0 (py_min h 24.0) <= 24.
Proof.
  pose proof (py_max_l 1.0 (py_min h 24.0)) as Hlo.
  pose proof (py_min_r h 24.0) as Hmin.
  split; [lra |]. unfold py_max. destruct (Qltb 1.0 (py_min h 24.0)); lra.
Qed.

End BusinessDayFacts.

(** X1. The offset of a wall-clock time from 4:00 lies in [[0, 1440)],
    and two times of day with the same offset are the same time: the
    business day is the 24 hours from 4:00 to 3:59. *)
Theorem X1_offset_minutes_bijective (t1 t2 : BusinessDay.time) :
  BusinessDay.valid_time t1 -> BusinessDay.valid_time t2 ->
  (0 <= BusinessDay.time_to_offset_minutes t1 < 1440)%Z
  /\ (BusinessDay.time_to_offset_minutes t1
      = BusinessDay.time_to_offset_minutes t2 -> t1 = t2).
Proof.
  intros H1 H2. split; [by apply BusinessDayFacts.offset_range |].
  destruct t1 as [h1 m1], t2 as [h2 m2]. destruct H1 as [Hh1 Hm1], H2 as [Hh2 Hm2].
  unfold BusinessDay.time_to_offset_minutes, BusinessDay.BUSINESS_DAY_START_HOUR.
  cbn in *. intros Heq.
  assert (h1 = h2 /\ m1 = m2) as [-> ->]; [| reflexivity].
  destruct (Z.ltb_spec h1 4), (Z.ltb_spec h2 4); lia.
Qed.

Lemma X1_offset_minutes_bijective_witness :
  (0 <= BusinessDay.time_to_offset_minutes
          {| BusinessDay.hour := 2; BusinessDay.minute := 0 |} < 1440)%Z
  /\ (BusinessDay.time_to_offset_minutes
        {| BusinessDay.hour := 2; BusinessDay.minute := 0 |}
      = BusinessDay.time_to_offset_minutes
          {| BusinessDay.hour := 2; BusinessDay.minute := 0 |} ->
      {| BusinessDay.hour := 2; BusinessDay.minute := 0 |}
      = {| BusinessDay.hour := 2; BusinessDay.minute := 0 |}).
Proof.
  apply X1_offset_minutes_bijective; (split; simpl; lia).
Defined.

(** X2. For a naive (already local) timestamp, business date and offset
    split the instant: calendar minutes equal the business date's
    minutes plus 4 hours plus the offset; the business date is the
    calendar date, or the day before for the hours before 4:00. *)
Theorem X2_business_date_decomposition
    (astimezone : string -> BusinessDay.datetime -> BusinessDay.datetime)
    (dt : BusinessDay.datetime) :
  BusinessDay.valid_time (BusinessDay.clock dt) ->
  let b := BusinessDay.get_business_date astimezone dt None in
  let t := BusinessDay.clock dt in
  (BusinessDay.date dt * 1440 + BusinessDay.hour t * 60 + BusinessDay.minute t
   = b * 1440 + 240 + BusinessDay.time_to_offset_minutes t)%Z
  /\ (b = BusinessDay.date dt <-> (4 <= BusinessDay.hour t)%Z)
  /\ (b = (BusinessDay.date dt - 1)%Z <-> (BusinessDay.hour t < 4)%Z).
Proof.
  intros [Hh Hm]. cbv zeta.
  unfold BusinessDay.get_business_date, BusinessDay.time_to_offset_minutes,
    BusinessDay.BUSINESS_DAY_START_HOUR.
  cbv zeta. destruct (Z.ltb_spec (BusinessDay.hour (BusinessDay.clock dt)) 4); lia.
Qed.

Lemma X2_business_date_decomposition_witness :
  BusinessDay.get_business_date (fun _ dt => dt)
    {| BusinessDay.date := 738888;
       BusinessDay.clock := {| BusinessDay.hour := 3; BusinessDay.minute := 59 |};
       BusinessDay.tzinfo := None |} None = 738887%Z.
Proof.
  pose proof (X2_business_date_decomposition (fun _ dt => dt)
                {| BusinessDay.date := 738888;
                   BusinessDay.clock :=
                     {| BusinessDay.hour := 3; BusinessDay.minute := 59 |};
                   BusinessDay.tzinfo := None |}) as Hx.
  destruct Hx as (_ & _ & Hprev); [split; simpl; lia |].
  apply Hprev. simpl. lia.
Defined.

(** X3. [calculate_hours_open] always answers between 1 and 24 hours;
    12 when either time is missing; and for two real times of day the
    difference of their offsets in hours, raised to 1 when smaller (the
    cap of 24 is never reached). *)
Theorem X3_hours_open_range :
  (forall first_order last_order : option BusinessDay.time,
      1 <= BusinessDay.calculate_hours_open first_order last_order
      /\ BusinessDay.calculate_hours_open first_order last_order <= 24)
  /\ (forall first_order last_order : option BusinessDay.time,
        first_order = None \/ last_order = None ->
        BusinessDay.calculate_hours_open first_order last_order = 12.0)
  /\ (forall f l : BusinessDay.time,
        BusinessDay.valid_time f -> BusinessDay.valid_time l ->
        BusinessDay.calculate_hours_open (Some f) (Some l)
        == Qmax 1 (inject_Z (BusinessDay.time_to_offset_minutes l
                             - BusinessDay.time_to_offset_minutes f) / 60)).
Proof.
  split; [| split].
  - intros [f |] [l |]; cbn; try (split; lra).
    pose proof (BusinessDayFacts.hours_clamped
                  (inject_Z (BusinessDay.time_to_offset_minutes l
                             - BusinessDay.time_to_offset_minutes f) / 60.0)).
    lra.
  - intros [f |] [l |] [H | H]; try discriminate; reflexivity.
  - intros f l Hf Hl. cbn.
    pose proof (BusinessDayFacts.offset_range f Hf) as Hf'.
    pose proof (BusinessDayFacts.offset_range l Hl) as Hl'.
    set (d := (BusinessDay.time_to_offset_minutes l
               - BusinessDay.time_to_offset_minutes f)%Z) in *.
    assert (Hd : inject_Z d <= 1439).
    { change 1439 with (inject_Z 1439). rewrite <- Zle_Qle. lia. }
    assert (Hq : inject_Z d / 60.0 == inject_Z d * (1 # 60)) by (field).
    assert (Hq' : inject_Z d / 60 == inject_Z d * (1 # 60)) by (field).
    rewrite Hq'. unfold Num.py_max, Num.py_min.
    destruct (Num.Qltb 24.0 (inject_Z d / 60.0)) eqn:E1.
    { apply NumFacts.Qltb_true in E1. rewrite Hq in E1. lra. }
    destruct (Num.Qltb 1.0 (inject_Z d / 60.0)) eqn:E2.
    + apply NumFacts.Qltb_true in E2. rewrite Hq in *.
      rewrite Q.max_r by lra. reflexivity.
    + apply NumFacts.Qltb_false in E2. rewrite Hq in *.
      rewrite Q.max_l by lra. reflexivity.
Qed.

(** ** Backtest metrics *)

Module BacktestFacts.

Import Num NumFacts Backtest.

Lemma sum_zero_all_zero (l : list Q) :
  Forall (fun x => 0 <= x) l -> sum l == 0 -> Forall (fun x => x == 0) l.
Proof.
  induction 1 as [| x l Hx Hl IH]; intros Hs; [constructor |].
  rewrite sum_cons in Hs. pose proof (sum_nonneg l Hl) as Hn.
  constructor; [lra | apply IH; lra].
Qed.

Lemma sum_all_zero (l : list Q) : Forall (fun x => x == 0) l -> sum l == 0.
Proof.
  induction 1 as [| x l Hx _ IH]; [reflexivity |].
  rewrite sum_cons, Hx, IH. lra.
Qed.

Lemma abs_nonneg (l : list Q) : Forall (fun x => 0 <= x) (Qabs <$> l).
Proof. apply Forall_fmap, Forall_forall. intros x _. apply Qabs_nonneg. Qed.

Lemma errors_nonneg (l : list (Q * Q)) :
  Forall (fun x => 0 <= x) ((fun af : Q * Q => Qabs (af.1 - af.2)) <$> l).
Proof. apply Forall_fmap, Forall_forall. intros x _. apply Qabs_nonneg. Qed.

Lemma errors_zero (a f : list Q) :
  length a = length f ->
  Forall (fun x => x == 0) ((fun af : Q * Q => Qabs (af.1 - af.2)) <$> zip a f)
  <-> Forall2 Qeq a f.
Proof.
  revert f. induction a as [| x a IH]; intros [| y f] Hlen; simpl in Hlen;
    try discriminate.
  - split; constructor.
  - cbn. rewrite Forall_cons, Forall2_cons, (IH f) by lia.
    assert (Qabs (x - y) == 0 <-> x == y); [| tauto].
    split; intros E.
    + revert E. apply Qabs_case; intros; lra.
    + apply Qabs_case; intros; lra.
Qed.

Lemma count_all (A : Type) (P : A -> Prop) `{!forall x, Decision (P x)}
    (l : list A) :
  length (filter P l) = length l <-> Forall P l.
Proof.
  induction l as [| x l IH]; [split; [constructor | reflexivity] |].
  rewrite filter_cons. pose proof (length_filter P l) as Hle.
  destruct (decide (P x)) as [Hx | Hx]; simpl.
  - rewrite Forall_cons. split.
    + intros [= E]. split; [done | by apply IH].
    + intros [_ Hl]. f_equal. by apply IH.
  - split; [lia |]. intros Hall. apply Forall_cons in Hall as [? _]. done.
Qed.

End BacktestFacts.

(** X4. [calculate_wape] answers infinity exactly when a list is empty,
    the lengths differ or the actuals sum to zero in absolute value;
    otherwise the error is a non-negative percentage, and it is zero
    exactly when every forecast equals its actual. *)
Theorem X4_wape_edges (actuals forecasts : list Q) :
  (Backtest.calculate_wape actuals forecasts = Backtest.Inf
   <-> actuals = [] \/ forecasts = []
       \/ length actuals <> length forecasts
       \/ Num.sum (Qabs <$> actuals) == 0)
  /\ (forall w : Q,
        Backtest.calculate_wape actuals forecasts = Backtest.Finite w ->
        0 <= w /\ (w == 0 <-> Forall2 Qeq actuals forecasts)).
Proof.
  unfold Backtest.calculate_wape. cbv zeta.
  set (ta := Num.sum (Qabs <$> actuals)).
  set (te := Num.sum ((fun af : Q * Q => Qabs (af.1 - af.2))
                        <$> zip actuals forecasts)).
  case_bool_decide as Hshape.
  - split; [split; [tauto | done] | discriminate].
  - destruct (Qeq_bool ta 0) eqn:E.
    + apply Qeq_bool_iff in E. split; [split; [tauto | done] | discriminate].
    + assert (Hnz : ~ ta == 0).
      { intros Hz. apply Qeq_bool_iff in Hz. congruence. }
      split; [split; [discriminate | tauto] |].
      intros w [= <-].
      assert (Hlen : length actuals = length forecasts).
      { destruct (decide (length actuals = length forecasts)); tauto. }
      pose proof (NumFacts.sum_nonneg _ (BacktestFacts.abs_nonneg actuals)) as Ha.
      pose proof (NumFacts.sum_nonneg _
                    (BacktestFacts.errors_nonneg (zip actuals forecasts))) as He.
      fold ta in Ha. fold te in He.
      assert (Hpos : 0 < ta) by lra.
      assert (Hdiv : 0 <= te / ta) by (apply Qle_shift_div_l; lra).
      split; [lra |].
      rewrite <- (BacktestFacts.errors_zero _ _ Hlen). split.
      * intros Hw. apply BacktestFacts.sum_zero_all_zero;
          [apply BacktestFacts.errors_nonneg |].
        fold te. assert (te / ta == 0) by lra.
        assert (te == te / ta * ta) as -> by (field; lra). rewrite H. ring.
      * intros Hall. apply BacktestFacts.sum_all_zero in Hall. fold te in Hall.
        rewrite Hall. field. lra.
Qed.

(** X5. [calculate_pi_coverage] is a percentage between 0 and 100; it is
    0.0 for empty or mismatched lists, and for matching lists it is 100
    exactly when every actual lies within its bounds. *)
Theorem X5_pi_coverage_range (actuals lower_bounds upper_bounds : list Q) :
  0 <= Backtest.calculate_pi_coverage actuals lower_bounds upper_bounds
  /\ Backtest.calculate_pi_coverage actuals lower_bounds upper_bounds <= 100
  /\ (actuals = [] \/ length actuals <> length lower_bounds
      \/ length actuals <> length upper_bounds ->
      Backtest.calculate_pi_coverage actuals lower_bounds upper_bounds = 0.0)
  /\ (actuals <> [] -> length actuals = length lower_bounds ->
      length actuals = length upper_bounds ->
      (Backtest.calculate_pi_coverage actuals lower_bounds upper_bounds == 100
       <-> Forall (fun alu : Q * (Q * Q) =>
                     alu.2.1 <= alu.1 /\ alu.1 <= alu.2.2)
             (zip actuals (zip lower_bounds upper_bounds)))).
Proof.
  unfold Backtest.calculate_pi_coverage. cbv zeta.
  case_bool_decide as Hshape.
  - repeat split; try lra; try done; intros; tauto.
  - assert (Hne : actuals <> []) by tauto.
    assert (Hl : length actuals = length lower_bounds).
    { destruct (decide (length actuals = length lower_bounds)); tauto. }
    assert (Hu : length actuals = length upper_bounds).
    { destruct (decide (length actuals = length upper_bounds)); tauto. }
    set (z := zip actuals (zip lower_bounds upper_bounds)).
    set (P := fun alu : Q * (Q * Q) => alu.2.1 <= alu.1 /\ alu.1 <= alu.2.2).
    assert (Hz : length z = length actuals).
    { unfold z. rewrite !length_zip_with. lia. }
    pose proof (length_filter P z) as Hle.
    assert (Hn : 0 < Num.of_nat (length actuals)).
    { apply NumFacts.of_nat_pos. destruct actuals; [done | simpl; lia]. }
    pose proof (NumFacts.of_nat_nonneg (length (filter P z))) as Hw.
    assert (Hwn : Num.of_nat (length (filter P z))
                  <= Num.of_nat (length actuals)).
    { unfold Num.of_nat. rewrite <- Zle_Qle. lia. }
    set (w := Num.of_nat (length (filter P z))) in *.
    set (n := Num.of_nat (length actuals)) in *.
    assert (H0 : 0 <= w / n) by (apply Qle_shift_div_l; lra).
    assert (H1 : w / n <= 1) by (apply Qle_shift_div_r; lra).
    split; [lra |]. split; [lra |]. split; [intros; tauto |].
    intros _ _ _. rewrite <- (BacktestFacts.count_all _ P z), Hz.
    split.
    + intros Hc. assert (Hwn1 : w / n == 1) by lra.
      assert (Hweq : w == n).
      { assert (w == w / n * n) as -> by (field; lra). rewrite Hwn1. ring. }
      unfold w, n, Num.of_nat in Hweq. rewrite inject_Z_injective in Hweq.
      by apply Nat2Z.inj in Hweq.
    + intros Hc. unfold w. rewrite Hc. fold n.
      assert (n / n == 1) as -> by (field; lra). reflexivity.
Qed.

(** ** More on the prior learner and the forecaster *)

Module BayesianMoreFacts.

Import Num NumFacts Stats StatsSpec StatsFacts Bayesian BayesianSpec.

Lemma sum_Forall2 (l l' : list Q) : Forall2 Qeq l l' -> sum l == sum l'.
Proof.
  induction 1 as [| x y l l' Hxy _ IH]; [reflexivity |].
  rewrite !sum_cons, Hxy, IH. reflexivity.
Qed.

Lemma sum_scale (l : list Q) (m : Q) :
  sum ((fun x => x * m) <$> l) == sum l * m.
Proof.
  induction l as [| x l IH]; [rewrite sum_nil; cbn; lra |].
  rewrite fmap_cons, !sum_cons, IH. ring.
Qed.

Lemma nth_scale (s : list Q) (m : Q) (k : nat) :
  nth k ((fun x => x * m) <$> s) 0 == nth k s 0 * m.
Proof.
  revert k. induction s as [| x s IH]; intros [| k]; cbn; try lra.
  apply IH.
Qed.

Section MapSort.
Variable f : Q -> Q.
Hypothesis f_order : forall x y : Q, f x <= f y <-> x <= y.

Local Abbreviation on_stack :=
  (fmap (M:=list) (fmap (M:=option) (fmap (M:=list) f))).

Lemma list_merge_fmap (l1 l2 : list Q) :
  list_merge Qle (f <$> l1) (f <$> l2) = f <$> list_merge Qle l1 l2.
Proof.
  revert l2. induction l1 as [| x1 l1 IH1]; intros l2; [by destruct l2 |].
  induction l2 as [| x2 l2 IH2]; [reflexivity |].
  cbn [fmap list_fmap list_merge].
  destruct (decide (f x1 <= f x2)) as [H1 | H1],
           (decide (x1 <= x2)) as [H2 | H2].
  - rewrite fmap_cons. f_equal. apply (IH1 (x2 :: l2)).
  - exfalso. by apply H2, f_order.
  - exfalso. by apply H1, f_order.
  - rewrite fmap_cons. f_equal. apply IH2.
Qed.

Lemma merge_list_to_stack_fmap (st : list (option (list Q))) (l : list Q) :
  merge_list_to_stack Qle (on_stack st) (f <$> l)
  = on_stack (merge_list_to_stack Qle st l).
Proof.
  revert l. induction st as [| [l' |] st IH]; intros l; try reflexivity.
  cbn. f_equal. rewrite list_merge_fmap. apply IH.
Qed.

Lemma merge_stack_fmap (st : list (option (list Q))) :
  merge_stack Qle (on_stack st) = f <$> merge_stack Qle st.
Proof.
  induction st as [| [l |] st IH]; try reflexivity.
  - cbn. rewrite <- list_merge_fmap. f_equal. apply IH.
  - apply IH.
Qed.

Lemma merge_sort_aux_fmap (st : list (option (list Q))) (l : list Q) :
  merge_sort_aux Qle (on_stack st) (f <$> l)
  = f <$> merge_sort_aux Qle st l.
Proof.
  revert st. induction l as [| x l IH]; intros st.
  - apply merge_stack_fmap.
  - cbn. rewrite <- IH. f_equal.
    apply (merge_list_to_stack_fmap st [x]).
Qed.

(** Sorting commutes with an order-preserving map. *)
Lemma sort_fmap (l : list Q) : sort (f <$> l) = f <$> sort l.
Proof. apply (merge_sort_aux_fmap [] l). Qed.

End MapSort.

Lemma percentile_scale_pos (a : list Q) (m q : Q) :
  0 < m -> percentile ((fun x => x * m) <$> a) q == percentile a q * m.
Proof.
  intros Hm. unfold percentile. cbv zeta.
  rewrite (sort_fmap (fun x => x * m)).
  2:{ intros x y. split; intros Hxy; nra. }
  rewrite length_fmap, !nth_scale. ring.
Qed.

Lemma nth_all_zero (s : list Q) (k : nat) :
  Forall (fun x => x == 0) s -> nth k s 0 == 0.
Proof.
  intros Hs. revert k. induction Hs as [| x s Hx _ IH]; intros [| k]; cbn;
    try reflexivity; [exact Hx | apply IH].
Qed.

Lemma percentile_all_zero (a : list Q) (q : Q) :
  Forall (fun x => x == 0) a -> percentile a q == 0.
Proof.
  intros Ha. unfold percentile. cbv zeta.
  assert (Hs : Forall (fun x => x == 0) (sort a)) by (by rewrite sort_perm).
  rewrite !(nth_all_zero _ _ Hs). ring.
Qed.

Lemma percentile_scale (a : list Q) (m q : Q) :
  0 <= m -> percentile ((fun x => x * m) <$> a) q == percentile a q * m.
Proof.
  intros Hm. destruct (Qlt_le_dec 0 m) as [Hpos | Hle].
  - by apply percentile_scale_pos.
  - assert (Hz : m == 0) by lra.
    rewrite percentile_all_zero.
    + rewrite Hz. ring.
    + apply Forall_fmap, Forall_forall. intros x _. cbn. rewrite Hz. ring.
Qed.

Lemma mean_scale (a : list Q) (m : Q) :
  Num.mean ((fun x => x * m) <$> a) == Num.mean a * m.
Proof.
  unfold Num.mean. rewrite sum_scale, length_fmap.
  unfold Qdiv. ring.
Qed.

Lemma flat_multiplier (seasonal_multipliers : option (gmap Z Q)) (dow : Z) :
  seasonal_multipliers = None \/ seasonal_multipliers = Some ∅ ->
  get_multiplier (multipliers_or_flat seasonal_multipliers) dow = 1.0.
Proof.
  intros [-> | ->]; cbn [multipliers_or_flat];
    [| rewrite bool_decide_eq_true_2 by reflexivity];
    unfold get_multiplier; rewrite SeasonalityFacts.flat_profile_lookup;
    by case_decide.
Qed.

Lemma zip_fst_take {A B : Type} (l : list A) (k : list B) :
  (zip l k).*1 = take (length k) l.
Proof.
  revert k. induction l as [| x l IH]; intros [| y k]; cbn; try done.
  f_equal. apply IH.
Qed.

Lemma explain_cold_start (m : Q) (n : nat) (prior_source : string) :
  (exists src : string, ColdStart src ∈ explain m n prior_source)
  <-> (n < 5)%nat.
Proof.
  unfold explain. split.
  - intros [src Hin]. apply elem_of_app in Hin as [Hin | Hin].
    + destruct (Qltb 0.1 (Qabs (m - 1.0)));
        [apply list_elem_of_singleton in Hin; discriminate
        | by apply not_elem_of_nil in Hin].
    + destruct (Nat.ltb_spec n 5); [done | by apply not_elem_of_nil in Hin].
  - intros Hn. exists prior_source. apply elem_of_app. right.
    destruct (Nat.ltb_spec n 5); [by apply list_elem_of_singleton | lia].
Qed.

Section Shape.
Context `{NumPy}.

Lemma forecast_loop_shape (multipliers : gmap Z Q) (nb_n nb_p confidence : Q)
    (n : nat) (prior_source : string) (future : list (string * Z))
    (s s' : RandomState) (fs : list ForecastDistribution) :
  forecast_loop multipliers nb_n nb_p confidence n prior_source future s
  = (Ok fs, s') ->
  date <$> fs = future.*1
  /\ Forall (fun f => confidence_score f = confidence
                      /\ ((exists src : string, ColdStart src ∈ logic_trigger f)
                          <-> (n < 5)%nat)) fs.
Proof.
  revert s fs. induction future as [| [date_str dow] rest IH]; intros s fs.
  - intros [= <- _]. split; [reflexivity | constructor].
  - cbn [forecast_loop].
    destruct (nbinom_rvs nb_n nb_p n_samples s) as [[xs | e] s1];
      [| discriminate].
    destruct (forecast_loop multipliers nb_n nb_p confidence n prior_source
                rest s1) as [[fs1 | e] s2] eqn:Erest; [| discriminate].
    intros [= <- ->]. destruct (IH _ _ Erest) as [Hd Hall].
    split; [rewrite !fmap_cons; cbn; by rewrite Hd |].
    constructor; [| exact Hall]. cbn. split; [reflexivity |].
    apply explain_cold_start.
Qed.

End Shape.

End BayesianMoreFacts.

(** X6. A group's learned prior shrinks the data towards the global
    prior: for a non-empty group under the weak global prior (2.0, 0.5),
    the mean [alpha / beta] of the learned prior exists and lies between
    the global prior mean 4 and the mean of the group's data. *)
Theorem X6_learned_prior_mean_between
    (self : Bayesian.BayesianForecaster)
    (category_data : gmap string (list Q)) (cat : string) (data : list Q) :
  Bayesian.global_prior self = Bayesian.global_prior Bayesian.default_forecaster ->
  category_data !! cat = Some data ->
  data <> [] ->
  exists (g : Bayesian.GammaParams) (v : Q),
    Bayesian.category_priors (Bayesian.learn_priors self category_data) !! cat
    = Some g
    /\ Gamma.mean g = Ok v
    /\ Qmin 4 (Num.mean data) <= v
    /\ v <= Qmax 4 (Num.mean data).
Proof.
  intros Hglobal Hcat Hne.
  destruct (LearnFacts.learn_priors_spec self category_data) as [_ Hc].
  specialize (Hc cat). rewrite Hcat, Hglobal in Hc.
  destruct data as [| y data]; [done |].
  eexists _, _. split; [exact Hc |].
  cbn [BayesianSpec.learned].
  change (Bayesian.alpha (Bayesian.global_prior Bayesian.default_forecaster))
    with 2.0.
  change (Bayesian.beta (Bayesian.global_prior Bayesian.default_forecaster))
    with 0.5.
  set (S := Num.sum (y :: data)). set (N := Num.of_nat (length (y :: data))).
  assert (HN : 0 < N) by (apply NumFacts.of_nat_pos; simpl; lia).
  unfold Gamma.mean. cbn [Bayesian.alpha Bayesian.beta].
  destruct (Qeq_bool (0.5 + N) 0) eqn:E.
  { apply Qeq_bool_iff in E. lra. }
  split; [reflexivity |].
  unfold Num.mean. fold S N.
  set (a := S / N). assert (HS : S == a * N) by (unfold a; field; lra).
  destruct (Qlt_le_dec a 4) as [Ha | Ha].
  - rewrite Q.min_r, Q.max_l by lra. split.
    + apply Qle_shift_div_l; [lra |]. rewrite HS. nra.
    + apply Qle_shift_div_r; [lra |]. rewrite HS. nra.
  - rewrite Q.min_l, Q.max_r by lra. split.
    + apply Qle_shift_div_l; [lra |]. rewrite HS. nra.
    + apply Qle_shift_div_r; [lra |]. rewrite HS. nra.
Qed.

Lemma X6_learned_prior_mean_between_witness :
  exists (g : Bayesian.GammaParams) (v : Q),
    Bayesian.category_priors
      (Bayesian.learn_priors Bayesian.default_forecaster Sample.pools) !! "Mains"
    = Some g
    /\ Gamma.mean g = Ok v
    /\ Qmin 4 (Num.mean Sample.mains) <= v
    /\ v <= Qmax 4 (Num.mean Sample.mains).
Proof.
  apply (X6_learned_prior_mean_between Bayesian.default_forecaster
           Sample.pools "Mains" Sample.mains).
  - reflexivity.
  - vm_compute. reflexivity.
  - discriminate.
Defined.

(** X7. Learning priors twice does not compound: after two calls of
    [learn_priors], a group in the second data set has the prior learned
    from the second data alone, a group only in the first keeps the one
    learned there, any other group keeps what it had, and the global
    prior is still the original one. *)
Theorem X7_learn_priors_replaces
    (self : Bayesian.BayesianForecaster)
    (first second : gmap string (list Q)) (cat : string) :
  let twice := Bayesian.learn_priors (Bayesian.learn_priors self first) second in
  Bayesian.global_prior twice = Bayesian.global_prior self
  /\ Bayesian.category_priors twice !! cat
     = match second !! cat with
       | Some data => Bayesian.category_priors
                        (Bayesian.learn_priors self second) !! cat
       | None => Bayesian.category_priors
                   (Bayesian.learn_priors self first) !! cat
       end.
Proof.
  cbv zeta.
  destruct (LearnFacts.learn_priors_spec
              (Bayesian.learn_priors self first) second) as [Hg2 Hc2].
  destruct (LearnFacts.learn_priors_spec self first) as [Hg1 Hc1].
  destruct (LearnFacts.learn_priors_spec self second) as [_ Hc].
  split; [by rewrite Hg2 |].
  rewrite Hc2, Hc, Hg1. by destruct (second !! cat).
Qed.

(** X8. When [predict_item] returns, it returns one forecast for each
    pair of [zip(future_dates, future_dows)], dated in order; all carry
    the same confidence score, and each is marked as a cold start exactly
    when fewer than 5 de-seasonalised history points were used. *)
Theorem X8_predict_item_shape `{NumPy}
    (self : Bayesian.BayesianForecaster)
    (item_history : list Q) (history_dows : list Z)
    (future_dates : list string) (future_dows : list Z)
    (category : option string) (seasonal_multipliers : option (gmap Z Q))
    (s0 s' : RandomState) (fs : list Bayesian.ForecastDistribution) :
  Bayesian.predict_item self item_history history_dows future_dates
    future_dows category seasonal_multipliers s0 = (Ok fs, s') ->
  let n := length (Bayesian.deseasonalize
                     (Bayesian.multipliers_or_flat seasonal_multipliers)
                     item_history history_dows) in
  Bayesian.date <$> fs = take (length future_dows) future_dates
  /\ length fs = Nat.min (length future_dates) (length future_dows)
  /\ forall f : Bayesian.ForecastDistribution,
       f ∈ fs ->
       Bayesian.confidence_score f = BayesianSpec.confidence_of n
       /\ ((exists src : string,
               Bayesian.ColdStart src ∈ Bayesian.logic_trigger f)
           <-> (n < 5)%nat).
Proof.
  intros Hcall. cbv zeta.
  rewrite PredictFacts.predict_item_unfold in Hcall. cbv zeta in Hcall.
  destruct (Qeq_bool _ 0) in Hcall; [discriminate |].
  apply BayesianMoreFacts.forecast_loop_shape in Hcall as [Hd Hall].
  rewrite BayesianMoreFacts.zip_fst_take in Hd.
  rewrite PredictFacts.deseasonalize_spec.
  split; [exact Hd |]. split.
  - apply (f_equal length) in Hd. rewrite length_fmap, length_take in Hd. lia.
  - rewrite Forall_forall in Hall. exact Hall.
Qed.

Lemma X8_predict_item_shape_witness :
  exists fs : list Bayesian.ForecastDistribution,
    (Bayesian.predict_item Bayesian.default_forecaster
       Sample.history Sample.history_dows ["2025-01-06"; "2025-01-07"] [0%Z]
       None (Some Sample.profile) (0%Z : @RandomState Lcg_numpy)).1 = Ok fs
    /\ Bayesian.date <$> fs = ["2025-01-06"]
    /\ length fs = 1%nat.
Proof.
  let v := eval vm_compute in
    (Bayesian.predict_item Bayesian.default_forecaster
       Sample.history Sample.history_dows ["2025-01-06"; "2025-01-07"] [0%Z]
       None (Some Sample.profile) (0%Z : @RandomState Lcg_numpy)) in
  match v with
  | (Ok ?fs, ?s') =>
      assert (E : Bayesian.predict_item Bayesian.default_forecaster
                    Sample.history Sample.history_dows
                    ["2025-01-06"; "2025-01-07"] [0%Z]
                    None (Some Sample.profile) (0%Z : @RandomState Lcg_numpy)
                  = (Ok fs, s'))
        by (vm_compute; reflexivity);
      exists fs; split; [rewrite E; reflexivity |];
      destruct (X8_predict_item_shape _ _ _ _ _ _ _ _ _ _ E) as (Hd & Hl & _);
      split; [exact Hd | exact Hl]
  end.
Defined.

(** X9. Without a seasonal profile ([None] or an empty dictionary)
    nothing is discarded or rescaled: the de-seasonalised history has the
    values of the history, point by point, and so the same sum. *)
Theorem X9_no_profile_keeps_history
    (item_history : list Q) (history_dows : list Z)
    (seasonal_multipliers : option (gmap Z Q)) :
  seasonal_multipliers = None \/ seasonal_multipliers = Some ∅ ->
  length history_dows = length item_history ->
  let des := Bayesian.deseasonalize
               (Bayesian.multipliers_or_flat seasonal_multipliers)
               item_history history_dows in
  Forall2 Qeq des item_history /\ Num.sum des == Num.sum item_history.
Proof.
  intros Hflat Hlen. cbv zeta.
  assert (Hdes : Forall2 Qeq
            (Bayesian.deseasonalize
               (Bayesian.multipliers_or_flat seasonal_multipliers)
               item_history history_dows) item_history).
  { rewrite PredictFacts.deseasonalize_spec. unfold BayesianSpec.deseasonalized.
    revert history_dows Hlen.
    induction item_history as [| y h IH]; intros [| d ds] Hlen;
      simpl in Hlen; try discriminate; [constructor |].
    cbn [zip_with]. rewrite filter_cons_True.
    2:{ cbn. rewrite (BayesianMoreFacts.flat_multiplier _ _ Hflat). lra. }
    rewrite fmap_cons. constructor; [| apply IH; lia].
    cbn. rewrite (BayesianMoreFacts.flat_multiplier _ _ Hflat). field. }
  split; [exact Hdes | by apply BayesianMoreFacts.sum_Forall2].
Qed.

Lemma X9_no_profile_keeps_history_witness :
  Forall2 Qeq
    (Bayesian.deseasonalize (Bayesian.multipliers_or_flat None)
       Sample.history Sample.history_dows) Sample.history
  /\ Num.sum (Bayesian.deseasonalize (Bayesian.multipliers_or_flat None)
                Sample.history Sample.history_dows)
     == Num.sum Sample.history.
Proof.
  apply (X9_no_profile_keeps_history Sample.history Sample.history_dows None).
  - by left.
  - reflexivity.
Defined.

(** X10. Re-seasonalising by sampling gives the base sample's own
    statistics times the multiplier: for a multiplier [m >= 0], every
    percentile of the scaled sample is [m] times that percentile of the
    base sample, and so is the mean. *)
Theorem X10_scaling_commutes_with_percentiles
    (base_samples : list nat) (m q : Q) :
  0 <= m ->
  let scaled_samples := map (fun x => Num.of_nat x * m) base_samples in
  Stats.percentile scaled_samples q
  == Stats.percentile (map Num.of_nat base_samples) q * m
  /\ Num.mean scaled_samples == Num.mean (map Num.of_nat base_samples) * m.
Proof.
  intros Hm. cbv zeta.
  assert (Hmap : map (fun x => Num.of_nat x * m) base_samples
                 = (fun x => x * m) <$> map Num.of_nat base_samples).
  { induction base_samples as [| x xs IH]; [reflexivity |].
    cbn. f_equal. exact IH. }
  rewrite Hmap. split.
  - by apply BayesianMoreFacts.percentile_scale.
  - apply BayesianMoreFacts.mean_scale.
Qed.

Lemma X10_scaling_commutes_with_percentiles_witness :
  Stats.percentile (map (fun x => Num.of_nat x * 1.5) [3; 0; 7; 2]%nat) 90
  == Stats.percentile (map Num.of_nat [3; 0; 7; 2]%nat) 90 * 1.5
  /\ Num.mean (map (fun x => Num.of_nat x * 1.5) [3; 0; 7; 2]%nat)
     == Num.mean (map Num.of_nat [3; 0; 7; 2]%nat) * 1.5.
Proof.
  apply (X10_scaling_commutes_with_percentiles [3; 0; 7; 2]%nat 1.5 90).
  vm_compute. discriminate.
Defined.

(** ** More on the seasonality estimator and the stored forecasts *)

Module ForecastMoreFacts.

Import Num NumFacts Forecast SeasonalitySpec RoundingSpec.

Lemma of_nat_S (n : nat) : of_nat (S n) == of_nat n + 1.
Proof.
  unfold of_nat. rewrite Nat2Z.inj_succ, <- Z.add_1_r, inject_Z_plus.
  reflexivity.
Qed.

Lemma sum_const (l : list Q) (v : Q) :
  Forall (fun x => x == v) l -> sum l == v * of_nat (length l).
Proof.
  induction 1 as [| x l Hx _ IH].
  - rewrite sum_nil. change (of_nat (length (@nil Q))) with 0. ring.
  - rewrite sum_cons, Hx, IH. cbn [length]. rewrite of_nat_S. ring.
Qed.

Lemma mean_const (l : list Q) (v : Q) :
  l <> [] -> Forall (fun x => x == v) l -> Num.mean l == v.
Proof.
  intros Hne Hall. unfold Num.mean. rewrite (sum_const l v Hall).
  assert (0 < of_nat (length l))
    by (apply of_nat_pos; destruct l; [done | simpl; lia]).
  field. lra.
Qed.

Lemma decimal2_round (x : Q) :
  decimal2 x = inject_Z (round_half_even (x * 100)) / 100.
Proof. reflexivity. Qed.

Lemma floor_frac (z : Q) :
  0 <= z - inject_Z (Qfloor z) /\ z - inject_Z (Qfloor z) < 1.
Proof.
  pose proof (Qfloor_le z) as Hlo. pose proof (Qlt_floor z) as Hhi.
  rewrite inject_Z_plus in Hhi. change (inject_Z 1) with 1 in Hhi.
  split; lra.
Qed.

Lemma round_half_even_near (z : Q) :
  - (1 # 2) <= inject_Z (round_half_even z) - z
  /\ inject_Z (round_half_even z) - z <= 1 # 2.
Proof.
  unfold round_half_even. cbv zeta. destruct (floor_frac z) as [H0 H1].
  destruct (Qltb (z - inject_Z (Qfloor z)) 0.5) eqn:E1.
  { apply Qltb_true in E1. split; lra. }
  apply Qltb_false in E1.
  destruct (Qltb 0.5 (z - inject_Z (Qfloor z))) eqn:E2.
  { apply Qltb_true in E2. rewrite inject_Z_plus.
    change (inject_Z 1) with 1. split; lra. }
  apply Qltb_false in E2.
  destruct (Z.even (Qfloor z)); [split; lra |].
  rewrite inject_Z_plus. change (inject_Z 1) with 1. split; lra.
Qed.

Lemma round_half_even_mono (z1 z2 : Q) :
  z1 <= z2 -> (round_half_even z1 <= round_half_even z2)%Z.
Proof.
  intros Hz. pose proof (Qfloor_resp_le _ _ Hz) as Hfl.
  destruct (floor_frac z1) as [Ha0 Ha1]. destruct (floor_frac z2) as [Hb0 Hb1].
  assert (Hr1 : (Qfloor z1 <= round_half_even z1 <= Qfloor z1 + 1)%Z).
  { unfold round_half_even. cbv zeta.
    destruct (Qltb _ 0.5); [lia |]. destruct (Qltb 0.5 _); [lia |].
    destruct (Z.even _); lia. }
  assert (Hr2 : (Qfloor z2 <= round_half_even z2 <= Qfloor z2 + 1)%Z).
  { unfold round_half_even. cbv zeta.
    destruct (Qltb _ 0.5); [lia |]. destruct (Qltb 0.5 _); [lia |].
    destruct (Z.even _); lia. }
  destruct (decide (Qfloor z1 = Qfloor z2)) as [Heq | Hne]; [| lia].
  unfold round_half_even. cbv zeta. rewrite Heq in *.
  destruct (Qltb (z1 - inject_Z (Qfloor z2)) 0.5) eqn:E1;
    destruct (Qltb (z2 - inject_Z (Qfloor z2)) 0.5) eqn:E2;
    destruct (Qltb 0.5 (z1 - inject_Z (Qfloor z2))) eqn:E3;
    destruct (Qltb 0.5 (z2 - inject_Z (Qfloor z2))) eqn:E4;
    destruct (Z.even (Qfloor z2)); try lia;
    repeat match goal with
           | H : Qltb _ _ = true |- _ => apply Qltb_true in H
           | H : Qltb _ _ = false |- _ => apply Qltb_false in H
           end; exfalso; lra.
Qed.

Lemma round_half_even_Z (k : Z) (z : Q) :
  z == inject_Z k -> round_half_even z = k.
Proof.
  intros Hz. unfold round_half_even. cbv zeta.
  assert (Hfl : Qfloor z = k) by (rewrite Hz; apply Qfloor_Z).
  rewrite Hfl.
  destruct (Qltb (z - inject_Z k) 0.5) eqn:E; [reflexivity |].
  apply Qltb_false in E. lra.
Qed.

Lemma decimal2_mono (x y : Q) : x <= y -> decimal2 x <= decimal2 y.
Proof.
  intros Hxy. rewrite !decimal2_round.
  assert (Hz : x * 100 <= y * 100) by lra.
  apply round_half_even_mono in Hz. rewrite Zle_Qle in Hz.
  unfold Qdiv. change (/ 100) with (1 # 100). lra.
Qed.

Lemma decimal2_zero : decimal2 0 == 0.
Proof. reflexivity. Qed.

Lemma decimal2_nonneg (x : Q) : 0 <= x -> 0 <= decimal2 x.
Proof. intros Hx. rewrite <- decimal2_zero. by apply decimal2_mono. Qed.

End ForecastMoreFacts.

(** X11. A reference series in which every day sold the same non-zero
    amount has no seasonality: all seven multipliers equal 1. *)
Theorem X11_uniform_series_flat (df : list (Z * Q)) (v : Q) (d : Z) :
  df <> [] -> ~ v == 0 -> Forall (fun r : Z * Q => r.2 == v) df ->
  (0 <= d < 7)%Z ->
  exists m : Q, Forecast._calculate_seasonality df !! d = Some m /\ m == 1.
Proof.
  intros Hne Hv Hall Hd.
  assert (Hvals : Forall (fun x => x == v) (df.*2)) by (by apply Forall_fmap).
  assert (Hmean : Num.mean (df.*2) == v).
  { apply ForecastMoreFacts.mean_const; [| exact Hvals].
    intros E. apply fmap_nil_inv in E. done. }
  assert (Hnz : ~ Num.mean (df.*2) == 0) by (rewrite Hmean; exact Hv).
  rewrite SeasonalityFacts.seasonality_lookup, decide_True by exact Hd.
  rewrite bool_decide_eq_false_2 by exact Hne. cbn [orb].
  destruct (Qeq_bool (Num.mean (df.*2)) 0) eqn:E.
  { apply Qeq_bool_iff in E. contradiction. }
  eexists. split; [reflexivity |].
  destruct (decide (SeasonalitySpec.day_quantities df d = [])) as [Hnil | Hday].
  - by apply SeasonalityFacts.day_multiplier_absent.
  - rewrite SeasonalityFacts.day_multiplier_present by exact Hday.
    assert (Hraw : SeasonalitySpec.raw_multiplier df d == 1).
    { unfold SeasonalitySpec.raw_multiplier.
      rewrite (ForecastMoreFacts.mean_const _ v Hday).
      - rewrite Hmean. field. exact Hv.
      - unfold SeasonalitySpec.day_quantities. apply Forall_fmap.
        apply Forall_forall. intros r Hr.
        apply list_elem_of_filter in Hr as [_ Hr].
        rewrite Forall_forall in Hall. by apply Hall. }
    unfold SeasonalitySpec.clip, SeasonalitySpec.shrink.
    repeat case_decide; rewrite Hraw;
      (rewrite Q.min_l by lra); (rewrite Q.max_r by lra); lra.
Qed.

Lemma X11_uniform_series_flat_witness :
  exists m : Q,
    Forecast._calculate_seasonality
      [(739257%Z, 10); (739258%Z, 10); (739264%Z, 10)] !! 0%Z = Some m
    /\ m == 1.
Proof.
  apply (X11_uniform_series_flat
           [(739257%Z, 10); (739258%Z, 10); (739264%Z, 10)] 10 0).
  - discriminate.
  - vm_compute. discriminate.
  - repeat constructor.
  - lia.
Defined.

(** X12. [Decimal(f"{x:.2f}")], as used for the stored quantities, moves a
    value by at most half a cent, is monotone, keeps non-negative values
    non-negative and leaves an already rounded value unchanged. *)
Theorem X12_decimal2_rounding (x : Q) :
  - (1 # 200) <= Forecast.decimal2 x - x
  /\ Forecast.decimal2 x - x <= 1 # 200
  /\ (forall y : Q, x <= y -> Forecast.decimal2 x <= Forecast.decimal2 y)
  /\ (0 <= x -> 0 <= Forecast.decimal2 x)
  /\ Forecast.decimal2 (Forecast.decimal2 x) = Forecast.decimal2 x.
Proof.
  pose proof (ForecastMoreFacts.round_half_even_near (x * 100)) as [Hlo Hhi].
  rewrite ForecastMoreFacts.decimal2_round.
  set (r := RoundingSpec.round_half_even (x * 100)) in *.
  assert (Hdiv : inject_Z r / 100 == inject_Z r * (1 # 100)) by field.
  split; [rewrite Hdiv; lra |]. split; [rewrite Hdiv; lra |].
  split; [| split].
  - intros y Hxy. fold (Forecast.decimal2 x) in *.
    change (inject_Z r / 100) with (Forecast.decimal2 x).
    by apply ForecastMoreFacts.decimal2_mono.
  - intros Hx. change (inject_Z r / 100) with (Forecast.decimal2 x).
    by apply ForecastMoreFacts.decimal2_nonneg.
  - rewrite ForecastMoreFacts.decimal2_round.
    rewrite (ForecastMoreFacts.round_half_even_Z r); [reflexivity |].
    field.
Qed.

Module CategoryDataFacts.

Import Num NumFacts Forecast CategorySpec.

Lemma sum_perm (l l' : list Q) : l ≡ₚ l' -> sum l == sum l'.
Proof.
  induction 1 as [| x l l' _ IH | x y l | l1 l2 l3 _ IH1 _ IH2].
  - reflexivity.
  - rewrite !sum_cons, IH. reflexivity.
  - rewrite !sum_cons. ring.
  - by rewrite IH1.
Qed.

Section Weight.
Context {K : Type} `{Countable K} {V : Type}.
Variable w : V -> Q.

Lemma weight_empty : weight w (∅ : gmap K V) = 0.
Proof. unfold weight. by rewrite map_to_list_empty. Qed.

Lemma weight_insert (m : gmap K V) (k : K) (v : V) :
  weight w (<[k := v]> m) + from_option w 0 (m !! k) == weight w m + w v.
Proof.
  unfold weight. destruct (m !! k) as [old |] eqn:E; cbn [from_option].
  - rewrite <- (insert_delete_eq m k v).
    rewrite (sum_perm _ _ (fmap_Permutation _ _ _
               (map_to_list_insert (delete k m) k v (lookup_delete_eq m k)))).
    rewrite <- (sum_perm _ _ (fmap_Permutation _ _ _
               (map_to_list_delete m k old E))).
    rewrite !fmap_cons, !sum_cons. cbn. ring.
  - rewrite (sum_perm _ _ (fmap_Permutation _ _ _
               (map_to_list_insert m k v E))).
    rewrite fmap_cons, sum_cons. cbn. ring.
Qed.

End Weight.

Lemma sum_concat (ls : list (list Q)) : sum (concat ls) == sum (sum <$> ls).
Proof.
  induction ls as [| l ls IH]; [reflexivity |].
  cbn [concat]. rewrite sum_app, fmap_cons, sum_cons, IH. reflexivity.
Qed.

Lemma length_concat_sum (ls : list (list Q)) :
  of_nat (length (concat ls))
  == sum ((fun l : list Q => of_nat (length l)) <$> ls).
Proof.
  induction ls as [| l ls IH]; [reflexivity |].
  cbn [concat]. rewrite length_app, fmap_cons, sum_cons, <- IH.
  unfold of_nat. rewrite Nat2Z.inj_add, inject_Z_plus. reflexivity.
Qed.

Lemma fold_add_day (rows : list (Z * string * Z)) (acc : gmap Z Q) :
  weight (fun x : Q => x) (fold_left add_day rows acc)
  == weight (fun x : Q => x) acc + total rows.
Proof.
  revert acc. induction rows as [| r rows IH]; intros acc.
  - cbn [fold_left]. change (total []) with 0. ring.
  - cbn [fold_left]. rewrite IH. unfold total. rewrite fmap_cons, sum_cons.
    pose proof (weight_insert (fun x : Q => x) acc r.1.1
                  (default 0.0 (acc !! r.1.1) + inject_Z r.2)) as Hw.
    fold (add_day acc r) in Hw.
    destruct (acc !! r.1.1) as [old |]; cbn [from_option default] in Hw;
      unfold id in Hw; lra.
Qed.

Lemma fold_add_sample_sum (rows : list (Z * string * Z))
    (acc : gmap string (list Q)) :
  weight sum (fold_left add_sample rows acc) == weight sum acc + total rows.
Proof.
  revert acc. induction rows as [| r rows IH]; intros acc.
  - cbn [fold_left]. change (total []) with 0. ring.
  - cbn [fold_left]. rewrite IH. unfold total. rewrite fmap_cons, sum_cons.
    pose proof (weight_insert sum acc r.1.2
                  (default [] (acc !! r.1.2) ++ [inject_Z r.2])) as Hw.
    fold (add_sample acc r) in Hw. rewrite sum_app in Hw.
    assert (Hone : sum [inject_Z r.2] == inject_Z r.2)
      by (rewrite sum_cons, sum_nil; ring).
    rewrite Hone in Hw.
    destruct (acc !! r.1.2) as [old |]; cbn [from_option default] in Hw;
      unfold id in Hw; [| rewrite sum_nil in Hw]; lra.
Qed.

Lemma fold_add_sample_count (rows : list (Z * string * Z))
    (acc : gmap string (list Q)) :
  weight (fun l : list Q => of_nat (length l)) (fold_left add_sample rows acc)
  == weight (fun l : list Q => of_nat (length l)) acc + of_nat (length rows).
Proof.
  revert acc. induction rows as [| r rows IH]; intros acc.
  - cbn [fold_left length]. change (of_nat 0) with 0. ring.
  - cbn [fold_left]. rewrite IH. cbn [length].
    rewrite ForecastMoreFacts.of_nat_S.
    pose proof (weight_insert (fun l : list Q => of_nat (length l)) acc r.1.2
                  (default [] (acc !! r.1.2) ++ [inject_Z r.2])) as Hw.
    fold (add_sample acc r) in Hw. cbv beta in Hw.
    rewrite length_app in Hw. cbn [length] in Hw.
    rewrite Nat.add_1_r, ForecastMoreFacts.of_nat_S in Hw.
    destruct (acc !! r.1.2) as [old |]; cbn [from_option default length] in Hw;
      unfold id in Hw; [| change (of_nat 0) with 0 in Hw]; lra.
Qed.

Lemma get_category_data_folds (db : Session) (today restaurant_id : Z)
    (category_name : string) (days : Z) :
  _get_category_data db today restaurant_id category_name days
  = match category_query db restaurant_id (today - days) with
    | [] => ([], ∅)
    | r :: rows =>
        (map_to_list (fold_left add_day (r :: rows) ∅),
         fold_left add_sample (r :: rows) ∅)
    end.
Proof.
  unfold _get_category_data. cbv zeta.
  by destruct (category_query db restaurant_id (today - days)).
Qed.

End CategoryDataFacts.

(** X13. [_get_category_data] loses and double-counts nothing: the
    aggregated daily series has one row per date, its quantities and the
    pooled per-item samples both sum to the total quantity of the rows the
    query selected, and there is one sample per selected row. *)
Theorem X13_category_data_conservation (db : Session) (today restaurant_id : Z)
    (category_name : string) (days : Z) :
  let rows := Forecast.category_query db restaurant_id (today - days) in
  let data := Forecast._get_category_data db today restaurant_id
                category_name days in
  let samples := concat (map_to_list data.2).*2 in
  NoDup (data.1.*1)
  /\ Num.sum (data.1.*2) == CategorySpec.total rows
  /\ Num.sum samples == CategorySpec.total rows
  /\ length samples = length rows.
Proof.
  cbv zeta. rewrite CategoryDataFacts.get_category_data_folds.
  destruct (Forecast.category_query db restaurant_id (today - days))
    as [| r rows] eqn:Erows.
  - cbn [fst snd]. rewrite map_to_list_empty. cbn.
    repeat split; try reflexivity. constructor.
  - cbn [fst snd].
    pose proof (CategoryDataFacts.fold_add_day (r :: rows) ∅) as Hday.
    pose proof (CategoryDataFacts.fold_add_sample_sum (r :: rows) ∅) as Hsum.
    pose proof (CategoryDataFacts.fold_add_sample_count (r :: rows) ∅) as Hcnt.
    rewrite CategoryDataFacts.weight_empty in Hday.
    rewrite CategoryDataFacts.weight_empty in Hsum.
    rewrite CategoryDataFacts.weight_empty in Hcnt.
    unfold CategorySpec.weight in Hday, Hsum, Hcnt.
    split; [apply NoDup_fst_map_to_list |].
    split; [| split].
    + transitivity (0 + CategorySpec.total (r :: rows));
        [exact Hday | ring].
    + rewrite CategoryDataFacts.sum_concat, <- list_fmap_compose.
      transitivity (0 + CategorySpec.total (r :: rows));
        [exact Hsum | ring].
    + apply Nat2Z.inj. apply inject_Z_injective.
      change (inject_Z (Z.of_nat ?n)) with (Num.of_nat n).
      rewrite CategoryDataFacts.length_concat_sum, <- list_fmap_compose.
      transitivity (0 + Num.of_nat (length (r :: rows)));
        [exact Hcnt | ring].
Qed.

(** ** The feature builder, end to end *)

Module FeaturesMoreFacts.

Import Num Stats Features FeaturesSpec FeaturesFacts SalesSpec.

#[local] Open Scope Z_scope.

Lemma foldr_min_bound (a : Z) (l : list Z) :
  foldr Z.min a l ∈ a :: l /\ forall d, d ∈ a :: l -> foldr Z.min a l <= d.
Proof.
  induction l as [| b l [IH1 IH2]]; simpl.
  - split; [left |]. intros d Hd. apply elem_of_cons in Hd as [-> | Hd]; [lia |].
    by apply not_elem_of_nil in Hd.
  - split.
    + destruct (Z.min_spec b (foldr Z.min a l)) as [[_ ->] | [_ ->]].
      * right; left.
      * apply elem_of_cons in IH1 as [-> | IH1]; [left | right; by right].
    + intros d Hd. apply elem_of_cons in Hd as [-> | Hd].
      * specialize (IH2 a ltac:(left)). lia.
      * apply elem_of_cons in Hd as [-> | Hd]; [lia |].
        specialize (IH2 d ltac:(by right)). lia.
Qed.

Lemma foldr_max_bound (a : Z) (l : list Z) :
  foldr Z.max a l ∈ a :: l /\ forall d, d ∈ a :: l -> d <= foldr Z.max a l.
Proof.
  induction l as [| b l [IH1 IH2]]; simpl.
  - split; [left |]. intros d Hd. apply elem_of_cons in Hd as [-> | Hd]; [lia |].
    by apply not_elem_of_nil in Hd.
  - split.
    + destruct (Z.max_spec b (foldr Z.max a l)) as [[_ ->] | [_ ->]].
      * apply elem_of_cons in IH1 as [-> | IH1]; [left | right; by right].
      * right; left.
    + intros d Hd. apply elem_of_cons in Hd as [-> | Hd].
      * specialize (IH2 a ltac:(left)). lia.
      * apply elem_of_cons in Hd as [-> | Hd]; [lia |].
        specialize (IH2 d ltac:(by right)). lia.
Qed.

(** [min()] and [max()] of a non-empty column. *)
Lemma column_range (l : list Z) :
  l <> [] ->
  let lo := foldr Z.min (default 0 (head l)) l in
  let hi := foldr Z.max (default 0 (head l)) l in
  lo ∈ l /\ hi ∈ l /\ forall d, d ∈ l -> lo <= d <= hi.
Proof.
  destruct l as [| a l]; [done |]. intros _. cbn [head default].
  destruct (foldr_min_bound a (a :: l)) as [H1 H2].
  destruct (foldr_max_bound a (a :: l)) as [H3 H4].
  cbv zeta. split; [| split].
  - apply elem_of_cons in H1 as [E | H1]; [| exact H1].
    change (foldr Z.min a (a :: l) ∈ a :: l). rewrite E. left.
  - apply elem_of_cons in H3 as [E | H3]; [| exact H3].
    change (foldr Z.max a (a :: l) ∈ a :: l). rewrite E. left.
  - intros d Hd. split; [apply (H2 d) | apply (H4 d)]; by right.
Qed.

Lemma find_unique (df : list SalesRow) (r : SalesRow) :
  NoDup (sale_date <$> df) -> r ∈ df ->
  find (fun x => bool_decide (sale_date x = sale_date r)) df = Some r.
Proof.
  induction df as [| a df IH]; intros Hnd Hr.
  - by apply not_elem_of_nil in Hr.
  - rewrite fmap_cons in Hnd. apply NoDup_cons in Hnd as [Ha Hnd].
    simpl. apply elem_of_cons in Hr as [-> | Hr].
    + by rewrite bool_decide_eq_true_2.
    + rewrite bool_decide_eq_false_2; [by apply IH |].
      intros E. apply Ha. rewrite E. by apply list_elem_of_fmap_2.
Qed.

Lemma find_absent (df : list SalesRow) (d : Z) :
  d ∉ sale_date <$> df ->
  find (fun x => bool_decide (sale_date x = d)) df = None.
Proof.
  induction df as [| a df IH]; intros Hd; [reflexivity |].
  rewrite fmap_cons in Hd. apply not_elem_of_cons in Hd as [Hne Hd].
  simpl. rewrite bool_decide_eq_false_2 by done. by apply IH.
Qed.

Lemma merge_manual_date tn sd (r : SalesRow) :
  sale_date (merge_manual tn sd r) = sale_date r
  /\ daily_qty (merge_manual tn sd r) = daily_qty r.
Proof.
  unfold merge_manual. destruct tn as [n |]; [| done].
  case_bool_decide; [done |]. by destruct (sd !! n).
Qed.

Lemma merged_dates tn sd (results : list SalesRow) :
  sale_date <$> sort_values (merge_manual tn sd <$> results)
  ≡ₚ sale_date <$> results.
Proof.
  unfold sort_values. rewrite merge_sort_Permutation.
  rewrite <- list_fmap_compose.
  rewrite (list_fmap_ext (sale_date ∘ merge_manual tn sd) sale_date results);
    [reflexivity |].
  intros i r _. apply merge_manual_date.
Qed.

(** The re-indexed frame: one row per calendar day between the first
    and the last day with a sale, the days without one filled with
    zero. *)
Lemma daily_frame_calendar (results : list SalesRow) tn sd (obs : list Row) :
  results <> [] ->
  daily_frame results tn sd = Ok obs ->
  NoDup (sale_date <$> results)
  /\ exists lo hi : Z,
      lo ∈ sale_date <$> results /\ hi ∈ sale_date <$> results
      /\ (forall d, d ∈ sale_date <$> results -> lo <= d <= hi)
      /\ index <$> obs = seqZ lo (hi - lo + 1)
      /\ forall o : Row,
           o ∈ obs ->
           (forall r : SalesRow,
              r ∈ results -> sale_date r = index o ->
              quantity o = inject_Z (daily_qty r))
           /\ (index o ∉ sale_date <$> results ->
               quantity o = 0%Q /\ stockout o = false).
Proof.
  intros Hne. unfold daily_frame, reindex. cbv zeta.
  set (df := sort_values (merge_manual tn sd <$> results)).
  pose proof (merged_dates tn sd results) as Hperm. fold df in Hperm.
  case_bool_decide as Hnd; [| discriminate]. intros [= <-].
  assert (Hdne : sale_date <$> df <> []).
  { intros E. rewrite E in Hperm.
    apply Permutation_nil in Hperm. destruct results; [done | discriminate]. }
  destruct (column_range _ Hdne) as (Hlo & Hhi & Hrange).
  split; [by rewrite <- Hperm |].
  set (lo := foldr Z.min _ _) in *. set (hi := foldr Z.max _ _) in *.
  exists lo, hi. split; [by rewrite <- Hperm |]. split; [by rewrite <- Hperm |].
  split; [intros d Hd; apply Hrange; by rewrite Hperm |].
  split.
  - rewrite <- list_fmap_compose.
    etrans; [| apply list_fmap_id]. apply list_fmap_ext.
    intros k d _. simpl. by destruct (find _ df).
  - intros o Ho. apply list_elem_of_fmap in Ho as (d & -> & _).
    split.
    + intros r Hr Hd.
      assert (Hin : merge_manual tn sd r ∈ df).
      { unfold df, sort_values. rewrite merge_sort_Permutation.
        by apply list_elem_of_fmap_2. }
      destruct (merge_manual_date tn sd r) as [Hdate Hqty].
      assert (Hd' : d = sale_date (merge_manual tn sd r)).
      { rewrite Hdate, Hd. by destruct (find _ df). }
      rewrite Hd', (find_unique df _ Hnd Hin). simpl. by rewrite Hqty.
    + intros Hout.
      assert (Hd' : index (match find (fun r => bool_decide (sale_date r = d)) df with
                           | Some r => {| index := d; quantity := inject_Z (daily_qty r);
                                          stockout := default false (stockout_flag r);
                                          adjusted_quantity := inject_Z (daily_qty r) |}
                           | None => {| index := d; quantity := 0; stockout := false;
                                        adjusted_quantity := 0 |}
                           end) = d) by (by destruct (find _ df)).
      rewrite Hd' in Hout. rewrite find_absent; [done |]. by rewrite Hperm.
Qed.


Lemma shift_length (k : nat) (s : list (option Q)) :
  length (shift k s) = length s.
Proof.
  unfold shift. rewrite length_take, length_app, length_replicate. lia.
Qed.

Lemma shift_lookup (k : nat) (s : list (option Q)) (i : nat) :
  (i < length s)%nat ->
  shift k s !! i
  = if decide (k <= i)%nat then s !! (i - k)%nat else Some None.
Proof.
  intros Hi. unfold shift. rewrite lookup_take_lt by done.
  destruct (decide (k <= i)%nat).
  - rewrite lookup_app_r by (rewrite length_replicate; lia).
    by rewrite length_replicate.
  - rewrite lookup_app_l by (rewrite length_replicate; lia).
    rewrite lookup_replicate_2 by lia. reflexivity.
Qed.

(** The window the rolling mean of day [i] reads: the seven days
    before it. *)
Lemma rolling_window (df : list Row) (i : nat) :
  (7 <= i)%nat -> (i < length df)%nat ->
  take 7 (drop (i + 1 - 7)
            (shift 1 ((fun r => Some (adjusted_quantity r)) <$> df)))
  = Some <$> (adjusted_quantity <$> take 7 (drop (i - 7) df)).
Proof.
  intros H7 Hi. apply list_eq. intros j.
  rewrite <- list_fmap_compose, list_lookup_fmap, !lookup_take.
  destruct (decide (j < 7)%nat); [| reflexivity].
  rewrite !lookup_drop, shift_lookup by (rewrite length_fmap; lia).
  rewrite decide_True by lia. rewrite list_lookup_fmap.
  by replace (i + 1 - 7 + j - 1)%nat with (i - 7 + j)%nat by lia.
Qed.

(** The feature columns of day [i] of the frame. *)
Lemma add_features_lookup (df : list Row) (i : nat) (r : Row) :
  df !! i = Some r ->
  exists fr : FeatureRow,
    add_features df !! i = Some fr
    /\ day fr = r
    /\ lag_1 fr = (if decide (1 <= i)%nat
                   then adjusted_quantity <$> df !! (i - 1)%nat else None)
    /\ lag_7 fr = (if decide (7 <= i)%nat
                   then adjusted_quantity <$> df !! (i - 7)%nat else None)
    /\ ((7 <= i)%nat ->
        roll_7_mean fr
        = Some (Num.mean (adjusted_quantity <$> take 7 (drop (i - 7) df)))).
Proof.
  intros Hr. pose proof (lookup_lt_Some _ _ _ Hr) as Hi.
  unfold add_features. cbv zeta. rewrite list_lookup_imap, Hr.
  eexists. split; [reflexivity |]. cbn.
  rewrite !shift_lookup by (by rewrite length_fmap).
  split; [reflexivity |]. split; [| split].
  - destruct (decide (1 <= i)%nat); [| reflexivity].
    rewrite list_lookup_fmap. by destruct (df !! (i - 1)%nat).
  - destruct (decide (7 <= i)%nat); [| reflexivity].
    rewrite list_lookup_fmap. by destruct (df !! (i - 7)%nat).
  - intros H7. unfold rolling_mean. rewrite list_lookup_imap.
    rewrite shift_lookup by (by rewrite length_fmap).
    rewrite bool_decide_eq_true_2 by lia.
    rewrite (rolling_window df i H7 Hi).
    rewrite (@mapM_fmap_Some _ _ id Some) by done.
    destruct (decide (1 <= i)%nat); [| lia].
    rewrite list_lookup_fmap.
    destruct (lookup_lt_is_Some_2 df (i - 1)%nat ltac:(lia)) as [x ->].
    reflexivity.
Qed.

Lemma filter_from_index {A} (P : A -> Prop) `{!forall x, Decision (P x)}
    (l : list A) (k : nat) :
  (forall i x, l !! i = Some x -> (P x <-> (k <= i)%nat)) ->
  filter P l = drop k l.
Proof.
  revert k. induction l as [| a l IH]; intros k Hl; [by destruct k |].
  rewrite filter_cons. destruct k as [| k].
  - rewrite decide_True by (apply (Hl 0%nat a eq_refl); lia).
    simpl. f_equal. rewrite (IH 0%nat); [reflexivity |].
    intros i x Hx. specialize (Hl (S i) x Hx). split; [lia | intros _].
    apply Hl. lia.
  - rewrite decide_False.
    2:{ intros Ha. apply (Hl 0%nat a eq_refl) in Ha. lia. }
    simpl. apply IH. intros i x Hx. specialize (Hl (S i) x Hx).
    rewrite Hl. lia.
Qed.

(** [dropna] removes the first seven days of the frame and nothing
    else. *)
Lemma dropna_first_week (df : list Row) :
  dropna (add_features df) = drop 7 (add_features df).
Proof.
  unfold dropna. apply filter_from_index. intros i fr Hfr.
  assert (Hr : df !! i = Some (day fr)).
  { rewrite <- (add_features_day df) at 1.
    by rewrite list_lookup_fmap, Hfr. }
  pose proof (lookup_lt_Some _ _ _ Hr) as Hi.
  destruct (add_features_lookup df i _ Hr) as (fr' & Hfr' & _ & H1 & H7 & Hroll).
  rewrite Hfr in Hfr'. injection Hfr' as <-.
  split.
  - intros (_ & Hlag & _). rewrite H7 in Hlag.
    destruct (decide (7 <= i)%nat); [done |]. by destruct Hlag.
  - intros Hge. rewrite H1, H7, (Hroll Hge).
    rewrite !decide_True by lia.
    destruct (lookup_lt_is_Some_2 df (i - 1)%nat ltac:(lia)) as [x ->].
    destruct (lookup_lt_is_Some_2 df (i - 7)%nat ltac:(lia)) as [y ->].
    repeat split; by eexists.
Qed.

Lemma unconstrain_index (df : list Row) :
  index <$> unconstrain df = index <$> df.
Proof.
  rewrite unconstrain_map, <- list_fmap_compose.
  apply list_fmap_ext. intros i r _. simpl. by case_bool_decide.
Qed.

(** What [create_training_dataset] returns, in terms of the daily
    frame. *)
Lemma dataset_of_frame (db : Session) (today restaurant_id : Z)
    (menu_item_id : option Z) (days_history : Z) (out : list FeatureRow) :
  create_training_dataset db today restaurant_id menu_item_id days_history
  = Ok out ->
  exists obs : list Row,
    observations db today restaurant_id menu_item_id days_history = Ok obs
    /\ out = drop 7 (add_features (unconstrain obs)).
Proof.
  unfold create_training_dataset, observations. cbv zeta.
  set (sd := manual_stockouts db restaurant_id _ menu_item_id).
  assert (Hbuild : forall (results : list SalesRow) (tn : option string),
    build_dataset results tn sd = Ok out ->
    exists obs : list Row,
      match results with
      | [] => Ok []
      | r0 :: rest => daily_frame (r0 :: rest) tn sd
      end = Ok obs
      /\ out = drop 7 (add_features (unconstrain obs))).
  { intros results tn. unfold build_dataset.
    destruct results as [| r0 results].
    - intros [= <-]. by exists [].
    - destruct (daily_frame (r0 :: results) tn sd) as [obs | e];
        [| discriminate].
      cbn. intros [= <-]. exists obs. split; [reflexivity |].
      apply dropna_first_week. }
  destruct menu_item_id as [mid |].
  - destruct (item_by_id db mid) as [item |]; [apply Hbuild |].
    intros [= <-]. by exists [].
  - apply Hbuild.
Qed.


Lemma drop_seqZ (k : nat) (m : Z) (n : nat) :
  drop k (seqZ m (Z.of_nat n))
  = seqZ (m + Z.of_nat k) (Z.of_nat (n - k)).
Proof.
  apply list_eq. intros i. rewrite lookup_drop.
  destruct (decide (k + i < n)%nat).
  - rewrite !lookup_seqZ_lt by lia. f_equal. lia.
  - rewrite !lookup_seqZ_ge by lia. reflexivity.
Qed.

(** The daily frame of a call lists consecutive days. *)
Lemma observations_calendar (db : Session) (today restaurant_id : Z)
    (menu_item_id : option Z) (days_history : Z) (obs : list Row) :
  observations db today restaurant_id menu_item_id days_history = Ok obs ->
  exists lo : Z, index <$> obs = seqZ lo (Z.of_nat (length obs)).
Proof.
  unfold observations. cbv zeta.
  set (sd := manual_stockouts db restaurant_id _ menu_item_id).
  assert (Hframe : forall (results : list SalesRow) (tn : option string),
    match results with
    | [] => Ok []
    | r0 :: rest => daily_frame (r0 :: rest) tn sd
    end = Ok obs ->
    exists lo : Z, index <$> obs = seqZ lo (Z.of_nat (length obs))).
  { intros results tn. destruct results as [| r0 results].
    - intros [= <-]. by exists 0%Z.
    - intros Hf.
      destruct (daily_frame_calendar (r0 :: results) tn sd obs ltac:(discriminate) Hf)
        as (_ & lo & hi & Hlo & _ & Hrange & Hidx & _).
      exists lo. rewrite Hidx. f_equal.
      rewrite <- (length_fmap index), Hidx, length_seqZ.
      specialize (Hrange lo Hlo). lia. }
  destruct menu_item_id as [mid |].
  - destruct (item_by_id db mid) as [item |]; [apply Hframe |].
    intros [= <-]. by exists 0%Z.
  - apply Hframe.
Qed.


(** The groups of the statement: one row per date and item name sold,
    and under the item filter only that name. *)
Lemma sales_query_groups (db : Session) (restaurant_id cutoff_date : Z)
    (target_name : option string) :
  exists keys : list (Z * string),
    NoDup keys
    /\ sale_date <$> sales_query db restaurant_id cutoff_date target_name
       = keys.*1
    /\ (forall k, k ∈ keys ->
          forall n, target_name = Some n -> k.2 = n)
    /\ (forall t ti,
          t ∈ transactions db -> ti ∈ transaction_items db ->
          sold restaurant_id cutoff_date t ti ->
          (forall n, target_name = Some n ->
                     TransactionItem.menu_item_name ti = n) ->
          (Transaction.transaction_date t,
           TransactionItem.menu_item_name ti) ∈ keys).
Proof.
  unfold sales_query. cbv zeta.
  match goal with
  | |- context [remove_dups (?key <$> ?joined)] =>
      set (k := key); set (j := joined)
  end.
  exists (remove_dups (k <$> j)).
  split; [apply NoDup_remove_dups |].
  split; [by rewrite <- list_fmap_compose |].
  split.
  - intros key Hkey n ->. rewrite elem_of_remove_dups in Hkey.
    apply list_elem_of_fmap in Hkey as ([t ti] & -> & Hin).
    unfold j in Hin. apply list_elem_of_bind in Hin as (ti' & Hin & _).
    apply list_elem_of_bind in Hin as (t' & Hin & _).
    destruct (bool_decide _) eqn:E1; [| by apply not_elem_of_nil in Hin].
    case_bool_decide as E2; [| by apply not_elem_of_nil in Hin].
    simpl in Hin. apply list_elem_of_singleton in Hin as [= -> ->].
    exact E2.
  - intros t ti Ht Hti (H1 & H2 & H3) Hname.
    rewrite elem_of_remove_dups.
    apply (list_elem_of_fmap_2 k j (t, ti)).
    unfold j. apply list_elem_of_bind. exists ti. split; [| exact Hti].
    apply list_elem_of_bind. exists t. split; [| exact Ht].
    rewrite bool_decide_eq_true_2 by done.
    destruct target_name as [n |].
    + rewrite bool_decide_eq_true_2 by (by apply Hname). left.
    + left.
Qed.

(** With the item filter the dates of the rows are distinct. *)
Lemma sales_query_filtered_dates (db : Session)
    (restaurant_id cutoff_date : Z) (n : string) :
  NoDup (sale_date <$> sales_query db restaurant_id cutoff_date (Some n)).
Proof.
  destruct (sales_query_groups db restaurant_id cutoff_date (Some n))
    as (keys & Hnd & -> & Hname & _).
  apply NoDup_fmap_2_strong; [| exact Hnd].
  intros [d1 n1] [d2 n2] H1 H2 Hd. simpl in Hd. subst d2.
  pose proof (Hname _ H1 n eq_refl) as E1.
  pose proof (Hname _ H2 n eq_refl) as E2. simpl in E1, E2. congruence.
Qed.

Lemma fmap_collision {A B} (f : A -> B) (l : list A) (a b : A) :
  a ∈ l -> b ∈ l -> a <> b -> f a = f b -> ~ NoDup (f <$> l).
Proof.
  intros Ha Hb Hne Hf Hnd. apply Hne. clear Hne.
  induction l as [| x l IH]; [by apply not_elem_of_nil in Ha |].
  rewrite fmap_cons in Hnd. apply NoDup_cons in Hnd as [Hx Hnd].
  apply elem_of_cons in Ha as [-> | Ha];
    apply elem_of_cons in Hb as [-> | Hb].
  - reflexivity.
  - exfalso. apply Hx. rewrite Hf. by apply list_elem_of_fmap_2.
  - exfalso. apply Hx. rewrite <- Hf. by apply list_elem_of_fmap_2.
  - by apply IH.
Qed.

Lemma build_dataset_distinct (results : list SalesRow) tn sd :
  NoDup (sale_date <$> results) ->
  exists out : list FeatureRow, build_dataset results tn sd = Ok out.
Proof.
  intros Hnd. unfold build_dataset. destruct results as [| r0 results].
  - by eexists.
  - unfold daily_frame, reindex. cbv zeta.
    rewrite bool_decide_eq_true_2 by (by rewrite merged_dates).
    by eexists.
Qed.

Lemma build_dataset_duplicate (results : list SalesRow) tn sd :
  ~ NoDup (sale_date <$> results) ->
  build_dataset results tn sd
  = Raise (ValueError "cannot reindex on an axis with duplicate labels").
Proof.
  intros Hnd. unfold build_dataset. destruct results as [| r0 results].
  - exfalso. apply Hnd. constructor.
  - unfold daily_frame, reindex. cbv zeta.
    rewrite bool_decide_eq_false_2 by (by rewrite merged_dates).
    reflexivity.
Qed.

(** Two items sold on one day break the unfiltered call. *)
Lemma unfiltered_two_items (db : Session) (today restaurant_id : Z)
    (days_history : Z) (t1 t2 : Transaction.t)
    (ti1 ti2 : TransactionItem.t) :
  t1 ∈ transactions db -> t2 ∈ transactions db ->
  ti1 ∈ transaction_items db -> ti2 ∈ transaction_items db ->
  sold restaurant_id (today - days_history) t1 ti1 ->
  sold restaurant_id (today - days_history) t2 ti2 ->
  Transaction.transaction_date t1 = Transaction.transaction_date t2 ->
  TransactionItem.menu_item_name ti1 <> TransactionItem.menu_item_name ti2 ->
  create_training_dataset db today restaurant_id None days_history
  = Raise (ValueError "cannot reindex on an axis with duplicate labels").
Proof.
  intros Ht1 Ht2 Hti1 Hti2 Hs1 Hs2 Hd Hn.
  unfold create_training_dataset. cbv zeta.
  apply build_dataset_duplicate.
  destruct (sales_query_groups db restaurant_id (today - days_history) None)
    as (keys & _ & -> & _ & Hin).
  apply (fmap_collision fst keys
           (Transaction.transaction_date t1,
            TransactionItem.menu_item_name ti1)
           (Transaction.transaction_date t2,
            TransactionItem.menu_item_name ti2)).
  - by apply Hin.
  - by apply Hin.
  - intros [= _ E]. by apply Hn.
  - exact Hd.
Qed.


(** The returned rows are the daily frame without its first seven
    days. *)
Lemma first_week_dropped (db : Session) (today restaurant_id : Z)
    (menu_item_id : option Z) (days_history : Z) (out : list FeatureRow) :
  create_training_dataset db today restaurant_id menu_item_id days_history
  = Ok out ->
  exists (obs : list Row) (lo : Z),
    observations db today restaurant_id menu_item_id days_history = Ok obs
    /\ index <$> obs = seqZ lo (Z.of_nat (length obs))
    /\ length out = (length obs - 7)%nat
    /\ (fun r => index (day r)) <$> out
       = seqZ (lo + 7) (Z.of_nat (length out))
    /\ ((length obs <= 7)%nat -> out = []).
Proof.
  intros Hout.
  destruct (dataset_of_frame _ _ _ _ _ _ Hout) as (obs & Hobs & ->).
  destruct (observations_calendar _ _ _ _ _ _ Hobs) as (lo & Hidx).
  exists obs, lo. split; [exact Hobs |]. split; [exact Hidx |].
  assert (Hlen : length (add_features (unconstrain obs)) = length obs).
  { rewrite <- (length_fmap day), add_features_day.
    rewrite <- (length_fmap index), unconstrain_index.
    by rewrite length_fmap. }
  split; [by rewrite length_drop, Hlen |]. split.
  - rewrite (list_fmap_compose day index), fmap_drop.
    rewrite add_features_day, fmap_drop.
    rewrite unconstrain_index, Hidx.
    rewrite length_drop, Hlen. apply drop_seqZ.
  - intros Hshort. apply drop_ge. lia.
Qed.


(** With an item id the call returns. *)
Lemma filtered_call_returns (db : Session) (today restaurant_id : Z)
    (mid : Z) (days_history : Z) :
  exists out : list FeatureRow,
    create_training_dataset db today restaurant_id (Some mid) days_history
    = Ok out.
Proof.
  unfold create_training_dataset. cbv zeta.
  destruct (item_by_id db mid) as [item |]; [| by exists []].
  apply build_dataset_distinct, sales_query_filtered_dates.
Qed.

End FeaturesMoreFacts.

(** X14. The daily frame the feature builder works on has exactly one
    row per calendar day from the first to the last day with a sale;
    a day with a sale carries the quantity sold, a day without one is
    filled with quantity 0 and no stock-out; and the sale dates were
    distinct, or the re-indexing would have raised. *)
Theorem X14_daily_frame_calendar (results : list Features.SalesRow)
    (tn : option string) (sd : gmap string (gset Z))
    (obs : list Features.Row) :
  results <> [] ->
  Features.daily_frame results tn sd = Ok obs ->
  NoDup (Features.sale_date <$> results)
  /\ exists lo hi : Z,
      lo ∈ Features.sale_date <$> results
      /\ hi ∈ Features.sale_date <$> results
      /\ (forall d, d ∈ Features.sale_date <$> results -> (lo <= d <= hi)%Z)
      /\ Features.index <$> obs = seqZ lo (hi - lo + 1)
      /\ length obs = Z.to_nat (hi - lo + 1)
      /\ forall o : Features.Row,
           o ∈ obs ->
           (forall r : Features.SalesRow,
              r ∈ results -> Features.sale_date r = Features.index o ->
              Features.quantity o = inject_Z (Features.daily_qty r))
           /\ (Features.index o ∉ Features.sale_date <$> results ->
               Features.quantity o = 0 /\ Features.stockout o = false).
Proof.
  intros Hne Hframe.
  destruct (FeaturesMoreFacts.daily_frame_calendar results tn sd obs Hne Hframe)
    as (Hnd & lo & hi & Hlo & Hhi & Hrange & Hidx & Hrows).
  split; [exact Hnd |]. exists lo, hi. repeat (split; [assumption |]).
  split; [| exact Hrows].
  by rewrite <- (length_fmap Features.index), Hidx, length_seqZ.
Qed.

Lemma X14_daily_frame_calendar_witness :
  exists obs : list Features.Row,
    Features.daily_frame MoreSamples.gap_sales None ∅ = Ok obs
    /\ length obs = 3%nat
    /\ exists lo hi : Z,
        Features.index <$> obs = seqZ lo (hi - lo + 1)
        /\ forall o : Features.Row,
             o ∈ obs ->
             Features.index o ∉ Features.sale_date <$> MoreSamples.gap_sales ->
             Features.quantity o = 0 /\ Features.stockout o = false.
Proof.
  let v := eval vm_compute in
    (Features.daily_frame MoreSamples.gap_sales None ∅) in
  match v with
  | Ok ?o =>
      assert (E : Features.daily_frame MoreSamples.gap_sales None ∅ = Ok o)
        by (vm_compute; reflexivity);
      exists o; split; [exact E |]; split; [reflexivity |];
      destruct (X14_daily_frame_calendar MoreSamples.gap_sales None ∅ o
                  ltac:(discriminate) E)
        as (_ & lo & hi & _ & _ & _ & Hidx & _ & Hrows);
      exists lo, hi; split; [exact Hidx |];
      intros r Hr; exact (proj2 (Hrows r Hr))
  end.
Defined.

(** X15. What the feature builder returns is the daily frame without
    its first seven days, in order: the rows are consecutive calendar
    days, and a series that spans at most seven days gives an empty
    data set. *)
Theorem X15_first_week_dropped (db : Session) (today restaurant_id : Z)
    (menu_item_id : option Z) (days_history : Z)
    (out : list Features.FeatureRow) :
  Features.create_training_dataset db today restaurant_id menu_item_id
    days_history = Ok out ->
  exists (obs : list Features.Row) (lo : Z),
    FeaturesSpec.observations db today restaurant_id menu_item_id
      days_history = Ok obs
    /\ Features.index <$> obs = seqZ lo (Z.of_nat (length obs))
    /\ length out = (length obs - 7)%nat
    /\ (fun r => Features.index (Features.day r)) <$> out
       = seqZ (lo + 7) (Z.of_nat (length out))
    /\ ((length obs <= 7)%nat -> out = []).
Proof. apply FeaturesMoreFacts.first_week_dropped. Qed.

Lemma X15_first_week_dropped_witness :
  exists (out : list Features.FeatureRow),
    Features.create_training_dataset Sample.burger_db Sample.today 1
      (Some 7%Z) 60 = Ok out
    /\ exists (obs : list Features.Row) (lo : Z),
        FeaturesSpec.observations Sample.burger_db Sample.today 1
          (Some 7%Z) 60 = Ok obs
        /\ Features.index <$> obs = seqZ lo (Z.of_nat (length obs))
        /\ length out = (length obs - 7)%nat
        /\ (fun r => Features.index (Features.day r)) <$> out
           = seqZ (lo + 7) (Z.of_nat (length out))
        /\ ((length obs <= 7)%nat -> out = []).
Proof.
  let v := eval vm_compute in
    (Features.create_training_dataset Sample.burger_db Sample.today 1
       (Some 7%Z) 60) in
  match v with
  | Ok ?o =>
      assert (E : Features.create_training_dataset Sample.burger_db
                    Sample.today 1 (Some 7%Z) 60 = Ok o)
        by (vm_compute; reflexivity);
      exists o; split; [exact E |];
      exact (X15_first_week_dropped _ _ _ _ _ _ E)
  end.
Defined.

(** X16. In the returned data set every row has its three essential
    features, and they are read off the rows before it: [lag_1] is the
    adjusted quantity of the previous row, [lag_7] that of the row
    seven before, and [roll_7_mean] the mean of the adjusted
    quantities of the seven rows before (the row itself excluded). *)
Theorem X16_lag_features (db : Session) (today restaurant_id : Z)
    (menu_item_id : option Z) (days_history : Z)
    (out : list Features.FeatureRow) (j : nat) (r : Features.FeatureRow) :
  Features.create_training_dataset db today restaurant_id menu_item_id
    days_history = Ok out ->
  out !! j = Some r ->
  let adjusted q := Features.adjusted_quantity (Features.day q) in
  is_Some (Features.lag_1 r) /\ is_Some (Features.lag_7 r)
  /\ is_Some (Features.roll_7_mean r)
  /\ (forall q, (1 <= j)%nat -> out !! (j - 1)%nat = Some q ->
        Features.lag_1 r = Some (adjusted q))
  /\ (forall q, (7 <= j)%nat -> out !! (j - 7)%nat = Some q ->
        Features.lag_7 r = Some (adjusted q))
  /\ ((7 <= j)%nat ->
      Features.roll_7_mean r
      = Some (Num.mean (adjusted <$> take 7 (drop (j - 7) out)))).
Proof.
  intros Hout Hr adjusted.
  destruct (FeaturesMoreFacts.dataset_of_frame _ _ _ _ _ _ Hout)
    as (obs & _ & ->).
  set (u := Features.unconstrain obs) in *.
  rewrite lookup_drop in Hr.
  assert (Hu : forall k q, Features.add_features u !! k = Some q ->
                           u !! k = Some (Features.day q)).
  { intros k q Hq. rewrite <- (FeaturesFacts.add_features_day u) at 1.
    by rewrite list_lookup_fmap, Hq. }
  destruct (FeaturesMoreFacts.add_features_lookup u _ _ (Hu _ _ Hr))
    as (r' & Hr' & _ & H1 & H7 & Hroll).
  rewrite Hr in Hr'. injection Hr' as <-.
  pose proof (lookup_lt_Some _ _ _ (Hu _ _ Hr)) as Hlt.
  rewrite decide_True in H1 by lia. rewrite decide_True in H7 by lia.
  specialize (Hroll ltac:(lia)).
  split; [| split; [| split; [| split; [| split]]]].
  - rewrite H1.
    destruct (lookup_lt_is_Some_2 u (7 + j - 1)%nat ltac:(lia)) as [x ->].
    by eexists.
  - rewrite H7.
    destruct (lookup_lt_is_Some_2 u (7 + j - 7)%nat ltac:(lia)) as [x ->].
    by eexists.
  - rewrite Hroll. by eexists.
  - intros q Hj Hq. rewrite lookup_drop in Hq. apply Hu in Hq.
    replace (7 + (j - 1))%nat with (7 + j - 1)%nat in Hq by lia.
    by rewrite H1, Hq.
  - intros q Hj Hq. rewrite lookup_drop in Hq. apply Hu in Hq.
    replace (7 + (j - 7))%nat with (7 + j - 7)%nat in Hq by lia.
    by rewrite H7, Hq.
  - intros Hj. rewrite Hroll. do 2 f_equal.
    unfold adjusted.
    rewrite (list_fmap_compose Features.day Features.adjusted_quantity).
    f_equal. rewrite fmap_take, fmap_drop, fmap_drop.
    rewrite FeaturesFacts.add_features_day, drop_drop.
    by replace (7 + j - 7)%nat with (7 + (j - 7))%nat by lia.
Qed.

Lemma X16_lag_features_witness :
  exists (out : list Features.FeatureRow) (r : Features.FeatureRow),
    out !! 10%nat = Some r
    /\ Features.lag_1 r = Some 10
    /\ (7 <= 10)%nat
    /\ Features.roll_7_mean r
       = Some (Num.mean ((fun q => Features.adjusted_quantity (Features.day q))
                           <$> take 7 (drop (10 - 7) out))).
Proof.
  let v := eval vm_compute in
    (Features.create_training_dataset Sample.burger_db Sample.today 1
       (Some 7%Z) 60) in
  match v with
  | Ok ?o =>
      assert (E : Features.create_training_dataset Sample.burger_db
                    Sample.today 1 (Some 7%Z) 60 = Ok o)
        by (vm_compute; reflexivity);
      let w := eval vm_compute in (o !! 10%nat) in
      match w with
      | Some ?r =>
          assert (Er : o !! 10%nat = Some r) by (vm_compute; reflexivity);
          exists o, r; split; [exact Er |];
          destruct (X16_lag_features _ _ _ _ _ _ 10%nat r E Er)
            as (_ & _ & _ & _ & _ & Hroll);
          split; [vm_compute; reflexivity |];
          split; [lia |]; apply Hroll; lia
      end
  end.
Defined.

(** X17. Called with an item id, the feature builder never raises:
    the statement groups by date and item name and keeps one name, so
    the dates it returns are distinct and the re-indexing goes
    through. An id that matches no item gives the empty frame. *)
Theorem X17_filtered_call_returns (db : Session) (today restaurant_id : Z)
    (mid : Z) (days_history : Z) :
  exists out : list Features.FeatureRow,
    Features.create_training_dataset db today restaurant_id (Some mid)
      days_history = Ok out
    /\ (Features.item_by_id db mid = None -> out = []).
Proof.
  unfold Features.create_training_dataset. cbv zeta.
  destruct (Features.item_by_id db mid) as [item |].
  - destruct (FeaturesMoreFacts.build_dataset_distinct
                (Features.sales_query db restaurant_id
                   (today - days_history) (Some (MenuItem.name item)))
                (Some (MenuItem.name item))
                (Features.manual_stockouts db restaurant_id
                   (today - days_history) (Some mid))
                (FeaturesMoreFacts.sales_query_filtered_dates _ _ _ _))
      as [out Hout].
    exists out. split; [exact Hout | discriminate].
  - by exists [].
Qed.

(** X18. Called without an item id, the feature builder raises
    pandas' [ValueError] as soon as two different items were sold on
    the same day in the window: the frame then has that date twice,
    and [reindex] refuses duplicate labels. *)
Theorem X18_unfiltered_call_raises (db : Session) (today restaurant_id : Z)
    (days_history : Z) (t1 t2 : Transaction.t)
    (ti1 ti2 : TransactionItem.t) :
  t1 ∈ transactions db -> t2 ∈ transactions db ->
  ti1 ∈ transaction_items db -> ti2 ∈ transaction_items db ->
  SalesSpec.sold restaurant_id (today - days_history) t1 ti1 ->
  SalesSpec.sold restaurant_id (today - days_history) t2 ti2 ->
  Transaction.transaction_date t1 = Transaction.transaction_date t2 ->
  TransactionItem.menu_item_name ti1 <> TransactionItem.menu_item_name ti2 ->
  Features.create_training_dataset db today restaurant_id None days_history
  = Raise (ValueError "cannot reindex on an axis with duplicate labels").
Proof. apply FeaturesMoreFacts.unfiltered_two_items. Qed.

Lemma X18_unfiltered_call_raises_witness :
  Features.create_training_dataset MoreSamples.two_item_db 739253 1 None 365
  = Raise (ValueError "cannot reindex on an axis with duplicate labels").
Proof.
  apply (X18_unfiltered_call_raises MoreSamples.two_item_db 739253 1 365
           {| Transaction.id := 1; Transaction.restaurant_id := 1;
              Transaction.transaction_date := 739252;
              Transaction.stockout_occurred := None |}
           {| Transaction.id := 1; Transaction.restaurant_id := 1;
              Transaction.transaction_date := 739252;
              Transaction.stockout_occurred := None |}
           {| TransactionItem.transaction_id := 1;
              TransactionItem.menu_item_name := "Burger";
              TransactionItem.quantity := 2 |}
           {| TransactionItem.transaction_id := 1;
              TransactionItem.menu_item_name := "Fries";
              TransactionItem.quantity := 1 |}).
  - left.
  - left.
  - left.
  - right; left.
  - repeat split; vm_compute; discriminate.
  - repeat split; vm_compute; discriminate.
  - reflexivity.
  - discriminate.
Defined.

(** ** The orchestrator, step by step *)

Module ServiceFacts.

Import Num NumFacts Stats Bayesian Forecast BayesianSpec OrchestratorSpec.
Import ServiceSpec.

Section Calls.
Context `{NumPy}.

(** The steps of [generate_forecasts] and what each outcome leaves. *)
Lemma generate_forecasts_steps (self : ForecastService) (today : Z)
    (restaurant_id : Z) (menu_item_name : string) (days_ahead : Z)
    (category : option string) (s0 : RandomState) :
  match scalar_one_or_none
          (filter (fun i => MenuItem.name i = menu_item_name
                            ∧ MenuItem.restaurant_id i = restaurant_id)
             (menu_items (db self))) with
  | Raise e =>
      generate_forecasts self today restaurant_id menu_item_name days_ahead
        category s0 = (Raise e, self, s0)
  | Ok item =>
      match Features.create_training_dataset (db self) today restaurant_id
              (MenuItem.id <$> item) 365 with
      | Raise e =>
          generate_forecasts self today restaurant_id menu_item_name
            days_ahead category s0 = (Raise e, self, s0)
      | Ok df_item =>
          let data :=
            _get_category_data (db self) today restaurant_id
              (cat_context category) 90 in
          let samples := concat (map_to_list data.2).*2 in
          let forecaster' :=
            match samples with
            | [] => forecaster self
            | _ => learn_priors (forecaster self)
                     {[ cat_context category := samples ]}
            end in
          let last_date := training_end today df_item in
          let future := seqZ (last_date + 1) days_ahead in
          generate_forecasts self today restaurant_id menu_item_name
            days_ahead category s0
          = match predict_item forecaster'
                    ((fun r => Features.adjusted_quantity (Features.day r))
                       <$> df_item)
                    (Date.dayofweek
                       <$> ((fun r => Features.index (Features.day r))
                              <$> df_item))
                    (Date.isoformat <$> future) (Date.dayofweek <$> future)
                    (Some (cat_context category))
                    (Some (_calculate_seasonality data.1)) s0 with
            | (Raise e, s) =>
                (Raise e, {| db := db self; forecaster := forecaster' |}, s)
            | (Ok forecast_dists, s) =>
                let saved :=
                  imap (to_record restaurant_id menu_item_name last_date)
                    forecast_dists in
                (Ok saved,
                 {| db := commit (db self) saved;
                    forecaster := forecaster' |}, s)
            end
      end
  end.
Proof.
  unfold generate_forecasts.
  destruct (scalar_one_or_none _) as [item | e]; [| reflexivity].
  destruct (Features.create_training_dataset _ _ _ _ _) as [df_item | e];
    [| reflexivity].
  fold (cat_context category).
  destruct (_get_category_data (db self) today restaurant_id
              (cat_context category) 90) as [df_cat priors_raw_data].
  cbv zeta. cbn [fst snd].
  destruct df_item as [| r0 df_item]; reflexivity.
Qed.


(** A call that returns forecasts returns one per future date. *)
Lemma predict_item_dates (self : BayesianForecaster)
    (item_history : list Q) (history_dows : list Z)
    (future_dates : list string) (future_dows : list Z)
    (category : option string) (seasonal_multipliers : option (gmap Z Q))
    (s0 s : RandomState) (fs : list ForecastDistribution) :
  predict_item self item_history history_dows future_dates future_dows
    category seasonal_multipliers s0 = (Ok fs, s) ->
  date <$> fs = (zip future_dates future_dows).*1.
Proof.
  rewrite PredictFacts.predict_item_unfold. cbv zeta.
  destruct (Qeq_bool _ 0); [discriminate |].
  intros Hloop. by apply BayesianMoreFacts.forecast_loop_shape in Hloop as [? _].
Qed.

(** Every multiplier of a computed profile is non-negative. *)
Lemma seasonality_nonneg (df : list (Z * Q)) :
  map_Forall (fun _ m => 0 <= m) (_calculate_seasonality df).
Proof.
  intros d m. rewrite SeasonalityFacts.seasonality_lookup.
  destruct (decide (0 <= d < 7)%Z); [| discriminate]. intros [= <-].
  destruct (bool_decide (df = []) || Qeq_bool (Num.mean df.*2) 0); [lra |].
  unfold day_multiplier. cbv zeta.
  match goal with
  | |- 0 <= py_max 0.3 (py_min ?m 3.0) =>
      pose proof (SeasonalityFacts.clip_range m)
  end. lra.
Qed.

Lemma predict_item_well_formed (self : BayesianForecaster)
    (item_history : list Q) (history_dows : list Z)
    (future_dates : list string) (future_dows : list Z)
    (category : option string) (df_cat : list (Z * Q))
    (s0 s : RandomState) (fs : list ForecastDistribution) :
  predict_item self item_history history_dows future_dates future_dows
    category (Some (_calculate_seasonality df_cat)) s0 = (Ok fs, s) ->
  Forall well_formed fs.
Proof.
  rewrite PredictFacts.predict_item_unfold. cbv zeta.
  destruct (Qeq_bool _ 0); [discriminate |].
  apply PredictFacts.forecast_loop_well_formed.
  apply PredictFacts.multipliers_or_flat_nonneg.
  intros profile [= <-]. apply seasonality_nonneg.
Qed.

End Calls.

(** The training frame lists consecutive days, so its latest date is
    that of its last row. *)
Lemma training_end_last (today m : Z) (df_item : list Features.FeatureRow) :
  (fun r => Features.index (Features.day r)) <$> df_item
  = seqZ m (Z.of_nat (length df_item)) ->
  training_end today df_item
  = match last df_item with
    | Some r => Features.index (Features.day r)
    | None => (today - 1)%Z
    end.
Proof.
  intros Hidx. destruct df_item as [| r0 df]; [reflexivity |].
  unfold training_end.
  set (l := (fun r => Features.index (Features.day r)) <$> r0 :: df) in *.
  destruct (FeaturesMoreFacts.foldr_max_bound
              (Features.index (Features.day r0)) l) as [Hin Hub].
  set (M := foldr Z.max _ l) in *.
  assert (Hhead : Features.index (Features.day r0) ∈ l) by left.
  assert (HM : M ∈ l).
  { apply elem_of_cons in Hin as [-> | Hin]; done. }
  rewrite last_lookup.
  destruct (lookup_lt_is_Some_2 (r0 :: df) (pred (length (r0 :: df)))
              ltac:(simpl; lia)) as [r Hr].
  rewrite Hr.
  assert (Hl : l !! pred (length (r0 :: df))
               = Some (Features.index (Features.day r))).
  { unfold l. by rewrite list_lookup_fmap, Hr. }
  assert (Hlast : Features.index (Features.day r) ∈ l).
  { apply list_elem_of_lookup. by eexists. }
  rewrite Hidx in Hl, HM.
  apply lookup_seqZ in Hl as [Hl _].
  apply elem_of_seqZ in HM.
  assert (Hle := Hub _ ltac:(right; exact Hlast)).
  simpl length in *. lia.
Qed.

End ServiceFacts.

(** X19. Whatever its outcome, [generate_forecasts] writes to the
    forecasts table only: menu, transactions, line items and inventory
    of the session are as before; on success the saved records are
    appended after the existing forecasts, and when the call raises
    the session is exactly the one it started with. *)
Theorem X19_only_forecasts_written `{NumPy} (self : Forecast.ForecastService)
    (today restaurant_id : Z) (menu_item_name : string) (days_ahead : Z)
    (category : option string) (s0 : RandomState) :
  let r := Forecast.generate_forecasts self today restaurant_id
             menu_item_name days_ahead category s0 in
  let db' := Forecast.db r.1.2 in
  menu_items db' = menu_items (Forecast.db self)
  /\ transactions db' = transactions (Forecast.db self)
  /\ transaction_items db' = transaction_items (Forecast.db self)
  /\ inventory_snapshots db' = inventory_snapshots (Forecast.db self)
  /\ match r.1.1 with
     | Ok saved =>
         demand_forecasts db'
         = demand_forecasts (Forecast.db self) ++ saved
     | Raise _ => db' = Forecast.db self
     end.
Proof.
  cbv zeta.
  pose proof (ServiceFacts.generate_forecasts_steps self today restaurant_id
                menu_item_name days_ahead category s0) as Hsteps.
  destruct (scalar_one_or_none _) as [item | e];
    [| by rewrite Hsteps].
  destruct (Features.create_training_dataset _ _ _ _ _) as [df_item | e];
    [| by rewrite Hsteps].
  cbv zeta in Hsteps. rewrite Hsteps.
  by destruct (Bayesian.predict_item _ _ _ _ _ _ _ _) as [[fs | e] s].
Qed.

(** X20. Forecasts are counted from the training data, not from the
    calendar: when the call succeeds it saves exactly [days_ahead]
    records (none for a negative horizon), for the requested name and
    restaurant, under the model name "BayesianSeasonal_v1", dated on
    consecutive days that start the day after the last row of the
    item's training frame, and from today only when that frame is
    empty. *)
Theorem X20_forecast_dates `{NumPy} (self self' : Forecast.ForecastService)
    (today restaurant_id : Z) (menu_item_name : string) (days_ahead : Z)
    (category : option string) (s0 s' : RandomState)
    (saved : list DemandForecast.t) :
  Forecast.generate_forecasts self today restaurant_id menu_item_name
    days_ahead category s0 = (Ok saved, self', s') ->
  exists (item : option MenuItem.t) (df_item : list Features.FeatureRow),
    scalar_one_or_none
      (filter (fun i => MenuItem.name i = menu_item_name
                        ∧ MenuItem.restaurant_id i = restaurant_id)
         (menu_items (Forecast.db self))) = Ok item
    /\ Features.create_training_dataset (Forecast.db self) today
         restaurant_id (MenuItem.id <$> item) 365 = Ok df_item
    /\ length saved = Z.to_nat days_ahead
    /\ DemandForecast.forecast_date <$> saved
       = seqZ (match last df_item with
               | Some r => Features.index (Features.day r) + 1
               | None => today
               end) days_ahead
    /\ Forall (fun rec =>
                 DemandForecast.restaurant_id rec = restaurant_id
                 /\ DemandForecast.menu_item_name rec = menu_item_name
                 /\ (DemandForecast.model_name rec).1 = "BayesianSeasonal_v1")
         saved.
Proof.
  pose proof (ServiceFacts.generate_forecasts_steps self today restaurant_id
                menu_item_name days_ahead category s0) as Hsteps.
  destruct (scalar_one_or_none _) as [item | e];
    [| rewrite Hsteps; discriminate].
  destruct (Features.create_training_dataset _ _ _ _ _) as [df_item | e] eqn:Hdf;
    [| rewrite Hsteps; discriminate].
  cbv zeta in Hsteps. rewrite Hsteps. clear Hsteps.
  destruct (Bayesian.predict_item _ _ _ _ _ _ _ _) as [[fs | e] s] eqn:Hp;
    [| discriminate].
  intros [= <- <- <-]. exists item, df_item.
  split; [reflexivity |]. split; [exact Hdf |].
  apply ServiceFacts.predict_item_dates in Hp.
  assert (Hlen : length fs = Z.to_nat days_ahead).
  { rewrite <- (length_fmap Bayesian.date), Hp, length_fmap, length_zip.
    rewrite !length_fmap, length_seqZ. lia. }
  destruct (FeaturesMoreFacts.first_week_dropped _ _ _ _ _ _ Hdf)
    as (obs & lo & _ & _ & _ & Hidx & _).
  rewrite (ServiceFacts.training_end_last today _ _ Hidx).
  split; [by rewrite length_imap |]. split.
  - replace (match last df_item with
             | Some r => (Features.index (Features.day r) + 1)%Z
             | None => today
             end)
      with (match last df_item with
            | Some r => Features.index (Features.day r)
            | None => (today - 1)%Z
            end + 1)%Z by (destruct (last df_item); lia).
    set (d := match last df_item with
              | Some r => Features.index (Features.day r)
              | None => (today - 1)%Z
              end).
    apply list_eq. intros i. rewrite list_lookup_fmap, list_lookup_imap.
    destruct (fs !! i) as [f |] eqn:Hf.
    + pose proof (lookup_lt_Some _ _ _ Hf).
      rewrite lookup_seqZ_lt by lia. cbn. f_equal. lia.
    + apply lookup_ge_None in Hf. rewrite lookup_seqZ_ge by lia. reflexivity.
  - apply Forall_forall. intros rec Hrec.
    apply list_elem_of_lookup in Hrec as [i Hrec].
    rewrite list_lookup_imap in Hrec.
    destruct (fs !! i) as [f |]; [| discriminate].
    injection Hrec as <-. done.
Qed.

Lemma X20_forecast_dates_witness :
  exists (saved : list DemandForecast.t) (s' : @RandomState Lcg_numpy),
    Forecast.generate_forecasts (Forecast.init Sample.empty_db) Sample.today
      1 "Ghost" 2 None (0%Z : @RandomState Lcg_numpy)
    = (Ok saved,
       {| Forecast.db := Forecast.commit Sample.empty_db saved;
          Forecast.forecaster := Bayesian.default_forecaster |}, s')
    /\ length saved = Z.to_nat 2
    /\ DemandForecast.forecast_date <$> saved = seqZ Sample.today 2.
Proof.
  destruct (OrchestratorFacts.generate_forecasts_no_sales Sample.empty_db
              Sample.today 1 "Ghost" 2 None (0%Z : @RandomState Lcg_numpy)
              eq_refl) as (saved & s' & E & _).
  { intros t Ht. vm_compute in Ht. by apply not_elem_of_nil in Ht. }
  exists saved, s'. split; [exact E |].
  destruct (X20_forecast_dates _ _ _ _ _ _ _ _ _ _ E)
    as (item & df_item & Hitem & Hdf & Hlen & Hdates & _).
  split; [exact Hlen |].
  cbn in Hitem. injection Hitem as <-.
  vm_compute in Hdf. injection Hdf as <-. exact Hdates.
Defined.

(** X21. Every record the orchestrator saves has ordered,
    non-negative quantiles: [0 <= p10 <= p50 <= p90] and a
    non-negative predicted quantity, after the rounding to two
    decimals. *)
Theorem X21_saved_quantiles_ordered `{NumPy}
    (self self' : Forecast.ForecastService)
    (today restaurant_id : Z) (menu_item_name : string) (days_ahead : Z)
    (category : option string) (s0 s' : RandomState)
    (saved : list DemandForecast.t) :
  Forecast.generate_forecasts self today restaurant_id menu_item_name
    days_ahead category s0 = (Ok saved, self', s') ->
  Forall (fun rec =>
            0 <= DemandForecast.p10_quantity rec
            /\ DemandForecast.p10_quantity rec
               <= DemandForecast.p50_quantity rec
            /\ DemandForecast.p50_quantity rec
               <= DemandForecast.p90_quantity rec
            /\ 0 <= DemandForecast.predicted_quantity rec) saved.
Proof.
  pose proof (ServiceFacts.generate_forecasts_steps self today restaurant_id
                menu_item_name days_ahead category s0) as Hsteps.
  destruct (scalar_one_or_none _) as [item | e];
    [| rewrite Hsteps; discriminate].
  destruct (Features.create_training_dataset _ _ _ _ _) as [df_item | e];
    [| rewrite Hsteps; discriminate].
  cbv zeta in Hsteps. rewrite Hsteps. clear Hsteps.
  destruct (Bayesian.predict_item _ _ _ _ _ _ _ _) as [[fs | e] s] eqn:Hp;
    [| discriminate].
  intros [= <- <- <-].
  apply ServiceFacts.predict_item_well_formed in Hp.
  rewrite Forall_forall in Hp.
  apply Forall_forall. intros rec Hrec.
  apply list_elem_of_lookup in Hrec as [i Hrec].
  rewrite list_lookup_imap in Hrec.
  destruct (fs !! i) as [f |] eqn:Hf; [| discriminate].
  injection Hrec as <-. cbn.
  destruct (Hp f) as (H10 & H50 & H90 & _ & Hmean).
  { apply list_elem_of_lookup. by exists i. }
  repeat split.
  - by apply ForecastMoreFacts.decimal2_nonneg.
  - by apply ForecastMoreFacts.decimal2_mono.
  - by apply ForecastMoreFacts.decimal2_mono.
  - by apply ForecastMoreFacts.decimal2_nonneg.
Qed.

Lemma X21_saved_quantiles_ordered_witness :
  exists (saved : list DemandForecast.t) (s' : @RandomState Lcg_numpy),
    Forecast.generate_forecasts (Forecast.init Sample.empty_db) Sample.today
      1 "Ghost" 2 (Some "Mains") (0%Z : @RandomState Lcg_numpy)
    = (Ok saved,
       {| Forecast.db := Forecast.commit Sample.empty_db saved;
          Forecast.forecaster := Bayesian.default_forecaster |}, s')
    /\ Forall (fun rec =>
                 0 <= DemandForecast.p10_quantity rec
                 /\ DemandForecast.p10_quantity rec
                    <= DemandForecast.p50_quantity rec
                 /\ DemandForecast.p50_quantity rec
                    <= DemandForecast.p90_quantity rec
                 /\ 0 <= DemandForecast.predicted_quantity rec) saved.
Proof.
  destruct (OrchestratorFacts.generate_forecasts_no_sales Sample.empty_db
              Sample.today 1 "Ghost" 2 (Some "Mains")
              (0%Z : @RandomState Lcg_numpy) eq_refl) as (saved & s' & E & _).
  { intros t Ht. vm_compute in Ht. by apply not_elem_of_nil in Ht. }
  exists saved, s'. split; [exact E |].
  exact (X21_saved_quantiles_ordered _ _ _ _ _ _ _ _ _ _ E).
Defined.

(** X22. A request for a name that is no menu item of the restaurant
    is served from the unfiltered sales; when the restaurant sold two
    different items on one day of the last 365, the call therefore
    raises pandas' [ValueError], and it leaves the service and the
    generator untouched. *)
Theorem X22_unknown_name_two_items `{NumPy} (self : Forecast.ForecastService)
    (today restaurant_id : Z) (menu_item_name : string) (days_ahead : Z)
    (category : option string) (s0 : RandomState)
    (t1 t2 : Transaction.t) (ti1 ti2 : TransactionItem.t) :
  filter (fun i => MenuItem.name i = menu_item_name
                   ∧ MenuItem.restaurant_id i = restaurant_id)
    (menu_items (Forecast.db self)) = [] ->
  t1 ∈ transactions (Forecast.db self) ->
  t2 ∈ transactions (Forecast.db self) ->
  ti1 ∈ transaction_items (Forecast.db self) ->
  ti2 ∈ transaction_items (Forecast.db self) ->
  SalesSpec.sold restaurant_id (today - 365) t1 ti1 ->
  SalesSpec.sold restaurant_id (today - 365) t2 ti2 ->
  Transaction.transaction_date t1 = Transaction.transaction_date t2 ->
  TransactionItem.menu_item_name ti1 <> TransactionItem.menu_item_name ti2 ->
  Forecast.generate_forecasts self today restaurant_id menu_item_name
    days_ahead category s0
  = (Raise (ValueError "cannot reindex on an axis with duplicate labels"),
     self, s0).
Proof.
  intros Hnone Ht1 Ht2 Hti1 Hti2 Hs1 Hs2 Hd Hn.
  pose proof (ServiceFacts.generate_forecasts_steps self today restaurant_id
                menu_item_name days_ahead category s0) as Hsteps.
  rewrite Hnone in Hsteps. cbn [scalar_one_or_none fmap option_fmap option_map]
    in Hsteps.
  by rewrite (FeaturesMoreFacts.unfiltered_two_items _ today restaurant_id 365
                t1 t2 ti1 ti2) in Hsteps.
Qed.

Lemma X22_unknown_name_two_items_witness :
  Forecast.generate_forecasts (Forecast.init MoreSamples.two_item_db)
    739253 1 "Ghost" 7 None (0%Z : @RandomState Lcg_numpy)
  = (Raise (ValueError "cannot reindex on an axis with duplicate labels"),
     Forecast.init MoreSamples.two_item_db, 0%Z).
Proof.
  apply (X22_unknown_name_two_items (Forecast.init MoreSamples.two_item_db)
           739253 1 "Ghost" 7 None (0%Z : @RandomState Lcg_numpy)
           {| Transaction.id := 1; Transaction.restaurant_id := 1;
              Transaction.transaction_date := 739252;
              Transaction.stockout_occurred := None |}
           {| Transaction.id := 1; Transaction.restaurant_id := 1;
              Transaction.transaction_date := 739252;
              Transaction.stockout_occurred := None |}
           {| TransactionItem.transaction_id := 1;
              TransactionItem.menu_item_name := "Burger";
              TransactionItem.quantity := 2 |}
           {| TransactionItem.transaction_id := 1;
              TransactionItem.menu_item_name := "Fries";
              TransactionItem.quantity := 1 |}).
  - reflexivity.
  - left.
  - left.
  - left.
  - right; left.
  - repeat split; vm_compute; discriminate.
  - repeat split; vm_compute; discriminate.
  - reflexivity.
  - discriminate.
Defined.

(** ** When the orchestrator cannot fail *)

Module SuccessFacts.

Import Num NumFacts Stats Bayesian Forecast BayesianSpec OrchestratorSpec.
Import Features FeaturesSpec ServiceSpec.

Lemma foldr_add_nonneg {A} (f : A -> Z) (l : list A) :
  (forall x, x ∈ l -> (0 <= f x)%Z) -> (0 <= foldr Z.add 0 (map f l))%Z.
Proof.
  induction l as [| a l IH]; intros Hl; simpl; [lia |].
  assert (0 <= f a)%Z by (apply Hl; left).
  assert (0 <= foldr Z.add 0 (map f l))%Z
    by (apply IH; intros x Hx; apply Hl; by right).
  lia.
Qed.

(** Non-negative line items give non-negative daily totals. *)
Lemma sales_query_nonneg (db : Session) (restaurant_id cutoff_date : Z)
    (target_name : option string) :
  (forall ti, ti ∈ transaction_items db ->
              (0 <= TransactionItem.quantity ti)%Z) ->
  forall r, r ∈ sales_query db restaurant_id cutoff_date target_name ->
            (0 <= daily_qty r)%Z.
Proof.
  intros Hq r. unfold sales_query. cbv zeta. intros Hr.
  apply list_elem_of_fmap in Hr as (k & -> & _). cbn [daily_qty].
  apply foldr_add_nonneg. intros [t ti] Hin. cbn.
  apply list_elem_of_filter in Hin as [_ Hin].
  apply list_elem_of_bind in Hin as (ti' & Hin & Hti').
  apply list_elem_of_bind in Hin as (t' & Hin & _).
  destruct (_ && _); [| by apply not_elem_of_nil in Hin].
  apply list_elem_of_singleton in Hin as [= -> ->]. by apply Hq.
Qed.

Lemma observations_nonneg (db : Session) (today restaurant_id : Z)
    (menu_item_id : option Z) (days_history : Z) (obs : list Row) :
  (forall ti, ti ∈ transaction_items db ->
              (0 <= TransactionItem.quantity ti)%Z) ->
  observations db today restaurant_id menu_item_id days_history = Ok obs ->
  Forall (fun o => 0 <= quantity o) obs.
Proof.
  intros Hq. unfold observations. cbv zeta.
  set (sd := manual_stockouts db restaurant_id _ menu_item_id).
  assert (Hframe : forall tn : option string,
    match sales_query db restaurant_id (today - days_history) tn with
    | [] => Ok []
    | r0 :: rest => daily_frame (r0 :: rest) tn sd
    end = Ok obs ->
    Forall (fun o => 0 <= quantity o) obs).
  { intros tn.
    pose proof (sales_query_nonneg db restaurant_id (today - days_history)
                  tn Hq) as Hrows.
    destruct (sales_query db restaurant_id (today - days_history) tn)
      as [| r0 rest]; [by intros [= <-] |].
    intros Hf.
    destruct (FeaturesMoreFacts.daily_frame_calendar (r0 :: rest) tn sd obs
                ltac:(discriminate) Hf) as (_ & lo & hi & _ & _ & _ & _ & Hobs).
    apply Forall_forall. intros o Ho. destruct (Hobs o Ho) as [Hsold Hnone].
    destruct (decide (index o ∈ sale_date <$> r0 :: rest)) as [Hin | Hout].
    - apply list_elem_of_fmap in Hin as (r & Hd & Hr).
      rewrite (Hsold r Hr (eq_sym Hd)).
      change 0 with (inject_Z 0). rewrite <- Zle_Qle. by apply Hrows.
    - destruct (Hnone Hout) as [-> _]. lra. }
  destruct menu_item_id as [mid |].
  - destruct (item_by_id db mid) as [item |]; [apply Hframe |].
    by intros [= <-].
  - apply Hframe.
Qed.

(** The imputation keeps a non-negative series non-negative. *)
Lemma dataset_nonneg (db : Session) (today restaurant_id : Z)
    (menu_item_id : option Z) (days_history : Z) (out : list FeatureRow) :
  (forall ti, ti ∈ transaction_items db ->
              (0 <= TransactionItem.quantity ti)%Z) ->
  create_training_dataset db today restaurant_id menu_item_id days_history
  = Ok out ->
  Forall (fun x => 0 <= x) ((fun r => adjusted_quantity (day r)) <$> out).
Proof.
  intros Hq Hout.
  destruct (FeaturesFacts.output_rows _ _ _ _ _ _ Hout) as (obs & Hobs & Hrows).
  pose proof (observations_nonneg _ _ _ _ _ _ Hq Hobs) as Hnn.
  rewrite Forall_forall in Hnn.
  apply Forall_fmap, Forall_forall. intros r Hr. cbn.
  destruct (Hrows r Hr) as (o & Ho & Hadj & ->).
  specialize (Hnn o Ho). destruct (stockout o).
  - cbn. unfold new_adjusted. cbv zeta. case_bool_decide.
    + pose proof (py_max_l (quantity o) (median (historical obs (index o)))).
      lra.
    + lra.
  - by rewrite Hadj.
Qed.

Lemma category_query_nonneg (db : Session) (restaurant_id start_date : Z) :
  (forall ti, ti ∈ transaction_items db ->
              (0 <= TransactionItem.quantity ti)%Z) ->
  forall r, r ∈ category_query db restaurant_id start_date -> (0 <= r.2)%Z.
Proof.
  intros Hq r. unfold category_query. intros Hin.
  apply list_elem_of_bind in Hin as (t & Hin & _).
  apply list_elem_of_bind in Hin as (ti & Hin & Hti).
  apply list_elem_of_bind in Hin as (i & Hin & _).
  case_bool_decide; [| by apply not_elem_of_nil in Hin].
  apply list_elem_of_singleton in Hin as ->. cbn. by apply Hq.
Qed.

Lemma fold_add_sample_nonneg (rows : list (Z * string * Z))
    (acc : gmap string (list Q)) :
  map_Forall (fun _ l => Forall (fun x => 0 <= x) l) acc ->
  (forall r, r ∈ rows -> (0 <= r.2)%Z) ->
  map_Forall (fun _ l => Forall (fun x => 0 <= x) l)
    (fold_left CategorySpec.add_sample rows acc).
Proof.
  revert acc. induction rows as [| r rows IH]; intros acc Hacc Hrows;
    [exact Hacc |].
  cbn [fold_left]. apply IH; [| intros x Hx; apply Hrows; by right].
  unfold CategorySpec.add_sample. apply map_Forall_insert_2; [| exact Hacc].
  apply Forall_app. split.
  - destruct (acc !! r.1.2) as [l |] eqn:E; [| constructor].
    exact (Hacc _ _ E).
  - constructor; [| constructor].
    change 0 with (inject_Z 0). rewrite <- Zle_Qle. apply Hrows. left.
Qed.

Lemma Forall_concat {A} (P : A -> Prop) (ls : list (list A)) :
  Forall (Forall P) ls -> Forall P (concat ls).
Proof.
  induction 1 as [| l ls Hl _ IH]; [constructor |].
  simpl. apply Forall_app. by split.
Qed.

(** The pooled samples of the reference group are non-negative. *)
Lemma samples_nonneg (db : Session) (today restaurant_id : Z)
    (category_name : string) (days : Z) :
  (forall ti, ti ∈ transaction_items db ->
              (0 <= TransactionItem.quantity ti)%Z) ->
  Forall (fun x => 0 <= x)
    (concat (map_to_list
               (_get_category_data db today restaurant_id category_name
                  days).2).*2).
Proof.
  intros Hq. rewrite CategoryDataFacts.get_category_data_folds.
  pose proof (category_query_nonneg db restaurant_id (today - days) Hq)
    as Hrows.
  destruct (category_query db restaurant_id (today - days)) as [| r rows].
  - cbn [snd]. rewrite map_to_list_empty. constructor.
  - cbn [snd]. apply Forall_concat, Forall_fmap, Forall_forall.
    intros [k l] Hkl. apply elem_of_map_to_list in Hkl. cbn.
    exact (fold_add_sample_nonneg (r :: rows) ∅ (map_Forall_empty _)
             Hrows k l Hkl).
Qed.

Lemma refreshed_alpha_positive (cat : string) (samples : list Q) :
  cat <> "" -> Forall (fun x => 0 <= x) samples ->
  0 < alpha (select_prior (refreshed cat samples) (Some cat)).1.
Proof.
  intros Hcat Hnn. destruct samples as [| y samples].
  - cbn [refreshed]. rewrite OrchestratorFacts.select_prior_default.
    reflexivity.
  - cbn [refreshed].
    destruct (LearnFacts.learn_priors_spec default_forecaster
                {[ cat := y :: samples ]}) as [_ Hc].
    unfold select_prior. rewrite bool_decide_eq_false_2 by exact Hcat.
    rewrite Hc, lookup_singleton_eq.
    cbn [fst BayesianSpec.learned alpha].
    change (alpha (global_prior default_forecaster)) with 2.0.
    pose proof (sum_nonneg _ Hnn). lra.
Qed.

Section Calls.
Context `{NumPy}.

(** With a Gamma prior, a non-negative history and non-negative
    multipliers, the sampling has valid parameters. *)
Lemma predict_item_succeeds (self : BayesianForecaster)
    (item_history : list Q) (history_dows : list Z)
    (future_dates : list string) (future_dows : list Z)
    (category : option string) (seasonal_multipliers : option (gmap Z Q))
    (s0 : RandomState) :
  0 < alpha (select_prior self category).1 ->
  0 < beta (select_prior self category).1 ->
  Forall (fun x => 0 <= x) item_history ->
  (forall dow : Z,
      0 <= get_multiplier (multipliers_or_flat seasonal_multipliers) dow) ->
  exists (fs : list ForecastDistribution) (s : RandomState),
    predict_item self item_history history_dows future_dates future_dows
      category seasonal_multipliers s0 = (Ok fs, s).
Proof.
  intros Ha Hb Hh Hm. rewrite PredictFacts.predict_item_unfold. cbv zeta.
  set (m := multipliers_or_flat seasonal_multipliers) in *.
  set (des := deseasonalized m (zip item_history history_dows)).
  assert (Hdes : 0 <= sum des).
  { apply sum_nonneg. unfold des, deseasonalized.
    apply Forall_fmap, Forall_forall. intros [q d] Hin. cbn.
    apply list_elem_of_filter in Hin as [Hge Hin]. cbn in Hge.
    apply elem_of_zip_l in Hin. rewrite Forall_forall in Hh.
    specialize (Hh q Hin).
    apply Qle_shift_div_l; lra. }
  pose proof (of_nat_nonneg (length des)) as Hn.
  destruct (Qeq_bool _ _) eqn:E; [apply Qeq_bool_eq in E; lra |].
  destruct (PredictFacts.forecast_loop_ok m
              (alpha (select_prior self category).1 + sum des)
              ((beta (select_prior self category).1 + of_nat (length des))
               / (beta (select_prior self category).1 + of_nat (length des)
                  + 1.0))
              (confidence_of (length des)) (length des)
              (select_prior self category).2
              (zip future_dates future_dows) (random_seed 42))
    as (fs & s & Hloop & _).
  { apply PredictFacts.domain_of_posterior; lra. }
  by exists fs, s.
Qed.

End Calls.

End SuccessFacts.

(** X23. A fresh service asked for an item that exists exactly once
    on the restaurant's menu cannot fail when no line item on record
    has a negative quantity: the feature builder returns, the learned
    prior is a Gamma prior, the history stays non-negative through
    the imputation, so every draw has valid parameters; the call
    returns and saves exactly [days_ahead] records. *)
Theorem X23_named_item_call_succeeds `{NumPy} (d : Session)
    (today restaurant_id : Z) (menu_item_name : string) (days_ahead : Z)
    (category : option string) (s0 : RandomState) (item : MenuItem.t) :
  filter (fun i => MenuItem.name i = menu_item_name
                   ∧ MenuItem.restaurant_id i = restaurant_id)
    (menu_items d) = [item] ->
  (forall ti, ti ∈ transaction_items d ->
              (0 <= TransactionItem.quantity ti)%Z) ->
  exists (saved : list DemandForecast.t) (self' : Forecast.ForecastService)
         (s' : RandomState),
    Forecast.generate_forecasts (Forecast.init d) today restaurant_id
      menu_item_name days_ahead category s0 = (Ok saved, self', s')
    /\ length saved = Z.to_nat days_ahead
    /\ demand_forecasts (Forecast.db self') = demand_forecasts d ++ saved.
Proof.
  intros Hitem Hq.
  pose proof (ServiceFacts.generate_forecasts_steps (Forecast.init d) today
                restaurant_id menu_item_name days_ahead category s0)
    as Hsteps.
  cbn [Forecast.init Forecast.db Forecast.forecaster] in Hsteps.
  rewrite Hitem in Hsteps.
  cbn [scalar_one_or_none fmap option_fmap option_map] in Hsteps.
  destruct (FeaturesMoreFacts.filtered_call_returns d today restaurant_id
              (MenuItem.id item) 365) as [df_item Hdf].
  rewrite Hdf in Hsteps. cbv zeta in Hsteps.
  pose proof (SuccessFacts.samples_nonneg d today restaurant_id
                (OrchestratorSpec.cat_context category) 90 Hq) as Hs.
  set (data := Forecast._get_category_data d today restaurant_id
                 (OrchestratorSpec.cat_context category) 90) in *.
  set (samples := concat (map_to_list data.2).*2) in *.
  change (match samples with
          | [] => Bayesian.default_forecaster
          | _ :: _ => Bayesian.learn_priors Bayesian.default_forecaster
                        {[ OrchestratorSpec.cat_context category := samples ]}
          end)
    with (OrchestratorSpec.refreshed (OrchestratorSpec.cat_context category)
            samples) in Hsteps.
  set (future := seqZ (ServiceSpec.training_end today df_item + 1) days_ahead)
    in *.
  destruct (SuccessFacts.predict_item_succeeds
              (OrchestratorSpec.refreshed
                 (OrchestratorSpec.cat_context category) samples)
              ((fun r => Features.adjusted_quantity (Features.day r))
                 <$> df_item)
              (Date.dayofweek
                 <$> ((fun r => Features.index (Features.day r)) <$> df_item))
              (Date.isoformat <$> future) (Date.dayofweek <$> future)
              (Some (OrchestratorSpec.cat_context category))
              (Some (Forecast._calculate_seasonality data.1)) s0)
    as (fs & s & Hp).
  - apply SuccessFacts.refreshed_alpha_positive;
      [apply OrchestratorFacts.cat_context_nonempty | exact Hs].
  - apply OrchestratorFacts.refreshed_beta_positive,
      OrchestratorFacts.cat_context_nonempty.
  - exact (SuccessFacts.dataset_nonneg _ _ _ _ _ _ Hq Hdf).
  - apply PredictFacts.multipliers_or_flat_nonneg.
    intros profile [= <-]. apply ServiceFacts.seasonality_nonneg.
  - rewrite Hp in Hsteps. eexists _, _, _. split; [exact Hsteps |].
    split; [| reflexivity].
    rewrite length_imap.
    apply ServiceFacts.predict_item_dates in Hp.
    rewrite <- (length_fmap Bayesian.date), Hp, length_fmap, length_zip.
    unfold future. rewrite !length_fmap, length_seqZ. lia.
Qed.

Lemma X23_named_item_call_succeeds_witness :
  exists (saved : list DemandForecast.t) (self' : Forecast.ForecastService)
         (s' : @RandomState Lcg_numpy),
    Forecast.generate_forecasts (Forecast.init Sample.burger_db) Sample.today
      1 "Burger" 7 None (0%Z : @RandomState Lcg_numpy) = (Ok saved, self', s')
    /\ length saved = Z.to_nat 7
    /\ demand_forecasts (Forecast.db self')
       = demand_forecasts Sample.burger_db ++ saved.
Proof.
  apply (X23_named_item_call_succeeds Sample.burger_db Sample.today 1
           "Burger" 7 None (0%Z : @RandomState Lcg_numpy)
           {| MenuItem.id := 7; MenuItem.restaurant_id := 1;
              MenuItem.name := "Burger" |}).
  - reflexivity.
  - apply Forall_forall, (bool_decide_unpack _). vm_compute. reflexivity.
Defined.
